(** * openspdm: session registry, context data, transcripts and challenge

    A shallow embedding of the SPDM endpoint library:

    - [Library/SpdmCommonLib/SpdmCommonLibInternal.h]   (context layout)
    - [Library/SpdmCommonLib/SpdmCommonLibContextData.c] (registry, get/set)
    - [Library/SpdmCommonLib/SpdmCommonLibCryptoService.c] (transcript hashes)
    - [Library/SpdmRequesterLib/SpdmRequesterLibChallenge.c]
    - [Library/SpdmRequesterLib/SpdmRequesterLibEncapChallengeAuth.c]
    - [Library/SpdmLib/SpdmResponderLib/SpdmResponderLibChallengeAuth.c]

    Conventions.  A C integer of width w is a [Z] and every narrowing the C
    code performs is written out ([UINT8], [UINT16], [UINT32]).  Byte counts
    and array indices ([UINTN]) are [nat]: they measure buffers that live in
    memory.  A buffer handed over as pointer and size is a [list byte]; the
    empty list stands for a NULL pointer or a zero size wherever the code
    tests both together.  The EDK II [ASSERT] and [DEBUG] macros expand to
    nothing in a release build and are left out; the statement that follows
    an [ASSERT (FALSE)] is what the model executes. *)

From Stdlib Require Import ZArith List Bool Lia.
From Stdlib Require Import Strings.Byte.
From stdpp Require Import base list numbers.
Import ListNotations.
Open Scope Z_scope.

(* ================================================================== *)
(** * Machine integers and bytes *)
(* ================================================================== *)

Definition UINT8 (z : Z) : Z := z mod 2 ^ 8.
Definition UINT16 (z : Z) : Z := z mod 2 ^ 16.
Definition UINT32 (z : Z) : Z := z mod 2 ^ 32.

#[global] Instance byte_eq_decision : EqDecision byte := Byte.byte_eq_dec.

Definition byte_to_Z (b : byte) : Z := Z.of_N (Byte.to_N b).

Definition Z_to_byte (z : Z) : byte :=
  match Byte.of_N (Z.to_N (z mod 256)) with
  | Some b => b
  | None => x00
  end.

(** Reading a [UINTn] through a cast pointer, on the little-endian
    targets of the library. *)
Fixpoint ReadLE (bs : list byte) : Z :=
  match bs with
  | [] => 0
  | b :: rest => byte_to_Z b + 256 * ReadLE rest
  end.

Fixpoint WriteLE (n : nat) (z : Z) : list byte :=
  match n with
  | O => []
  | S k => Z_to_byte z :: WriteLE k (z / 256)
  end.

Definition ReadUnaligned (size offset : nat) (data : list byte) : Z :=
  ReadLE (take size (drop offset data)).

(** [ZeroMem (Buffer, Length)] on a fresh buffer. *)
Definition ZeroMem (Length : nat) : list byte := replicate Length x00.

(** [CopyMem (&Destination[Offset], Source, Length)]: the bytes of
    [Destination] before [Offset] and after [Offset + Length] stay. *)
Definition CopyMem (Destination : list byte) (Offset : nat) (Source : list byte)
  : list byte :=
  take Offset Destination ++ Source ++ drop (Offset + length Source) Destination.

(* ================================================================== *)
(** * RETURN_STATUS *)
(* ================================================================== *)

Inductive RETURN_STATUS : Type :=
| RETURN_SUCCESS
| RETURN_INVALID_PARAMETER
| RETURN_UNSUPPORTED
| RETURN_BUFFER_TOO_SMALL
| RETURN_NOT_READY
| RETURN_DEVICE_ERROR
| RETURN_NOT_FOUND
| RETURN_ACCESS_DENIED
| RETURN_NO_RESPONSE
| RETURN_SECURITY_VIOLATION.

#[global] Instance RETURN_STATUS_eq_dec : EqDecision RETURN_STATUS.
Proof. solve_decision. Defined.

Definition RETURN_ERROR (Status : RETURN_STATUS) : bool :=
  match Status with
  | RETURN_SUCCESS => false
  | _ => true
  end.

(* ================================================================== *)
(** * Constants of the protocol headers *)
(* ================================================================== *)

(** Modelled from the spec: [Include/IndustryStandard/Spdm.h] is not among
    the sources.  The spec fixes the wire format as DMTF SPDM 1.0/1.1; the
    constants below carry the values of that standard. *)
Module Spdm.

Definition SPDM_MESSAGE_VERSION_10 : Z := 0x10.
Definition SPDM_MESSAGE_VERSION_11 : Z := 0x11.

Definition SPDM_CHALLENGE_AUTH : Z := 0x03.
Definition SPDM_ERROR : Z := 0x7F.
Definition SPDM_CHALLENGE : Z := 0x83.

Definition SPDM_ERROR_CODE_INVALID_REQUEST : Z := 0x01.
Definition SPDM_ERROR_CODE_UNSUPPORTED_REQUEST : Z := 0x07.

Definition SPDM_NONCE_SIZE : nat := 32.
Definition sizeof_SPDM_MESSAGE_HEADER : nat := 4.
Definition sizeof_SPDM_CHALLENGE_REQUEST : nat := 4 + 32.
Definition sizeof_SPDM_CHALLENGE_AUTH_RESPONSE : nat := 4.
Definition sizeof_SPDM_CERT_CHAIN : nat := 4.
Definition sizeof_SPDM_MEASUREMENT_BLOCK_COMMON_HEADER : nat := 4.
Definition sizeof_SPDM_MEASUREMENT_BLOCK_DMTF_HEADER : nat := 3.
Definition sizeof_SPDM_MEASUREMENT_BLOCK_DMTF : nat := 4 + 3.

Definition SPDM_GET_CAPABILITIES_RESPONSE_FLAGS_CHAL_CAP : Z := 0x4.
Definition SPDM_GET_CAPABILITIES_REQUEST_FLAGS_ENCRYPT_CAP : Z := 0x40.
Definition SPDM_GET_CAPABILITIES_REQUEST_FLAGS_MAC_CAP : Z := 0x80.
Definition SPDM_GET_CAPABILITIES_REQUEST_FLAGS_MUT_AUTH_CAP : Z := 0x100.

Definition SPDM_CHALLENGE_REQUEST_NO_MEASUREMENT_SUMMARY_HASH : Z := 0.
Definition SPDM_CHALLENGE_REQUEST_TCB_COMPONENT_MEASUREMENT_HASH : Z := 1.
Definition SPDM_CHALLENGE_REQUEST_ALL_MEASUREMENTS_HASH : Z := 0xFF.

Definition SPDM_MEASUREMENT_BLOCK_MEASUREMENT_TYPE_IMMUTABLE_ROM : Z := 0.
Definition SPDM_MEASUREMENT_BLOCK_MEASUREMENT_TYPE_MASK : Z := 0x7.

Definition SPDM_KEY_EXCHANGE_RESPONSE_MUT_AUTH_REQUESTED : Z := 0x1.
Definition SPDM_KEY_EXCHANGE_RESPONSE_MUT_AUTH_REQUESTED_WITH_ENCAP_REQUEST : Z := 0x2.
Definition SPDM_KEY_EXCHANGE_RESPONSE_MUT_AUTH_REQUESTED_WITH_GET_DIGESTS : Z := 0x4.

End Spdm.
Export Spdm.

(** [SpdmCommonLibInternal.h] *)
Definition INVALID_SESSION_ID : Z := 0.

Definition SPDM_GET_VERSION_RECEIVE_FLAG : Z := 0x1.
Definition SPDM_GET_CAPABILITIES_RECEIVE_FLAG : Z := 0x2.
Definition SPDM_NEGOTIATE_ALGORITHMS_RECEIVE_FLAG : Z := 0x4.
Definition SPDM_GET_DIGESTS_RECEIVE_FLAG : Z := 0x8.
Definition SPDM_GET_CERTIFICATE_RECEIVE_FLAG : Z := 0x10.
Definition SPDM_CHALLENGE_RECEIVE_FLAG : Z := 0x20.

Definition SPDM_DEVICE_CONTEXT_VERSION : Z := 0x1.

(** Modelled from the spec: the compile-time maxima of the absent
    [SpdmLibConfig.h] ("session count, cert-chain size, message buffer
    small/large, PSK hint length, measurement record size") are parameters
    of the development; the session count is the length of the session
    array of a context. *)
Class SpdmLibConfig : Type := {
  MAX_SPDM_MESSAGE_BUFFER_SIZE : Z;
  MAX_SPDM_MESSAGE_SMALL_BUFFER_SIZE : Z;
  MAX_SPDM_CERT_CHAIN_SIZE : Z;
  MAX_SPDM_SLOT_COUNT : Z;
  MAX_SPDM_VERSION_COUNT : nat;
  MAX_SPDM_PSK_HINT_LENGTH : Z;
  MAX_SPDM_MEASUREMENT_RECORD_SIZE : nat;
  MAX_SPDM_REQUEST_RETRY_TIMES : Z;
  MAX_SPDM_OPAQUE_DATA_SIZE : nat;
  MAX_HASH_SIZE : nat;
  MAX_ASYM_KEY_SIZE : nat;
  DEFAULT_OPAQUE_LENGTH : nat;
  DEFAULT_OPAQUE_DATA : byte
}.

(* ================================================================== *)
(** * Managed buffers *)
(* ================================================================== *)

(** [MANAGED_BUFFER]: [BufferSize] is the length of [Buffer]. *)
Record MANAGED_BUFFER : Type := {
  MaxBufferSize : Z;
  Buffer : list byte
}.

Definition GetManagedBufferSize (ManagedBuffer : MANAGED_BUFFER) : nat :=
  length (Buffer ManagedBuffer).

Definition GetManagedBuffer (ManagedBuffer : MANAGED_BUFFER) : list byte :=
  Buffer ManagedBuffer.

(** Modelled from the spec: the body of [InitManagedBuffer] is not among
    the sources ("init(cap)"; the header: "MaxBufferSize: the maximum size
    in bytes of the managed buffer"). *)
Definition InitManagedBuffer (Max : Z) : MANAGED_BUFFER :=
  {| MaxBufferSize := Max; Buffer := [] |}.

(** Modelled from the spec: the body of [ResetManagedBuffer] is not among
    the sources ("reset zeros the length only"; the header: "The BufferSize
    is reset to 0.  The MaxBufferSize is unchanged."). *)
Definition ResetManagedBuffer (ManagedBuffer : MANAGED_BUFFER) : MANAGED_BUFFER :=
  {| MaxBufferSize := MaxBufferSize ManagedBuffer; Buffer := [] |}.

(** Modelled from the spec: the body of [AppendManagedBuffer] is not among
    the sources ("append fails with BufferOverflow when size + n > cap";
    the header names the status [RETURN_BUFFER_TOO_SMALL]). *)
Definition AppendManagedBuffer (ManagedBuffer : MANAGED_BUFFER) (Data : list byte)
  : RETURN_STATUS * MANAGED_BUFFER :=
  if decide (MaxBufferSize ManagedBuffer
             < Z.of_nat (GetManagedBufferSize ManagedBuffer + length Data))
  then (RETURN_BUFFER_TOO_SMALL, ManagedBuffer)
  else (RETURN_SUCCESS,
        {| MaxBufferSize := MaxBufferSize ManagedBuffer;
           Buffer := Buffer ManagedBuffer ++ Data |}).

(* ================================================================== *)
(** * The device context ([SpdmCommonLibInternal.h]) *)
(* ================================================================== *)

Record SPDM_DEVICE_CAPABILITY : Type := {
  CTExponent : Z;
  Flags : Z
}.

(** [MeasurementSpec] is read by [SpdmCommonLibCryptoService.c]. *)
Record SPDM_DEVICE_ALGORITHM : Type := {
  MeasurementSpec : Z;
  MeasurementHashAlgo : Z;
  BaseAsymAlgo : Z;
  BaseHashAlgo : Z;
  DHENamedGroup : Z;
  AEADCipherSuite : Z;
  ReqBaseAsymAlg : Z;
  KeySchedule : Z
}.

(** [DeviceMeasurement], [DeviceMeasurementCount] and [PrivatePem] are the
    fields the responder library of [SpdmResponderLibChallengeAuth.c]
    reads from its local context. *)
Record SPDM_LOCAL_CONTEXT : Type := {
  SpdmVersion : Z;
  LocalCapability : SPDM_DEVICE_CAPABILITY;
  LocalAlgorithm : SPDM_DEVICE_ALGORITHM;
  CertificateChain : list (list byte);
  SlotCount : Z;
  ProvisionedSlotNum : Z;
  PeerRootCertHashProvision : list byte;
  PeerCertChainProvision : list byte;
  PskHint : list byte;
  OpaqueChallengeAuthRsp : list byte;
  OpaqueMeasurementRsp : list byte;
  BasicMutAuthRequested : Z;
  MutAuthRequested : Z;
  DeviceMeasurement : list byte;
  DeviceMeasurementCount : Z;
  PrivatePem : option (list byte)
}.

(** Modelled from the spec: the enumeration [SPDM_CONNECTION_STATE] of the
    absent [SpdmCommonLib.h], in the order the spec lists its states. *)
Inductive SPDM_CONNECTION_STATE : Type :=
| SpdmConnectionStateNotStarted
| SpdmConnectionStateAfterVersion
| SpdmConnectionStateAfterCapabilities
| SpdmConnectionStateAfterNegotiateAlgorithms
| SpdmConnectionStateAfterDigests
| SpdmConnectionStateAfterCertificate
| SpdmConnectionStateAuthenticated.

Definition SPDM_CONNECTION_STATE_value (s : SPDM_CONNECTION_STATE) : Z :=
  match s with
  | SpdmConnectionStateNotStarted => 0
  | SpdmConnectionStateAfterVersion => 1
  | SpdmConnectionStateAfterCapabilities => 2
  | SpdmConnectionStateAfterNegotiateAlgorithms => 3
  | SpdmConnectionStateAfterDigests => 4
  | SpdmConnectionStateAfterCertificate => 5
  | SpdmConnectionStateAuthenticated => 6
  end.

Record SPDM_CONNECTION_INFO : Type := {
  ConnectionState : SPDM_CONNECTION_STATE;
  Version : list Z;
  Capability : SPDM_DEVICE_CAPABILITY;
  Algorithm : SPDM_DEVICE_ALGORITHM;
  PeerCertChainBuffer : list byte;
  LocalUsedCertChainBuffer : list byte
}.

Record SPDM_TRANSCRIPT : Type := {
  MessageA : MANAGED_BUFFER;
  MessageB : MANAGED_BUFFER;
  MessageC : MANAGED_BUFFER;
  MessageMutB : MANAGED_BUFFER;
  MessageMutC : MANAGED_BUFFER;
  M1M2 : MANAGED_BUFFER;
  L1L2 : MANAGED_BUFFER
}.

Record SPDM_SESSION_TRANSCRIPT : Type := {
  MessageK : MANAGED_BUFFER;
  MessageF : MANAGED_BUFFER
}.

Inductive SPDM_SESSION_TYPE : Type :=
| SpdmSessionTypeNone
| SpdmSessionTypeMacOnly
| SpdmSessionTypeEncMac
| SpdmSessionTypeMax.

(** Modelled from the spec: the secured-message context belongs to the
    absent [SpdmSecuredMessageLib]; it is kept as the record of what
    [SpdmSecuredMessageInitContext] and the setters called by
    [SpdmSessionInfoInit] store ("session-type, negotiated algorithm
    identifiers, PSK hint reference"). *)
Record SPDM_SECURED_MESSAGE_CONTEXT : Type := {
  SecUsePsk : bool;
  SecSessionType : SPDM_SESSION_TYPE;
  SecBaseHashAlgo : Z;
  SecDHENamedGroup : Z;
  SecAEADCipherSuite : Z;
  SecKeySchedule : Z;
  SecPskHint : list byte
}.

Record SPDM_SESSION_INFO : Type := {
  SessionId : Z;
  UsePsk : bool;
  SessionMutAuthRequested : Z;
  SessionTranscript : SPDM_SESSION_TRANSCRIPT;
  SecuredMessageContext : SPDM_SECURED_MESSAGE_CONTEXT
}.

Record SPDM_ENCAP_CONTEXT : Type := {
  EncapErrorState : Z;
  EncapState : Z;
  RequestId : Z;
  EncapSlotNum : Z;
  MeasurementHashType : Z;
  CertificateChainBuffer : MANAGED_BUFFER
}.

Inductive SPDM_STATUS : Type :=
| SPDM_STATUS_SUCCESS
| SPDM_STATUS_ERROR_DEVICE_NO_CAPABILITIES
| SPDM_STATUS_ERROR_CERTIFICATE_FAILURE
| SPDM_STATUS_ERROR_KEY_EXCHANGE_FAILURE.

Record SPDM_DEVICE_CONTEXT : Type := {
  ContextVersion : Z;
  ErrorState : SPDM_STATUS;
  EncapContext : SPDM_ENCAP_CONTEXT;
  LocalContext : SPDM_LOCAL_CONTEXT;
  ConnectionInfo : SPDM_CONNECTION_INFO;
  Transcript : SPDM_TRANSCRIPT;
  SessionInfo : list SPDM_SESSION_INFO;
  LatestSessionId : Z;
  SpdmCmdReceiveState : Z;
  ResponseState : Z;
  CurrentToken : Z;
  RetryTimes : Z
}.

(** ** Field assignment *)

Definition set_LocalAlgorithm (f : SPDM_DEVICE_ALGORITHM -> SPDM_DEVICE_ALGORITHM)
  (l : SPDM_LOCAL_CONTEXT) : SPDM_LOCAL_CONTEXT :=
  {| SpdmVersion := SpdmVersion l; LocalCapability := LocalCapability l;
     LocalAlgorithm := f (LocalAlgorithm l);
     CertificateChain := CertificateChain l; SlotCount := SlotCount l;
     ProvisionedSlotNum := ProvisionedSlotNum l;
     PeerRootCertHashProvision := PeerRootCertHashProvision l;
     PeerCertChainProvision := PeerCertChainProvision l;
     PskHint := PskHint l;
     OpaqueChallengeAuthRsp := OpaqueChallengeAuthRsp l;
     OpaqueMeasurementRsp := OpaqueMeasurementRsp l;
     BasicMutAuthRequested := BasicMutAuthRequested l;
     MutAuthRequested := MutAuthRequested l;
     DeviceMeasurement := DeviceMeasurement l;
     DeviceMeasurementCount := DeviceMeasurementCount l;
     PrivatePem := PrivatePem l |}.

Definition set_LocalCapability (f : SPDM_DEVICE_CAPABILITY -> SPDM_DEVICE_CAPABILITY)
  (l : SPDM_LOCAL_CONTEXT) : SPDM_LOCAL_CONTEXT :=
  {| SpdmVersion := SpdmVersion l; LocalCapability := f (LocalCapability l);
     LocalAlgorithm := LocalAlgorithm l;
     CertificateChain := CertificateChain l; SlotCount := SlotCount l;
     ProvisionedSlotNum := ProvisionedSlotNum l;
     PeerRootCertHashProvision := PeerRootCertHashProvision l;
     PeerCertChainProvision := PeerCertChainProvision l;
     PskHint := PskHint l;
     OpaqueChallengeAuthRsp := OpaqueChallengeAuthRsp l;
     OpaqueMeasurementRsp := OpaqueMeasurementRsp l;
     BasicMutAuthRequested := BasicMutAuthRequested l;
     MutAuthRequested := MutAuthRequested l;
     DeviceMeasurement := DeviceMeasurement l;
     DeviceMeasurementCount := DeviceMeasurementCount l;
     PrivatePem := PrivatePem l |}.

Definition set_CertificateChain (v : list (list byte)) (l : SPDM_LOCAL_CONTEXT)
  : SPDM_LOCAL_CONTEXT :=
  {| SpdmVersion := SpdmVersion l; LocalCapability := LocalCapability l;
     LocalAlgorithm := LocalAlgorithm l;
     CertificateChain := v; SlotCount := SlotCount l;
     ProvisionedSlotNum := ProvisionedSlotNum l;
     PeerRootCertHashProvision := PeerRootCertHashProvision l;
     PeerCertChainProvision := PeerCertChainProvision l;
     PskHint := PskHint l;
     OpaqueChallengeAuthRsp := OpaqueChallengeAuthRsp l;
     OpaqueMeasurementRsp := OpaqueMeasurementRsp l;
     BasicMutAuthRequested := BasicMutAuthRequested l;
     MutAuthRequested := MutAuthRequested l;
     DeviceMeasurement := DeviceMeasurement l;
     DeviceMeasurementCount := DeviceMeasurementCount l;
     PrivatePem := PrivatePem l |}.

Definition set_SlotCount (v : Z) (l : SPDM_LOCAL_CONTEXT) : SPDM_LOCAL_CONTEXT :=
  {| SpdmVersion := SpdmVersion l; LocalCapability := LocalCapability l;
     LocalAlgorithm := LocalAlgorithm l;
     CertificateChain := CertificateChain l; SlotCount := v;
     ProvisionedSlotNum := ProvisionedSlotNum l;
     PeerRootCertHashProvision := PeerRootCertHashProvision l;
     PeerCertChainProvision := PeerCertChainProvision l;
     PskHint := PskHint l;
     OpaqueChallengeAuthRsp := OpaqueChallengeAuthRsp l;
     OpaqueMeasurementRsp := OpaqueMeasurementRsp l;
     BasicMutAuthRequested := BasicMutAuthRequested l;
     MutAuthRequested := MutAuthRequested l;
     DeviceMeasurement := DeviceMeasurement l;
     DeviceMeasurementCount := DeviceMeasurementCount l;
     PrivatePem := PrivatePem l |}.

Definition set_PeerRootCertHashProvision (v : list byte) (l : SPDM_LOCAL_CONTEXT)
  : SPDM_LOCAL_CONTEXT :=
  {| SpdmVersion := SpdmVersion l; LocalCapability := LocalCapability l;
     LocalAlgorithm := LocalAlgorithm l;
     CertificateChain := CertificateChain l; SlotCount := SlotCount l;
     ProvisionedSlotNum := ProvisionedSlotNum l;
     PeerRootCertHashProvision := v;
     PeerCertChainProvision := PeerCertChainProvision l;
     PskHint := PskHint l;
     OpaqueChallengeAuthRsp := OpaqueChallengeAuthRsp l;
     OpaqueMeasurementRsp := OpaqueMeasurementRsp l;
     BasicMutAuthRequested := BasicMutAuthRequested l;
     MutAuthRequested := MutAuthRequested l;
     DeviceMeasurement := DeviceMeasurement l;
     DeviceMeasurementCount := DeviceMeasurementCount l;
     PrivatePem := PrivatePem l |}.

Definition set_PeerCertChainProvision (v : list byte) (l : SPDM_LOCAL_CONTEXT)
  : SPDM_LOCAL_CONTEXT :=
  {| SpdmVersion := SpdmVersion l; LocalCapability := LocalCapability l;
     LocalAlgorithm := LocalAlgorithm l;
     CertificateChain := CertificateChain l; SlotCount := SlotCount l;
     ProvisionedSlotNum := ProvisionedSlotNum l;
     PeerRootCertHashProvision := PeerRootCertHashProvision l;
     PeerCertChainProvision := v;
     PskHint := PskHint l;
     OpaqueChallengeAuthRsp := OpaqueChallengeAuthRsp l;
     OpaqueMeasurementRsp := OpaqueMeasurementRsp l;
     BasicMutAuthRequested := BasicMutAuthRequested l;
     MutAuthRequested := MutAuthRequested l;
     DeviceMeasurement := DeviceMeasurement l;
     DeviceMeasurementCount := DeviceMeasurementCount l;
     PrivatePem := PrivatePem l |}.

Definition set_PskHint (v : list byte) (l : SPDM_LOCAL_CONTEXT) : SPDM_LOCAL_CONTEXT :=
  {| SpdmVersion := SpdmVersion l; LocalCapability := LocalCapability l;
     LocalAlgorithm := LocalAlgorithm l;
     CertificateChain := CertificateChain l; SlotCount := SlotCount l;
     ProvisionedSlotNum := ProvisionedSlotNum l;
     PeerRootCertHashProvision := PeerRootCertHashProvision l;
     PeerCertChainProvision := PeerCertChainProvision l;
     PskHint := v;
     OpaqueChallengeAuthRsp := OpaqueChallengeAuthRsp l;
     OpaqueMeasurementRsp := OpaqueMeasurementRsp l;
     BasicMutAuthRequested := BasicMutAuthRequested l;
     MutAuthRequested := MutAuthRequested l;
     DeviceMeasurement := DeviceMeasurement l;
     DeviceMeasurementCount := DeviceMeasurementCount l;
     PrivatePem := PrivatePem l |}.

Definition set_BasicMutAuthRequested (v : Z) (l : SPDM_LOCAL_CONTEXT)
  : SPDM_LOCAL_CONTEXT :=
  {| SpdmVersion := SpdmVersion l; LocalCapability := LocalCapability l;
     LocalAlgorithm := LocalAlgorithm l;
     CertificateChain := CertificateChain l; SlotCount := SlotCount l;
     ProvisionedSlotNum := ProvisionedSlotNum l;
     PeerRootCertHashProvision := PeerRootCertHashProvision l;
     PeerCertChainProvision := PeerCertChainProvision l;
     PskHint := PskHint l;
     OpaqueChallengeAuthRsp := OpaqueChallengeAuthRsp l;
     OpaqueMeasurementRsp := OpaqueMeasurementRsp l;
     BasicMutAuthRequested := v;
     MutAuthRequested := MutAuthRequested l;
     DeviceMeasurement := DeviceMeasurement l;
     DeviceMeasurementCount := DeviceMeasurementCount l;
     PrivatePem := PrivatePem l |}.

Definition set_MutAuthRequested (v : Z) (l : SPDM_LOCAL_CONTEXT)
  : SPDM_LOCAL_CONTEXT :=
  {| SpdmVersion := SpdmVersion l; LocalCapability := LocalCapability l;
     LocalAlgorithm := LocalAlgorithm l;
     CertificateChain := CertificateChain l; SlotCount := SlotCount l;
     ProvisionedSlotNum := ProvisionedSlotNum l;
     PeerRootCertHashProvision := PeerRootCertHashProvision l;
     PeerCertChainProvision := PeerCertChainProvision l;
     PskHint := PskHint l;
     OpaqueChallengeAuthRsp := OpaqueChallengeAuthRsp l;
     OpaqueMeasurementRsp := OpaqueMeasurementRsp l;
     BasicMutAuthRequested := BasicMutAuthRequested l;
     MutAuthRequested := v;
     DeviceMeasurement := DeviceMeasurement l;
     DeviceMeasurementCount := DeviceMeasurementCount l;
     PrivatePem := PrivatePem l |}.

Definition set_ConnectionState (v : SPDM_CONNECTION_STATE) (c : SPDM_CONNECTION_INFO)
  : SPDM_CONNECTION_INFO :=
  {| ConnectionState := v; Version := Version c; Capability := Capability c;
     Algorithm := Algorithm c; PeerCertChainBuffer := PeerCertChainBuffer c;
     LocalUsedCertChainBuffer := LocalUsedCertChainBuffer c |}.

Definition set_MessageC (v : MANAGED_BUFFER) (t : SPDM_TRANSCRIPT) : SPDM_TRANSCRIPT :=
  {| MessageA := MessageA t; MessageB := MessageB t; MessageC := v;
     MessageMutB := MessageMutB t; MessageMutC := MessageMutC t;
     M1M2 := M1M2 t; L1L2 := L1L2 t |}.

Definition set_MessageMutC (v : MANAGED_BUFFER) (t : SPDM_TRANSCRIPT) : SPDM_TRANSCRIPT :=
  {| MessageA := MessageA t; MessageB := MessageB t; MessageC := MessageC t;
     MessageMutB := MessageMutB t; MessageMutC := v;
     M1M2 := M1M2 t; L1L2 := L1L2 t |}.

Definition set_M1M2 (v : MANAGED_BUFFER) (t : SPDM_TRANSCRIPT) : SPDM_TRANSCRIPT :=
  {| MessageA := MessageA t; MessageB := MessageB t; MessageC := MessageC t;
     MessageMutB := MessageMutB t; MessageMutC := MessageMutC t;
     M1M2 := v; L1L2 := L1L2 t |}.

Definition set_ErrorState (v : SPDM_STATUS) (c : SPDM_DEVICE_CONTEXT)
  : SPDM_DEVICE_CONTEXT :=
  {| ContextVersion := ContextVersion c; ErrorState := v;
     EncapContext := EncapContext c; LocalContext := LocalContext c;
     ConnectionInfo := ConnectionInfo c; Transcript := Transcript c;
     SessionInfo := SessionInfo c; LatestSessionId := LatestSessionId c;
     SpdmCmdReceiveState := SpdmCmdReceiveState c;
     ResponseState := ResponseState c; CurrentToken := CurrentToken c;
     RetryTimes := RetryTimes c |}.

Definition set_EncapContext (v : SPDM_ENCAP_CONTEXT) (c : SPDM_DEVICE_CONTEXT)
  : SPDM_DEVICE_CONTEXT :=
  {| ContextVersion := ContextVersion c; ErrorState := ErrorState c;
     EncapContext := v; LocalContext := LocalContext c;
     ConnectionInfo := ConnectionInfo c; Transcript := Transcript c;
     SessionInfo := SessionInfo c; LatestSessionId := LatestSessionId c;
     SpdmCmdReceiveState := SpdmCmdReceiveState c;
     ResponseState := ResponseState c; CurrentToken := CurrentToken c;
     RetryTimes := RetryTimes c |}.

Definition set_LocalContext (f : SPDM_LOCAL_CONTEXT -> SPDM_LOCAL_CONTEXT)
  (c : SPDM_DEVICE_CONTEXT) : SPDM_DEVICE_CONTEXT :=
  {| ContextVersion := ContextVersion c; ErrorState := ErrorState c;
     EncapContext := EncapContext c; LocalContext := f (LocalContext c);
     ConnectionInfo := ConnectionInfo c; Transcript := Transcript c;
     SessionInfo := SessionInfo c; LatestSessionId := LatestSessionId c;
     SpdmCmdReceiveState := SpdmCmdReceiveState c;
     ResponseState := ResponseState c; CurrentToken := CurrentToken c;
     RetryTimes := RetryTimes c |}.

Definition set_ConnectionInfo (f : SPDM_CONNECTION_INFO -> SPDM_CONNECTION_INFO)
  (c : SPDM_DEVICE_CONTEXT) : SPDM_DEVICE_CONTEXT :=
  {| ContextVersion := ContextVersion c; ErrorState := ErrorState c;
     EncapContext := EncapContext c; LocalContext := LocalContext c;
     ConnectionInfo := f (ConnectionInfo c); Transcript := Transcript c;
     SessionInfo := SessionInfo c; LatestSessionId := LatestSessionId c;
     SpdmCmdReceiveState := SpdmCmdReceiveState c;
     ResponseState := ResponseState c; CurrentToken := CurrentToken c;
     RetryTimes := RetryTimes c |}.

Definition set_Transcript (f : SPDM_TRANSCRIPT -> SPDM_TRANSCRIPT)
  (c : SPDM_DEVICE_CONTEXT) : SPDM_DEVICE_CONTEXT :=
  {| ContextVersion := ContextVersion c; ErrorState := ErrorState c;
     EncapContext := EncapContext c; LocalContext := LocalContext c;
     ConnectionInfo := ConnectionInfo c; Transcript := f (Transcript c);
     SessionInfo := SessionInfo c; LatestSessionId := LatestSessionId c;
     SpdmCmdReceiveState := SpdmCmdReceiveState c;
     ResponseState := ResponseState c; CurrentToken := CurrentToken c;
     RetryTimes := RetryTimes c |}.

Definition set_SessionInfo (v : list SPDM_SESSION_INFO) (c : SPDM_DEVICE_CONTEXT)
  : SPDM_DEVICE_CONTEXT :=
  {| ContextVersion := ContextVersion c; ErrorState := ErrorState c;
     EncapContext := EncapContext c; LocalContext := LocalContext c;
     ConnectionInfo := ConnectionInfo c; Transcript := Transcript c;
     SessionInfo := v; LatestSessionId := LatestSessionId c;
     SpdmCmdReceiveState := SpdmCmdReceiveState c;
     ResponseState := ResponseState c; CurrentToken := CurrentToken c;
     RetryTimes := RetryTimes c |}.

Definition set_LatestSessionId (v : Z) (c : SPDM_DEVICE_CONTEXT)
  : SPDM_DEVICE_CONTEXT :=
  {| ContextVersion := ContextVersion c; ErrorState := ErrorState c;
     EncapContext := EncapContext c; LocalContext := LocalContext c;
     ConnectionInfo := ConnectionInfo c; Transcript := Transcript c;
     SessionInfo := SessionInfo c; LatestSessionId := v;
     SpdmCmdReceiveState := SpdmCmdReceiveState c;
     ResponseState := ResponseState c; CurrentToken := CurrentToken c;
     RetryTimes := RetryTimes c |}.

Definition set_SpdmCmdReceiveState (v : Z) (c : SPDM_DEVICE_CONTEXT)
  : SPDM_DEVICE_CONTEXT :=
  {| ContextVersion := ContextVersion c; ErrorState := ErrorState c;
     EncapContext := EncapContext c; LocalContext := LocalContext c;
     ConnectionInfo := ConnectionInfo c; Transcript := Transcript c;
     SessionInfo := SessionInfo c; LatestSessionId := LatestSessionId c;
     SpdmCmdReceiveState := v;
     ResponseState := ResponseState c; CurrentToken := CurrentToken c;
     RetryTimes := RetryTimes c |}.

Definition set_ResponseState (v : Z) (c : SPDM_DEVICE_CONTEXT)
  : SPDM_DEVICE_CONTEXT :=
  {| ContextVersion := ContextVersion c; ErrorState := ErrorState c;
     EncapContext := EncapContext c; LocalContext := LocalContext c;
     ConnectionInfo := ConnectionInfo c; Transcript := Transcript c;
     SessionInfo := SessionInfo c; LatestSessionId := LatestSessionId c;
     SpdmCmdReceiveState := SpdmCmdReceiveState c;
     ResponseState := v; CurrentToken := CurrentToken c;
     RetryTimes := RetryTimes c |}.

(* ================================================================== *)
(** * Session registry ([SpdmCommonLibContextData.c]) *)
(* ================================================================== *)

Section ContextData.
Context `{Config : SpdmLibConfig}.

(** [SpdmSessionInfoInit]: the [ZeroMem] up to [SecuredMessageContext]
    clears the id, the flags and both session transcripts; the two
    [MaxBufferSize] fields are then set again. *)
Definition SpdmSessionInfoInit (SpdmContext : SPDM_DEVICE_CONTEXT)
  (Id : Z) (Psk : bool) : SPDM_SESSION_INFO :=
  let caps :=
    Z.land (Flags (Capability (ConnectionInfo SpdmContext)))
           (Z.lor SPDM_GET_CAPABILITIES_REQUEST_FLAGS_ENCRYPT_CAP
                  SPDM_GET_CAPABILITIES_REQUEST_FLAGS_MAC_CAP) in
  let SessionType :=
    if decide (caps = 0) then SpdmSessionTypeNone
    else if decide (caps = Z.lor SPDM_GET_CAPABILITIES_REQUEST_FLAGS_ENCRYPT_CAP
                                 SPDM_GET_CAPABILITIES_REQUEST_FLAGS_MAC_CAP)
    then SpdmSessionTypeEncMac
    else if decide (caps = SPDM_GET_CAPABILITIES_REQUEST_FLAGS_MAC_CAP)
    then SpdmSessionTypeMacOnly
    else SpdmSessionTypeMax in
  {| SessionId := Id;
     UsePsk := Psk;
     SessionMutAuthRequested := 0;
     SessionTranscript :=
       {| MessageK := InitManagedBuffer MAX_SPDM_MESSAGE_BUFFER_SIZE;
          MessageF := InitManagedBuffer MAX_SPDM_MESSAGE_BUFFER_SIZE |};
     SecuredMessageContext :=
       {| SecUsePsk := Psk;
          SecSessionType := SessionType;
          SecBaseHashAlgo := BaseHashAlgo (Algorithm (ConnectionInfo SpdmContext));
          SecDHENamedGroup := DHENamedGroup (Algorithm (ConnectionInfo SpdmContext));
          SecAEADCipherSuite := AEADCipherSuite (Algorithm (ConnectionInfo SpdmContext));
          SecKeySchedule := KeySchedule (Algorithm (ConnectionInfo SpdmContext));
          SecPskHint := PskHint (LocalContext SpdmContext) |} |}.

(** [for (Index = 0; Index < MAX_SPDM_SESSION_COUNT; Index++)
       if (Test (SessionInfo[Index])) return Index;]
    over the slots from [Index] on; [None] when the loop runs out. *)
Fixpoint SessionLoop (Test : SPDM_SESSION_INFO -> bool)
  (Slots : list SPDM_SESSION_INFO) (Index : nat) : option nat :=
  match Slots with
  | [] => None
  | Slot :: Rest =>
      if Test Slot then Some Index else SessionLoop Test Rest (S Index)
  end.

(** The returned pointer [&SessionInfo[Index]] is the index; [NULL] is
    [None]. *)
Definition SpdmGetSessionInfoViaSessionId (SpdmContext : SPDM_DEVICE_CONTEXT)
  (Id : Z) : option nat :=
  if decide (Id = INVALID_SESSION_ID) then None
  else SessionLoop (fun s => bool_decide (SessionId s = Id))
                   (SessionInfo SpdmContext) 0.

Definition SpdmAssignSessionId (SpdmContext : SPDM_DEVICE_CONTEXT)
  (Id : Z) (Psk : bool) : option nat * SPDM_DEVICE_CONTEXT :=
  if decide (Id = INVALID_SESSION_ID) then (None, SpdmContext)
  else
    match SessionLoop (fun s => bool_decide (SessionId s = Id))
                      (SessionInfo SpdmContext) 0 with
    | Some _ => (None, SpdmContext)
    | None =>
        match SessionLoop (fun s => bool_decide (SessionId s = INVALID_SESSION_ID))
                          (SessionInfo SpdmContext) 0 with
        | Some Index =>
            (Some Index,
             set_LatestSessionId Id
               (set_SessionInfo
                  (<[Index := SpdmSessionInfoInit SpdmContext Id Psk]>
                     (SessionInfo SpdmContext))
                  SpdmContext))
        | None => (None, SpdmContext)
        end
    end.

Definition SpdmAllocateReqSessionId (SpdmContext : SPDM_DEVICE_CONTEXT) : Z :=
  match SessionLoop
          (fun s => bool_decide (Z.land (SessionId s) 0xFFFF0000
                                 = Z.land INVALID_SESSION_ID 0xFFFF0000))
          (SessionInfo SpdmContext) 0 with
  | Some Index => UINT16 (0xFFFF - Z.of_nat Index)
  | None => UINT16 (Z.shiftr (Z.land INVALID_SESSION_ID 0xFFFF0000) 16)
  end.

Definition SpdmAllocateRspSessionId (SpdmContext : SPDM_DEVICE_CONTEXT) : Z :=
  match SessionLoop
          (fun s => bool_decide (Z.land (SessionId s) 0xFFFF
                                 = Z.land INVALID_SESSION_ID 0xFFFF))
          (SessionInfo SpdmContext) 0 with
  | Some Index => UINT16 (0xFFFF - Z.of_nat Index)
  | None => UINT16 (Z.land INVALID_SESSION_ID 0xFFFF)
  end.

Definition SpdmFreeSessionId (SpdmContext : SPDM_DEVICE_CONTEXT) (Id : Z)
  : option nat * SPDM_DEVICE_CONTEXT :=
  if decide (Id = INVALID_SESSION_ID) then (None, SpdmContext)
  else
    match SessionLoop (fun s => bool_decide (SessionId s = Id))
                      (SessionInfo SpdmContext) 0 with
    | Some Index =>
        (Some Index,
         set_SessionInfo
           (<[Index := SpdmSessionInfoInit SpdmContext INVALID_SESSION_ID false]>
              (SessionInfo SpdmContext))
           SpdmContext)
    | None => (None, SpdmContext)
    end.

End ContextData.

(* ================================================================== *)
(** * Get and set of context data ([SpdmCommonLibContextData.c]) *)
(* ================================================================== *)

(** Modelled from the spec: the enumerations [SPDM_DATA_TYPE] and
    [SPDM_DATA_LOCATION] and the structure [SPDM_DATA_PARAMETER] belong to
    the absent [SpdmCommonLib.h].  The tags named by the two [switch]
    statements are constructors; they lie below the debug-only range
    [0x80000000].  [SpdmDataOther] carries any other value of the
    enumeration. *)
Inductive SPDM_DATA_TYPE : Type :=
| SpdmDataCapabilityFlags
| SpdmDataCapabilityCTExponent
| SpdmDataMeasurementHashAlgo
| SpdmDataBaseAsymAlgo
| SpdmDataBaseHashAlgo
| SpdmDataDHENamedGroup
| SpdmDataAEADCipherSuite
| SpdmDataReqBaseAsymAlg
| SpdmDataKeySchedule
| SpdmDataConnectionState
| SpdmDataResponseState
| SpdmDataPeerPublicRootCertHash
| SpdmDataPeerPublicCertChains
| SpdmDataSlotCount
| SpdmDataPublicCertChains
| SpdmDataBasicMutAuthRequested
| SpdmDataMutAuthRequested
| SpdmDataPskHint
| SpdmDataOther (Value : Z).

#[global] Instance SPDM_DATA_TYPE_eq_dec : EqDecision SPDM_DATA_TYPE.
Proof. solve_decision. Defined.

Inductive SPDM_DATA_LOCATION : Type :=
| SpdmDataLocationLocal
| SpdmDataLocationConnection
| SpdmDataLocationSession.

#[global] Instance SPDM_DATA_LOCATION_eq_dec : EqDecision SPDM_DATA_LOCATION.
Proof. solve_decision. Defined.

Record SPDM_DATA_PARAMETER : Type := {
  Location : SPDM_DATA_LOCATION;
  AdditionalData : list byte
}.

Definition AdditionalDataAt (Param : SPDM_DATA_PARAMETER) (i : nat) : Z :=
  byte_to_Z (nth i (AdditionalData Param) x00).

Definition IsDebugOnlyData (DataType : SPDM_DATA_TYPE) : bool :=
  match DataType with
  | SpdmDataOther Value => bool_decide (0x80000000 <= UINT32 Value)
  | _ => false
  end.

Definition NeedSessionInfoForData (DataType : SPDM_DATA_TYPE) : bool := false.

Definition SpdmInitEncapEnv (SpdmContext : SPDM_DEVICE_CONTEXT)
  (MutAuthRequested SlotNum MeasurementHashType : Z) : SPDM_DEVICE_CONTEXT :=
  set_EncapContext
    {| EncapErrorState := 0; EncapState := 0; RequestId := 0;
       EncapSlotNum := SlotNum; MeasurementHashType := MeasurementHashType;
       CertificateChainBuffer :=
         CertificateChainBuffer (EncapContext SpdmContext) |}
    SpdmContext.

Definition set_MeasurementHashAlgo (v : Z) (a : SPDM_DEVICE_ALGORITHM) :=
  {| MeasurementSpec := MeasurementSpec a; MeasurementHashAlgo := v;
     BaseAsymAlgo := BaseAsymAlgo a; BaseHashAlgo := BaseHashAlgo a;
     DHENamedGroup := DHENamedGroup a; AEADCipherSuite := AEADCipherSuite a;
     ReqBaseAsymAlg := ReqBaseAsymAlg a; KeySchedule := KeySchedule a |}.

Definition set_BaseAsymAlgo (v : Z) (a : SPDM_DEVICE_ALGORITHM) :=
  {| MeasurementSpec := MeasurementSpec a;
     MeasurementHashAlgo := MeasurementHashAlgo a;
     BaseAsymAlgo := v; BaseHashAlgo := BaseHashAlgo a;
     DHENamedGroup := DHENamedGroup a; AEADCipherSuite := AEADCipherSuite a;
     ReqBaseAsymAlg := ReqBaseAsymAlg a; KeySchedule := KeySchedule a |}.

Definition set_BaseHashAlgo (v : Z) (a : SPDM_DEVICE_ALGORITHM) :=
  {| MeasurementSpec := MeasurementSpec a;
     MeasurementHashAlgo := MeasurementHashAlgo a;
     BaseAsymAlgo := BaseAsymAlgo a; BaseHashAlgo := v;
     DHENamedGroup := DHENamedGroup a; AEADCipherSuite := AEADCipherSuite a;
     ReqBaseAsymAlg := ReqBaseAsymAlg a; KeySchedule := KeySchedule a |}.

Definition set_DHENamedGroup (v : Z) (a : SPDM_DEVICE_ALGORITHM) :=
  {| MeasurementSpec := MeasurementSpec a;
     MeasurementHashAlgo := MeasurementHashAlgo a;
     BaseAsymAlgo := BaseAsymAlgo a; BaseHashAlgo := BaseHashAlgo a;
     DHENamedGroup := v; AEADCipherSuite := AEADCipherSuite a;
     ReqBaseAsymAlg := ReqBaseAsymAlg a; KeySchedule := KeySchedule a |}.

Definition set_AEADCipherSuite (v : Z) (a : SPDM_DEVICE_ALGORITHM) :=
  {| MeasurementSpec := MeasurementSpec a;
     MeasurementHashAlgo := MeasurementHashAlgo a;
     BaseAsymAlgo := BaseAsymAlgo a; BaseHashAlgo := BaseHashAlgo a;
     DHENamedGroup := DHENamedGroup a; AEADCipherSuite := v;
     ReqBaseAsymAlg := ReqBaseAsymAlg a; KeySchedule := KeySchedule a |}.

Definition set_ReqBaseAsymAlg (v : Z) (a : SPDM_DEVICE_ALGORITHM) :=
  {| MeasurementSpec := MeasurementSpec a;
     MeasurementHashAlgo := MeasurementHashAlgo a;
     BaseAsymAlgo := BaseAsymAlgo a; BaseHashAlgo := BaseHashAlgo a;
     DHENamedGroup := DHENamedGroup a; AEADCipherSuite := AEADCipherSuite a;
     ReqBaseAsymAlg := v; KeySchedule := KeySchedule a |}.

Definition set_KeySchedule (v : Z) (a : SPDM_DEVICE_ALGORITHM) :=
  {| MeasurementSpec := MeasurementSpec a;
     MeasurementHashAlgo := MeasurementHashAlgo a;
     BaseAsymAlgo := BaseAsymAlgo a; BaseHashAlgo := BaseHashAlgo a;
     DHENamedGroup := DHENamedGroup a; AEADCipherSuite := AEADCipherSuite a;
     ReqBaseAsymAlg := ReqBaseAsymAlg a; KeySchedule := v |}.

Definition set_Flags (v : Z) (c : SPDM_DEVICE_CAPABILITY) :=
  {| CTExponent := CTExponent c; Flags := v |}.

Definition set_CTExponent (v : Z) (c : SPDM_DEVICE_CAPABILITY) :=
  {| CTExponent := v; Flags := Flags c |}.

Section DataApi.
Context `{Config : SpdmLibConfig}.

(** [SpdmSetData].  [Data] is the buffer of [DataSize = length Data] bytes;
    a field assigned through a cast pointer takes the little-endian value
    of the buffer, whose size the code has just checked.
    [sizeof (BOOLEAN)] is 1. *)
Definition SpdmSetData (SpdmContext : SPDM_DEVICE_CONTEXT)
  (DataType : SPDM_DATA_TYPE) (Param : SPDM_DATA_PARAMETER)
  (Data : list byte) : RETURN_STATUS * SPDM_DEVICE_CONTEXT :=
  let DataSize := length Data in
  let SizeIs (n : nat) (k : SPDM_DEVICE_CONTEXT) :=
    if decide (DataSize = n) then (RETURN_SUCCESS, k)
    else (RETURN_INVALID_PARAMETER, SpdmContext) in
  let Local (f : SPDM_LOCAL_CONTEXT -> SPDM_LOCAL_CONTEXT) :=
    set_LocalContext f SpdmContext in
  if IsDebugOnlyData DataType then (RETURN_UNSUPPORTED, SpdmContext)
  else if NeedSessionInfoForData DataType
          && (bool_decide (Location Param <> SpdmDataLocationSession)
              || bool_decide (SpdmGetSessionInfoViaSessionId SpdmContext
                                (ReadLE (take 4 (AdditionalData Param)))
                              = None))
  then (RETURN_INVALID_PARAMETER, SpdmContext)
  else
    match DataType with
    | SpdmDataCapabilityFlags =>
        SizeIs 4%nat (Local (set_LocalCapability (set_Flags (ReadLE Data))))
    | SpdmDataCapabilityCTExponent =>
        SizeIs 1%nat (Local (set_LocalCapability (set_CTExponent (ReadLE Data))))
    | SpdmDataMeasurementHashAlgo =>
        SizeIs 4%nat (Local (set_LocalAlgorithm (set_MeasurementHashAlgo (ReadLE Data))))
    | SpdmDataBaseAsymAlgo =>
        SizeIs 4%nat (Local (set_LocalAlgorithm (set_BaseAsymAlgo (ReadLE Data))))
    | SpdmDataBaseHashAlgo =>
        SizeIs 4%nat (Local (set_LocalAlgorithm (set_BaseHashAlgo (ReadLE Data))))
    | SpdmDataDHENamedGroup =>
        SizeIs 2%nat (Local (set_LocalAlgorithm (set_DHENamedGroup (ReadLE Data))))
    | SpdmDataAEADCipherSuite =>
        SizeIs 2%nat (Local (set_LocalAlgorithm (set_AEADCipherSuite (ReadLE Data))))
    | SpdmDataReqBaseAsymAlg =>
        SizeIs 2%nat (Local (set_LocalAlgorithm (set_ReqBaseAsymAlg (ReadLE Data))))
    | SpdmDataKeySchedule =>
        SizeIs 2%nat (Local (set_LocalAlgorithm (set_KeySchedule (ReadLE Data))))
    | SpdmDataResponseState =>
        SizeIs 4%nat (set_ResponseState (ReadLE Data) SpdmContext)
    | SpdmDataPeerPublicRootCertHash =>
        (RETURN_SUCCESS, Local (set_PeerRootCertHashProvision Data))
    | SpdmDataPeerPublicCertChains =>
        (RETURN_SUCCESS, Local (set_PeerCertChainProvision Data))
    | SpdmDataSlotCount =>
        if decide (DataSize = 1%nat) then
          let SlotNum := ReadLE Data in
          if decide (MAX_SPDM_SLOT_COUNT < SlotNum)
          then (RETURN_INVALID_PARAMETER, SpdmContext)
          else (RETURN_SUCCESS, Local (set_SlotCount SlotNum))
        else (RETURN_INVALID_PARAMETER, SpdmContext)
    | SpdmDataPublicCertChains =>
        let SlotNum := AdditionalDataAt Param 0 in
        if decide (SlotCount (LocalContext SpdmContext) <= SlotNum)
        then (RETURN_INVALID_PARAMETER, SpdmContext)
        else (RETURN_SUCCESS,
              Local (fun l =>
                set_CertificateChain
                  (<[Z.to_nat SlotNum := Data]> (CertificateChain l)) l))
    | SpdmDataBasicMutAuthRequested =>
        SizeIs 1%nat (Local (set_BasicMutAuthRequested (ReadLE Data)))
    | SpdmDataMutAuthRequested =>
        if decide (DataSize = 1%nat) then
          let Requested := ReadLE Data in
          if negb (bool_decide (Requested = 0)
                   || bool_decide
                        (Requested =
                         Z.lor SPDM_KEY_EXCHANGE_RESPONSE_MUT_AUTH_REQUESTED
                               SPDM_KEY_EXCHANGE_RESPONSE_MUT_AUTH_REQUESTED_WITH_ENCAP_REQUEST)
                   || bool_decide
                        (Requested =
                         Z.lor SPDM_KEY_EXCHANGE_RESPONSE_MUT_AUTH_REQUESTED
                               SPDM_KEY_EXCHANGE_RESPONSE_MUT_AUTH_REQUESTED_WITH_GET_DIGESTS))
          then (RETURN_INVALID_PARAMETER, SpdmContext)
          else (RETURN_SUCCESS,
                SpdmInitEncapEnv (Local (set_MutAuthRequested Requested))
                  Requested (AdditionalDataAt Param 0)
                  (AdditionalDataAt Param 1))
        else (RETURN_INVALID_PARAMETER, SpdmContext)
    | SpdmDataPskHint =>
        if decide (MAX_SPDM_PSK_HINT_LENGTH < Z.of_nat DataSize)
        then (RETURN_INVALID_PARAMETER, SpdmContext)
        else (RETURN_SUCCESS, Local (set_PskHint Data))
    | _ => (RETURN_UNSUPPORTED, SpdmContext)
    end.

(** [SpdmGetData].  [DataSize] is the capacity of the caller's buffer on
    input; the result carries the status, the size written back to
    [*DataSize] and the bytes copied to [Data] (none unless the status is
    [RETURN_SUCCESS]). *)
Definition SpdmGetData (SpdmContext : SPDM_DEVICE_CONTEXT)
  (DataType : SPDM_DATA_TYPE) (Param : SPDM_DATA_PARAMETER)
  (DataSize : nat) : RETURN_STATUS * nat * list byte :=
  let Target (TargetDataSize : nat) (TargetData : Z) :=
    if decide (DataSize < TargetDataSize)%nat
    then (RETURN_BUFFER_TOO_SMALL, TargetDataSize, [])
    else (RETURN_SUCCESS, TargetDataSize, WriteLE TargetDataSize TargetData) in
  let Connection (TargetDataSize : nat) (TargetData : Z) :=
    if decide (Location Param <> SpdmDataLocationConnection)
    then (RETURN_INVALID_PARAMETER, DataSize, [])
    else Target TargetDataSize TargetData in
  let Info := ConnectionInfo SpdmContext in
  if IsDebugOnlyData DataType then (RETURN_UNSUPPORTED, DataSize, [])
  else if NeedSessionInfoForData DataType
          && (bool_decide (Location Param <> SpdmDataLocationSession)
              || bool_decide (SpdmGetSessionInfoViaSessionId SpdmContext
                                (ReadLE (take 4 (AdditionalData Param)))
                              = None))
  then (RETURN_INVALID_PARAMETER, DataSize, [])
  else
    match DataType with
    | SpdmDataCapabilityFlags => Connection 4%nat (Flags (Capability Info))
    | SpdmDataCapabilityCTExponent => Connection 1%nat (CTExponent (Capability Info))
    | SpdmDataMeasurementHashAlgo => Connection 4%nat (MeasurementHashAlgo (Algorithm Info))
    | SpdmDataBaseAsymAlgo => Connection 4%nat (BaseAsymAlgo (Algorithm Info))
    | SpdmDataBaseHashAlgo => Connection 4%nat (BaseHashAlgo (Algorithm Info))
    | SpdmDataDHENamedGroup => Connection 2%nat (DHENamedGroup (Algorithm Info))
    | SpdmDataAEADCipherSuite => Connection 2%nat (AEADCipherSuite (Algorithm Info))
    | SpdmDataReqBaseAsymAlg => Connection 2%nat (ReqBaseAsymAlg (Algorithm Info))
    | SpdmDataKeySchedule => Connection 2%nat (KeySchedule (Algorithm Info))
    | SpdmDataConnectionState =>
        Connection 4%nat (SPDM_CONNECTION_STATE_value (ConnectionState Info))
    | SpdmDataResponseState => Target 4%nat (ResponseState SpdmContext)
    | _ => (RETURN_UNSUPPORTED, DataSize, [])
    end.

Definition SpdmIsVersionSupported (SpdmContext : SPDM_DEVICE_CONTEXT)
  (SpdmVer : Z) : bool :=
  existsb (fun v => bool_decide (SpdmVer = v))
          (Version (ConnectionInfo SpdmContext)).

End DataApi.


(** [SpdmInitContext]: [ZeroMem] of the whole context, then the fields the
    function sets.  The session array has [SessionCount] slots
    ([MAX_SPDM_SESSION_COUNT]); each secured-message context is
    initialised.  [SpdmResponseStateNormal] is the zero of its
    enumeration. *)
Section InitContext.
Context `{Config : SpdmLibConfig}.

Definition ZeroAlgorithm : SPDM_DEVICE_ALGORITHM :=
  {| MeasurementSpec := 0; MeasurementHashAlgo := 0; BaseAsymAlgo := 0;
     BaseHashAlgo := 0; DHENamedGroup := 0; AEADCipherSuite := 0;
     ReqBaseAsymAlg := 0; KeySchedule := 0 |}.

Definition ZeroCapability : SPDM_DEVICE_CAPABILITY :=
  {| CTExponent := 0; Flags := 0 |}.

Definition ZeroSessionInfo : SPDM_SESSION_INFO :=
  {| SessionId := 0; UsePsk := false; SessionMutAuthRequested := 0;
     SessionTranscript :=
       {| MessageK := InitManagedBuffer 0; MessageF := InitManagedBuffer 0 |};
     SecuredMessageContext :=
       {| SecUsePsk := false; SecSessionType := SpdmSessionTypeNone;
          SecBaseHashAlgo := 0; SecDHENamedGroup := 0;
          SecAEADCipherSuite := 0; SecKeySchedule := 0; SecPskHint := [] |} |}.

Definition SpdmInitContext (SessionCount : nat) : SPDM_DEVICE_CONTEXT :=
  {| ContextVersion := SPDM_DEVICE_CONTEXT_VERSION;
     ErrorState := SPDM_STATUS_SUCCESS;
     EncapContext :=
       {| EncapErrorState := 0; EncapState := 0; RequestId := 0;
          EncapSlotNum := 0; MeasurementHashType := 0;
          CertificateChainBuffer :=
            InitManagedBuffer MAX_SPDM_MESSAGE_BUFFER_SIZE |};
     LocalContext :=
       {| SpdmVersion := 0; LocalCapability := ZeroCapability;
          LocalAlgorithm := ZeroAlgorithm;
          CertificateChain := replicate (Z.to_nat MAX_SPDM_SLOT_COUNT) [];
          SlotCount := 0; ProvisionedSlotNum := 0;
          PeerRootCertHashProvision := []; PeerCertChainProvision := [];
          PskHint := []; OpaqueChallengeAuthRsp := [];
          OpaqueMeasurementRsp := []; BasicMutAuthRequested := 0;
          MutAuthRequested := 0; DeviceMeasurement := [];
          DeviceMeasurementCount := 0; PrivatePem := None |};
     ConnectionInfo :=
       {| ConnectionState := SpdmConnectionStateNotStarted;
          Version := replicate MAX_SPDM_VERSION_COUNT 0;
          Capability := ZeroCapability; Algorithm := ZeroAlgorithm;
          PeerCertChainBuffer := []; LocalUsedCertChainBuffer := [] |};
     Transcript :=
       {| MessageA := InitManagedBuffer MAX_SPDM_MESSAGE_SMALL_BUFFER_SIZE;
          MessageB := InitManagedBuffer MAX_SPDM_MESSAGE_BUFFER_SIZE;
          MessageC := InitManagedBuffer MAX_SPDM_MESSAGE_SMALL_BUFFER_SIZE;
          MessageMutB := InitManagedBuffer MAX_SPDM_MESSAGE_BUFFER_SIZE;
          MessageMutC := InitManagedBuffer MAX_SPDM_MESSAGE_SMALL_BUFFER_SIZE;
          M1M2 := InitManagedBuffer MAX_SPDM_MESSAGE_BUFFER_SIZE;
          L1L2 := InitManagedBuffer MAX_SPDM_MESSAGE_BUFFER_SIZE |};
     SessionInfo := replicate SessionCount ZeroSessionInfo;
     LatestSessionId := 0;
     SpdmCmdReceiveState := 0;
     ResponseState := 0;
     CurrentToken := 0;
     RetryTimes := MAX_SPDM_REQUEST_RETRY_TIMES |}.

End InitContext.

(* ================================================================== *)
(** * The crypto capability interface *)
(* ================================================================== *)

(** Modelled from the spec: the crypto primitives and the host callbacks
    are collaborators outside the sources ("invoked through a capability
    interface"; "all pure except RNG").  A function that returns [BOOLEAN]
    and fills an output buffer is a function to [option].  A digest has
    the size of its algorithm.  Random bytes are arguments of the functions
    that draw them. *)
Class SpdmCryptLib : Type := {
  GetSpdmHashSize : Z -> nat;
  SpdmHashAll : Z -> list byte -> list byte;
  SpdmHashAll_size :
    forall (HashAlgo : Z) (Data : list byte),
      length (SpdmHashAll HashAlgo Data) = GetSpdmHashSize HashAlgo;
  GetSpdmMeasurementHashSize : Z -> nat;
  SpdmMeasurementHashAll : Z -> list byte -> list byte;
  GetSpdmAsymSize : Z -> nat;
  GetSpdmReqAsymSize : Z -> nat;
  SpdmRequesterDataSignFunc : Z -> list byte -> option (list byte);
  SpdmResponderDataSignFunc : Z -> list byte -> option (list byte);
  X509GetCertFromCertChain : list byte -> Z -> option (list byte);
  SpdmAsymGetPublicKeyFromX509 : Z -> list byte -> option (list byte);
  SpdmAsymVerify : Z -> list byte -> list byte -> list byte -> bool;
  SpdmReqAsymGetPublicKeyFromX509 : Z -> list byte -> option (list byte);
  SpdmReqAsymVerify : Z -> list byte -> list byte -> list byte -> bool;
  SpdmHmacAllWithResponseFinishedKey :
    SPDM_SECURED_MESSAGE_CONTEXT -> list byte -> list byte;
  RsaGetPrivateKeyFromPem : list byte -> option (list byte);
  RsaPkcs1Sign : list byte -> list byte -> option (list byte);
  SpdmMeasurementCollectionFunc : Z -> Z -> nat -> option (Z * list byte)
}.

(* ================================================================== *)
(** * Transcript hashes and signatures ([SpdmCommonLibCryptoService.c]) *)
(* ================================================================== *)

Section CryptoService.
Context `{Config : SpdmLibConfig} `{Crypt : SpdmCryptLib}.

Definition NegotiatedHashAlgo (SpdmContext : SPDM_DEVICE_CONTEXT) : Z :=
  BaseHashAlgo (Algorithm (ConnectionInfo SpdmContext)).

(** [LocalContext.CertificateChain[SlotIndex]] with its size; a slot that
    was never provisioned holds a NULL pointer and size 0. *)
Definition LocalCertificateChain (SpdmContext : SPDM_DEVICE_CONTEXT)
  (SlotIndex : Z) : list byte :=
  nth (Z.to_nat SlotIndex) (CertificateChain (LocalContext SpdmContext)) [].

Definition SpdmGenerateCertChainHash (SpdmContext : SPDM_DEVICE_CONTEXT)
  (SlotIndex : Z) : list byte :=
  SpdmHashAll (NegotiatedHashAlgo SpdmContext)
              (LocalCertificateChain SpdmContext SlotIndex).

(** The certificate chain the peer is checked against: the connection
    buffer if it is filled, else the local provision. *)
Definition PeerCertChain (SpdmContext : SPDM_DEVICE_CONTEXT) : option (list byte) :=
  if negb (bool_decide (length (PeerCertChainBuffer (ConnectionInfo SpdmContext)) = 0%nat))
  then Some (PeerCertChainBuffer (ConnectionInfo SpdmContext))
  else if negb (bool_decide
                  (length (PeerCertChainProvision (LocalContext SpdmContext)) = 0%nat))
  then Some (PeerCertChainProvision (LocalContext SpdmContext))
  else None.

(** A chain that holds its header and the root hash behind it. *)
Definition ChainHoldsHeader (SpdmContext : SPDM_DEVICE_CONTEXT) (Chain : list byte)
  : Prop :=
  (sizeof_SPDM_CERT_CHAIN + GetSpdmHashSize (NegotiatedHashAlgo SpdmContext)
   <= length Chain)%nat.

(** [Buffer + sizeof (SPDM_CERT_CHAIN) + HashSize]: the X.509 part of a
    chain.  The code takes its size as
    [Size - (sizeof (SPDM_CERT_CHAIN) + HashSize)] in [UINTN]; for a chain
    without [ChainHoldsHeader] this difference wraps and the reads leave
    the chain.  [X509Part] is what the code reads of a chain that holds its
    header; what is stated about the X.509 part of a chain is stated for
    such chains. *)
Definition X509Part (SpdmContext : SPDM_DEVICE_CONTEXT) (Chain : list byte)
  : list byte :=
  drop (sizeof_SPDM_CERT_CHAIN + GetSpdmHashSize (NegotiatedHashAlgo SpdmContext))
       Chain.

Definition SpdmVerifyCertificateChainHash (SpdmContext : SPDM_DEVICE_CONTEXT)
  (CertificateChainHash : list byte) : bool :=
  match PeerCertChain SpdmContext with
  | None => false
  | Some CertBuffer =>
      let HashSize := GetSpdmHashSize (NegotiatedHashAlgo SpdmContext) in
      let CertBufferHash := SpdmHashAll (NegotiatedHashAlgo SpdmContext) CertBuffer in
      if negb (bool_decide (HashSize = length CertificateChainHash)) then false
      else bool_decide (CertificateChainHash = CertBufferHash)
  end.

(** [SpdmGenerateChallengeAuthSignature].  The result is the signature
    ([None] for [FALSE]) and the context with the transcript as the call
    leaves it, also on the failing paths. *)
Definition SpdmGenerateChallengeAuthSignature (SpdmContext : SPDM_DEVICE_CONTEXT)
  (IsRequester : bool) (ResponseMessage : list byte)
  : option (list byte) * SPDM_DEVICE_CONTEXT :=
  let HashAlgo := NegotiatedHashAlgo SpdmContext in
  if IsRequester then
    let '(Status, NewMutC) :=
      AppendManagedBuffer (MessageMutC (Transcript SpdmContext)) ResponseMessage in
    if RETURN_ERROR Status then (None, SpdmContext) else
    let c1 := set_Transcript (set_MessageMutC NewMutC) SpdmContext in
    let '(Status, NewM1M2) :=
      AppendManagedBuffer (M1M2 (Transcript c1))
        (GetManagedBuffer (MessageMutB (Transcript c1))) in
    if RETURN_ERROR Status then (None, c1) else
    let c2 := set_Transcript (set_M1M2 NewM1M2) c1 in
    let '(Status, NewM1M2) :=
      AppendManagedBuffer (M1M2 (Transcript c2))
        (GetManagedBuffer (MessageMutC (Transcript c2))) in
    if RETURN_ERROR Status then (None, c2) else
    let c3 := set_Transcript (set_M1M2 NewM1M2) c2 in
    let HashData := SpdmHashAll HashAlgo (GetManagedBuffer (M1M2 (Transcript c3))) in
    (SpdmRequesterDataSignFunc
       (ReqBaseAsymAlg (Algorithm (ConnectionInfo SpdmContext))) HashData,
     c3)
  else
    let '(Status, NewC) :=
      AppendManagedBuffer (MessageC (Transcript SpdmContext)) ResponseMessage in
    if RETURN_ERROR Status then (None, SpdmContext) else
    let c1 := set_Transcript (set_MessageC NewC) SpdmContext in
    let '(Status, NewM1M2) :=
      AppendManagedBuffer (M1M2 (Transcript c1))
        (GetManagedBuffer (MessageA (Transcript c1))) in
    if RETURN_ERROR Status then (None, c1) else
    let c2 := set_Transcript (set_M1M2 NewM1M2) c1 in
    let '(Status, NewM1M2) :=
      AppendManagedBuffer (M1M2 (Transcript c2))
        (GetManagedBuffer (MessageB (Transcript c2))) in
    if RETURN_ERROR Status then (None, c2) else
    let c3 := set_Transcript (set_M1M2 NewM1M2) c2 in
    let '(Status, NewM1M2) :=
      AppendManagedBuffer (M1M2 (Transcript c3))
        (GetManagedBuffer (MessageC (Transcript c3))) in
    if RETURN_ERROR Status then (None, c3) else
    let c4 := set_Transcript (set_M1M2 NewM1M2) c3 in
    let HashData := SpdmHashAll HashAlgo (GetManagedBuffer (M1M2 (Transcript c4))) in
    (SpdmResponderDataSignFunc
       (BaseAsymAlgo (Algorithm (ConnectionInfo SpdmContext))) HashData,
     c4).

(** [SpdmVerifyChallengeAuthSignature]: the hash is taken over whatever
    the M1M2 ledger holds at the call. *)
Definition SpdmVerifyChallengeAuthSignature (SpdmContext : SPDM_DEVICE_CONTEXT)
  (IsRequester : bool) (SignData : list byte) : bool :=
  let HashAlgo := NegotiatedHashAlgo SpdmContext in
  let HashData :=
    SpdmHashAll HashAlgo (GetManagedBuffer (M1M2 (Transcript SpdmContext))) in
  match PeerCertChain SpdmContext with
  | None => false
  | Some Chain =>
      match X509GetCertFromCertChain (X509Part SpdmContext Chain) (-1) with
      | None => false
      | Some CertBuffer =>
          if IsRequester then
            let AsymAlgo := BaseAsymAlgo (Algorithm (ConnectionInfo SpdmContext)) in
            match SpdmAsymGetPublicKeyFromX509 AsymAlgo CertBuffer with
            | None => false
            | Some Key => SpdmAsymVerify AsymAlgo Key HashData SignData
            end
          else
            let AsymAlgo := ReqBaseAsymAlg (Algorithm (ConnectionInfo SpdmContext)) in
            match SpdmReqAsymGetPublicKeyFromX509 AsymAlgo CertBuffer with
            | None => false
            | Some Key => SpdmReqAsymVerify AsymAlgo Key HashData SignData
            end
      end
  end.

(** The second loop of [SpdmGenerateMeasurementSummaryHash] over the
    collected blocks.  [Offset] is the position of [CachedMeasurmentBlock]
    in [DeviceMeasurement]; a block is a 4-byte common header (index,
    specification, 16-bit [MeasurementSize]) followed by [MeasurementSize]
    bytes that start with the DMTF header, whose first byte is
    [DMTFSpecMeasurementValueType]. *)
Fixpoint MeasurementCopyLoop (Count : nat) (MeasurementSummaryHashType : Z)
  (DeviceMeasurement : list byte) (Offset : nat)
  (MeasurementData : list byte) (MeasurmentDataSize : nat)
  : list byte * nat :=
  match Count with
  | O => (MeasurementData, MeasurmentDataSize)
  | S Remaining =>
      let MeasurementSize :=
        Z.to_nat (ReadUnaligned 2 (Offset + 2) DeviceMeasurement) in
      let MeasurmentBlockSize :=
        (sizeof_SPDM_MEASUREMENT_BLOCK_COMMON_HEADER + MeasurementSize)%nat in
      let ValueType :=
        ReadUnaligned 1 (Offset + sizeof_SPDM_MEASUREMENT_BLOCK_COMMON_HEADER)
                      DeviceMeasurement in
      let Copied :=
        if bool_decide (MeasurementSummaryHashType
                        = SPDM_CHALLENGE_REQUEST_ALL_MEASUREMENTS_HASH)
           || bool_decide
                (Z.land ValueType SPDM_MEASUREMENT_BLOCK_MEASUREMENT_TYPE_MASK
                 = SPDM_MEASUREMENT_BLOCK_MEASUREMENT_TYPE_IMMUTABLE_ROM)
        then CopyMem MeasurementData MeasurmentDataSize
               (take MeasurementSize
                  (drop (Offset + sizeof_SPDM_MEASUREMENT_BLOCK_COMMON_HEADER)
                        DeviceMeasurement))
        else MeasurementData in
      MeasurementCopyLoop Remaining MeasurementSummaryHashType DeviceMeasurement
        (Offset + MeasurmentBlockSize) Copied
        (MeasurmentDataSize + MeasurementSize)
  end.

(** [SpdmGenerateMeasurementSummaryHash].  [MeasurementData] is a local
    array without initialiser: [Stack] is what the array holds when the
    function is entered.  The first loop only feeds assertions. *)
Definition SpdmGenerateMeasurementSummaryHash (SpdmContext : SPDM_DEVICE_CONTEXT)
  (MeasurementSummaryHashType : Z) (Stack : list byte) : option (list byte) :=
  if decide (MeasurementSummaryHashType
             = SPDM_CHALLENGE_REQUEST_NO_MEASUREMENT_SUMMARY_HASH)
  then Some (ZeroMem (GetSpdmHashSize (NegotiatedHashAlgo SpdmContext)))
  else if decide (MeasurementSummaryHashType
                  = SPDM_CHALLENGE_REQUEST_TCB_COMPONENT_MEASUREMENT_HASH
                  \/ MeasurementSummaryHashType
                     = SPDM_CHALLENGE_REQUEST_ALL_MEASUREMENTS_HASH)
  then
    match SpdmMeasurementCollectionFunc
            (MeasurementSpec (Algorithm (ConnectionInfo SpdmContext)))
            (MeasurementHashAlgo (Algorithm (ConnectionInfo SpdmContext)))
            MAX_SPDM_MEASUREMENT_RECORD_SIZE with
    | None => None
    | Some (DeviceMeasurementCount, DeviceMeasurement) =>
        let '(MeasurementData, MeasurmentDataSize) :=
          MeasurementCopyLoop (Z.to_nat DeviceMeasurementCount)
            MeasurementSummaryHashType DeviceMeasurement 0 Stack 0 in
        Some (SpdmHashAll (NegotiatedHashAlgo SpdmContext)
                (take MeasurmentDataSize MeasurementData))
    end
  else None.

(** [SpdmCalculateTHCurrAK].  [CertBuffer] is [None] for a NULL pointer.
    The result is the [BOOLEAN] and [THCurr] as the call leaves it. *)
Definition SpdmCalculateTHCurrAK (SpdmContext : SPDM_DEVICE_CONTEXT)
  (Session : SPDM_SESSION_INFO) (CertBuffer : option (list byte))
  : bool * MANAGED_BUFFER :=
  let HashSize := GetSpdmHashSize (NegotiatedHashAlgo SpdmContext) in
  let THCurr := InitManagedBuffer MAX_SPDM_MESSAGE_BUFFER_SIZE in
  let '(Status, THCurr) :=
    AppendManagedBuffer THCurr (GetManagedBuffer (MessageA (Transcript SpdmContext))) in
  if RETURN_ERROR Status then (false, THCurr) else
  let '(Status, THCurr) :=
    match CertBuffer with
    | Some Cert =>
        let CertBufferHash := SpdmHashAll (NegotiatedHashAlgo SpdmContext) Cert in
        AppendManagedBuffer THCurr (take HashSize CertBufferHash)
    | None => (RETURN_SUCCESS, THCurr)
    end in
  if RETURN_ERROR Status then (false, THCurr) else
  let '(Status, THCurr) :=
    AppendManagedBuffer THCurr
      (GetManagedBuffer (MessageK (SessionTranscript Session))) in
  if RETURN_ERROR Status then (false, THCurr) else
  (true, THCurr).

(** [SpdmGenerateKeyExchangeRspSignature]: the responder signs the hash of
    the TH built with the X.509 part of the certificate chain in use. *)
Definition SpdmGenerateKeyExchangeRspSignature (SpdmContext : SPDM_DEVICE_CONTEXT)
  (Session : SPDM_SESSION_INFO) : option (list byte) :=
  let Used := LocalUsedCertChainBuffer (ConnectionInfo SpdmContext) in
  if bool_decide (length Used = 0%nat) then None
  else
    let '(Result, THCurr) :=
      SpdmCalculateTHCurrAK SpdmContext Session (Some (X509Part SpdmContext Used)) in
    if negb Result then None
    else
      SpdmResponderDataSignFunc
        (BaseAsymAlgo (Algorithm (ConnectionInfo SpdmContext)))
        (SpdmHashAll (NegotiatedHashAlgo SpdmContext) (GetManagedBuffer THCurr)).

(** [SpdmGeneratePskExchangeRspHmac]: no certificate is handed to
    [SpdmCalculateTHCurrAK]. *)
Definition SpdmGeneratePskExchangeRspHmac (SpdmContext : SPDM_DEVICE_CONTEXT)
  (Session : SPDM_SESSION_INFO) : option (list byte) :=
  let HashSize := GetSpdmHashSize (NegotiatedHashAlgo SpdmContext) in
  let '(Result, THCurr) := SpdmCalculateTHCurrAK SpdmContext Session None in
  if negb Result then None
  else
    let HmacData :=
      SpdmHmacAllWithResponseFinishedKey (SecuredMessageContext Session)
        (GetManagedBuffer THCurr) in
    Some (take HashSize HmacData).

End CryptoService.

(* ================================================================== *)
(** * Messages *)
(* ================================================================== *)

(** [SPDM_MESSAGE_HEADER]: version, request/response code, Param1, Param2. *)
Definition HeaderCode (Message : list byte) : Z := byte_to_Z (nth 1 Message x00).
Definition HeaderParam1 (Message : list byte) : Z := byte_to_Z (nth 2 Message x00).
Definition HeaderParam2 (Message : list byte) : Z := byte_to_Z (nth 3 Message x00).

Definition MessageHeader (SpdmVer Code Param1 Param2 : Z) : list byte :=
  [Z_to_byte SpdmVer; Z_to_byte Code; Z_to_byte Param1; Z_to_byte Param2].

(** Modelled from the spec: the bit-field [SPDM_CHALLENGE_AUTH_RESPONSE_ATTRIBUTE]
    of the absent protocol header ("slot ... in the auth attribute",
    "BasicMutAuthReq"): the slot number is the low nibble of Param1,
    three reserved bits follow, [BasicMutAuthReq] is the top bit. *)
Definition AuthAttributeSlotNum (Param1 : Z) : Z := Z.land Param1 0xF.
Definition AuthAttributeBasicMutAuthReq (Param1 : Z) : Z :=
  Z.land (Z.shiftr Param1 7) 1.
Definition AuthAttributeByte (SlotNum Reserved BasicMutAuthReq : Z) : Z :=
  Z.lor (Z.land SlotNum 0xF)
        (Z.lor (Z.shiftl (Z.land Reserved 7) 4)
               (Z.shiftl (Z.land BasicMutAuthReq 1) 7)).

(** Modelled from the spec: [SpdmGenerateErrorResponse] and
    [SpdmGenerateEncapErrorResponse] are not among the sources; the ERROR
    message they build is kept as its error code and error data.  Any
    other response is the byte string written to the response buffer. *)
Inductive SPDM_RESPONSE : Type :=
| SpdmErrorResponse (ErrorCode ErrorData : Z)
| SpdmResponseMessage (Message : list byte).

(** A field of [Size] bytes written into a zeroed buffer. *)
Definition Field (Size : nat) (Data : list byte) : list byte :=
  take Size (Data ++ ZeroMem Size).

Definition set_MessageA (v : MANAGED_BUFFER) (t : SPDM_TRANSCRIPT) : SPDM_TRANSCRIPT :=
  {| MessageA := v; MessageB := MessageB t; MessageC := MessageC t;
     MessageMutB := MessageMutB t; MessageMutC := MessageMutC t;
     M1M2 := M1M2 t; L1L2 := L1L2 t |}.

Definition set_MessageB (v : MANAGED_BUFFER) (t : SPDM_TRANSCRIPT) : SPDM_TRANSCRIPT :=
  {| MessageA := MessageA t; MessageB := v; MessageC := MessageC t;
     MessageMutB := MessageMutB t; MessageMutC := MessageMutC t;
     M1M2 := M1M2 t; L1L2 := L1L2 t |}.

Definition set_MessageMutB (v : MANAGED_BUFFER) (t : SPDM_TRANSCRIPT) : SPDM_TRANSCRIPT :=
  {| MessageA := MessageA t; MessageB := MessageB t; MessageC := MessageC t;
     MessageMutB := v; MessageMutC := MessageMutC t;
     M1M2 := M1M2 t; L1L2 := L1L2 t |}.

(** An append whose status the caller drops. *)
Definition AppendUnchecked (ManagedBuffer : MANAGED_BUFFER) (Data : list byte)
  : MANAGED_BUFFER :=
  snd (AppendManagedBuffer ManagedBuffer Data).

(* ================================================================== *)
(** * The responder's CHALLENGE handler
      ([SpdmResponderLib/SpdmResponderLibChallengeAuth.c]) *)
(* ================================================================== *)

Section Responder.
Context `{Config : SpdmLibConfig} `{Crypt : SpdmCryptLib}.

(** Modelled from the spec: this library asks the context for its hash and
    signature sizes and functions ([GetSpdmHashSize (SpdmContext)] and the
    like, bodies not among the sources); they are those of the negotiated
    algorithms of the connection. *)
Definition ContextHashSize (SpdmContext : SPDM_DEVICE_CONTEXT) : nat :=
  GetSpdmHashSize (NegotiatedHashAlgo SpdmContext).
Definition ContextHashFunc (SpdmContext : SPDM_DEVICE_CONTEXT) (Data : list byte)
  : list byte :=
  SpdmHashAll (NegotiatedHashAlgo SpdmContext) Data.
Definition ContextAsymSize (SpdmContext : SPDM_DEVICE_CONTEXT) : nat :=
  GetSpdmAsymSize (BaseAsymAlgo (Algorithm (ConnectionInfo SpdmContext))).
Definition ContextMeasurementHashSize (SpdmContext : SPDM_DEVICE_CONTEXT) : nat :=
  GetSpdmMeasurementHashSize (MeasurementHashAlgo (Algorithm (ConnectionInfo SpdmContext))).
Definition ContextMeasurementHashFunc (SpdmContext : SPDM_DEVICE_CONTEXT)
  (Data : list byte) : list byte :=
  SpdmMeasurementHashAll
    (MeasurementHashAlgo (Algorithm (ConnectionInfo SpdmContext))) Data.

Definition SpdmCalculateCertChainHash (SpdmContext : SPDM_DEVICE_CONTEXT)
  (SlotNum : Z) : list byte :=
  ContextHashFunc SpdmContext (LocalCertificateChain SpdmContext SlotNum).

(** The loops of [CalculateMeasurementSummaryHash] over the cached blocks
    of fixed size [sizeof (SPDM_MEASUREMENT_BLOCK_DMTF) + HashSize].
    [Select] is the test on [DMTFSpecMeasurementValueType]; [LocalIndex]
    counts the digests copied so far. *)
Fixpoint CachedMeasurementLoop (Count : nat) (Select : Z -> bool)
  (HashSize : nat) (DeviceMeasurement : list byte) (Offset : nat)
  (MeasurementData : list byte) (LocalIndex : nat) : list byte * nat :=
  match Count with
  | O => (MeasurementData, LocalIndex)
  | S Remaining =>
      let MeasurmentBlockSize := (sizeof_SPDM_MEASUREMENT_BLOCK_DMTF + HashSize)%nat in
      let ValueType :=
        ReadUnaligned 1 (Offset + sizeof_SPDM_MEASUREMENT_BLOCK_COMMON_HEADER)
                      DeviceMeasurement in
      if Select ValueType then
        CachedMeasurementLoop Remaining Select HashSize DeviceMeasurement
          (Offset + MeasurmentBlockSize)
          (CopyMem MeasurementData (HashSize * LocalIndex)
             (take HashSize
                (drop (Offset + sizeof_SPDM_MEASUREMENT_BLOCK_DMTF) DeviceMeasurement)))
          (S LocalIndex)
      else
        CachedMeasurementLoop Remaining Select HashSize DeviceMeasurement
          (Offset + MeasurmentBlockSize) MeasurementData LocalIndex
  end.

Definition CalculateMeasurementSummaryHash (SpdmContext : SPDM_DEVICE_CONTEXT)
  (MeasurementSummaryHashType : Z) (Stack : list byte) : option (list byte) :=
  let HashSize := ContextMeasurementHashSize SpdmContext in
  let Local := LocalContext SpdmContext in
  let Summary (Select : Z -> bool) :=
    let '(MeasurementData, LocalIndex) :=
      CachedMeasurementLoop (Z.to_nat (DeviceMeasurementCount Local)) Select
        HashSize (DeviceMeasurement Local) 0 Stack 0 in
    Some (ContextMeasurementHashFunc SpdmContext
            (take (HashSize * LocalIndex) MeasurementData)) in
  if decide (MeasurementSummaryHashType
             = SPDM_CHALLENGE_REQUEST_NO_MEASUREMENT_SUMMARY_HASH)
  then Some (ZeroMem HashSize)
  else if decide (MeasurementSummaryHashType
                  = SPDM_CHALLENGE_REQUEST_TCB_COMPONENT_MEASUREMENT_HASH)
  then Summary (fun ValueType =>
                  bool_decide (ValueType
                               = SPDM_MEASUREMENT_BLOCK_MEASUREMENT_TYPE_IMMUTABLE_ROM))
  else if decide (MeasurementSummaryHashType
                  = SPDM_CHALLENGE_REQUEST_ALL_MEASUREMENTS_HASH)
  then Summary (fun _ => true)
  else None.

(** [SpdmGenerateChallengeSignature]: the statuses of the appends are
    dropped. *)
Definition SpdmGenerateChallengeSignature (SpdmContext : SPDM_DEVICE_CONTEXT)
  (ResponseMessage : list byte) : option (list byte) * SPDM_DEVICE_CONTEXT :=
  match PrivatePem (LocalContext SpdmContext) with
  | None => (None, SpdmContext)
  | Some Pem =>
      match RsaGetPrivateKeyFromPem Pem with
      | None => (None, SpdmContext)
      | Some RsaContext =>
          let t0 := Transcript SpdmContext in
          let t1 := set_MessageC (AppendUnchecked (MessageC t0) ResponseMessage) t0 in
          let t2 := set_M1M2 (AppendUnchecked (M1M2 t1) (GetManagedBuffer (MessageA t1))) t1 in
          let t3 := set_M1M2 (AppendUnchecked (M1M2 t2) (GetManagedBuffer (MessageB t2))) t2 in
          let t4 := set_M1M2 (AppendUnchecked (M1M2 t3) (GetManagedBuffer (MessageC t3))) t3 in
          let HashData := ContextHashFunc SpdmContext (GetManagedBuffer (M1M2 t4)) in
          (RsaPkcs1Sign RsaContext HashData,
           set_Transcript (fun _ => t4) SpdmContext)
      end
  end.

(** [SpdmGetResponseChallenge]; the function always returns
    [RETURN_SUCCESS], so the result is the response and the context.
    [Nonce] are the bytes of [GetRandomNumber], [Stack] the initial
    content of the local array of [CalculateMeasurementSummaryHash].
    The header fields are the first four bytes of [Request]. *)
Definition SpdmGetResponseChallenge (SpdmContext : SPDM_DEVICE_CONTEXT)
  (Request : list byte) (Nonce Stack : list byte)
  : SPDM_RESPONSE * SPDM_DEVICE_CONTEXT :=
  let SlotNum := HeaderParam1 Request in
  if decide (SlotCount (LocalContext SpdmContext) < SlotNum)
  then (SpdmErrorResponse SPDM_ERROR_CODE_INVALID_REQUEST 0, SpdmContext)
  else
    let SignatureSize := ContextAsymSize SpdmContext in
    let HashSize := ContextHashSize SpdmContext in
    let TotalSize :=
      (sizeof_SPDM_CHALLENGE_AUTH_RESPONSE + HashSize + SPDM_NONCE_SIZE
       + HashSize + 2 + DEFAULT_OPAQUE_LENGTH + SignatureSize)%nat in
    let Response := ZeroMem TotalSize in
    let Response :=
      CopyMem Response 0
        (MessageHeader SPDM_MESSAGE_VERSION_10 SPDM_CHALLENGE_AUTH
           SlotNum (UINT8 (Z.shiftl 1 SlotNum))) in
    let Ptr := sizeof_SPDM_CHALLENGE_AUTH_RESPONSE in
    let Response := CopyMem Response Ptr (SpdmCalculateCertChainHash SpdmContext SlotNum) in
    let Ptr := (Ptr + HashSize)%nat in
    let Response := CopyMem Response Ptr (Field SPDM_NONCE_SIZE Nonce) in
    let Ptr := (Ptr + SPDM_NONCE_SIZE)%nat in
    match CalculateMeasurementSummaryHash SpdmContext (HeaderParam2 Request) Stack with
    | None => (SpdmErrorResponse SPDM_ERROR_CODE_INVALID_REQUEST 0, SpdmContext)
    | Some MeasurementSummaryHash =>
        let Response := CopyMem Response Ptr MeasurementSummaryHash in
        let Ptr := (Ptr + HashSize)%nat in
        let Response := CopyMem Response Ptr (WriteLE 2 (Z.of_nat DEFAULT_OPAQUE_LENGTH)) in
        let Ptr := (Ptr + 2)%nat in
        let Response :=
          CopyMem Response Ptr (replicate DEFAULT_OPAQUE_LENGTH DEFAULT_OPAQUE_DATA) in
        let Ptr := (Ptr + DEFAULT_OPAQUE_LENGTH)%nat in
        match SpdmGenerateChallengeSignature SpdmContext (take Ptr Response) with
        | (None, SpdmContext') =>
            (SpdmErrorResponse SPDM_ERROR_CODE_UNSUPPORTED_REQUEST SPDM_CHALLENGE_AUTH,
             SpdmContext')
        | (Some Signature, SpdmContext') =>
            (SpdmResponseMessage (take TotalSize (CopyMem Response Ptr Signature)),
             SpdmContext')
        end
    end.

End Responder.

(* ================================================================== *)
(** * The encapsulated CHALLENGE handler of the requester
      ([SpdmRequesterLibEncapChallengeAuth.c]) *)
(* ================================================================== *)

Section EncapChallengeAuth.
Context `{Config : SpdmLibConfig} `{Crypt : SpdmCryptLib}.

(** [SpdmGetEncapResponseChallengeAuth]; it always returns
    [RETURN_SUCCESS].  [RequestSize] is the length of [Request]. *)
Definition SpdmGetEncapResponseChallengeAuth (SpdmContext : SPDM_DEVICE_CONTEXT)
  (Request : list byte) (Nonce Stack : list byte)
  : SPDM_RESPONSE * SPDM_DEVICE_CONTEXT :=
  if decide (length Request <> sizeof_SPDM_CHALLENGE_REQUEST)
  then (SpdmErrorResponse SPDM_ERROR_CODE_INVALID_REQUEST 0, SpdmContext)
  else
    let '(Status, NewMutC) :=
      AppendManagedBuffer (MessageMutC (Transcript SpdmContext)) Request in
    if RETURN_ERROR Status
    then (SpdmErrorResponse SPDM_ERROR_CODE_INVALID_REQUEST 0, SpdmContext)
    else
      let SpdmContext := set_Transcript (set_MessageMutC NewMutC) SpdmContext in
      let SlotNum := HeaderParam1 Request in
      if bool_decide (SlotNum <> 0xFF)
         && bool_decide (SlotCount (LocalContext SpdmContext) <= SlotNum)
      then (SpdmErrorResponse SPDM_ERROR_CODE_INVALID_REQUEST 0, SpdmContext)
      else
        let SignatureSize :=
          GetSpdmReqAsymSize (ReqBaseAsymAlg (Algorithm (ConnectionInfo SpdmContext))) in
        let HashSize := GetSpdmHashSize (NegotiatedHashAlgo SpdmContext) in
        let Opaque := OpaqueChallengeAuthRsp (LocalContext SpdmContext) in
        let TotalSize :=
          (sizeof_SPDM_CHALLENGE_AUTH_RESPONSE + HashSize + SPDM_NONCE_SIZE
           + HashSize + 2 + length Opaque + SignatureSize)%nat in
        let Response := ZeroMem TotalSize in
        let SpdmVer :=
          if SpdmIsVersionSupported SpdmContext SPDM_MESSAGE_VERSION_11
          then SPDM_MESSAGE_VERSION_11 else SPDM_MESSAGE_VERSION_10 in
        let AuthAttribute := AuthAttributeByte (UINT8 (Z.land SlotNum 0xF)) 0 0 in
        let Param2 :=
          if decide (SlotNum = 0xFF) then 0 else UINT8 (Z.shiftl 1 SlotNum) in
        let SlotNum :=
          if decide (SlotNum = 0xFF)
          then ProvisionedSlotNum (LocalContext SpdmContext) else SlotNum in
        let Response :=
          CopyMem Response 0
            (MessageHeader SpdmVer SPDM_CHALLENGE_AUTH AuthAttribute Param2) in
        let Ptr := sizeof_SPDM_CHALLENGE_AUTH_RESPONSE in
        let Response := CopyMem Response Ptr (SpdmGenerateCertChainHash SpdmContext SlotNum) in
        let Ptr := (Ptr + HashSize)%nat in
        let Response := CopyMem Response Ptr (Field SPDM_NONCE_SIZE Nonce) in
        let Ptr := (Ptr + SPDM_NONCE_SIZE)%nat in
        match SpdmGenerateMeasurementSummaryHash SpdmContext (HeaderParam2 Request) Stack with
        | None => (SpdmErrorResponse SPDM_ERROR_CODE_INVALID_REQUEST 0, SpdmContext)
        | Some MeasurementSummaryHash =>
            let Response := CopyMem Response Ptr MeasurementSummaryHash in
            let Ptr := (Ptr + HashSize)%nat in
            let Response :=
              CopyMem Response Ptr (WriteLE 2 (UINT16 (Z.of_nat (length Opaque)))) in
            let Ptr := (Ptr + 2)%nat in
            let Response := CopyMem Response Ptr Opaque in
            let Ptr := (Ptr + length Opaque)%nat in
            match SpdmGenerateChallengeAuthSignature SpdmContext true
                    (take Ptr Response) with
            | (None, SpdmContext') =>
                (SpdmErrorResponse SPDM_ERROR_CODE_UNSUPPORTED_REQUEST
                   SPDM_CHALLENGE_AUTH,
                 SpdmContext')
            | (Some Signature, SpdmContext') =>
                (SpdmResponseMessage (take TotalSize (CopyMem Response Ptr Signature)),
                 set_Transcript
                   (fun t => set_M1M2 (ResetManagedBuffer (M1M2 t)) t)
                   SpdmContext')
            end
        end.

End EncapChallengeAuth.

(* ================================================================== *)
(** * The requester's CHALLENGE ([SpdmRequesterLibChallenge.c]) *)
(* ================================================================== *)

(** Modelled from the spec: the message exchange of the requester library
    ([SpdmSendSpdmRequest], [SpdmReceiveSpdmResponse],
    [SpdmHandleErrorResponseMain], [SpdmEncapsulatedRequest]) is not among
    the sources.  Sending and receiving hand back a status (and the bytes
    received); the error handler and the encapsulated dialogue also hand
    back the context as they leave it. *)
Class SpdmRequesterIo : Type := {
  SpdmSendSpdmRequest : SPDM_DEVICE_CONTEXT -> list byte -> RETURN_STATUS;
  SpdmReceiveSpdmResponse :
    SPDM_DEVICE_CONTEXT -> nat -> RETURN_STATUS * list byte;
  SpdmHandleErrorResponseMain :
    SPDM_DEVICE_CONTEXT -> list byte
    -> RETURN_STATUS * SPDM_DEVICE_CONTEXT * list byte;
  SpdmEncapsulatedRequest :
    SPDM_DEVICE_CONTEXT -> RETURN_STATUS * SPDM_DEVICE_CONTEXT
}.

(** What a run of a requester operation does towards its collaborators,
    in order. *)
Inductive SPDM_EVENT : Type :=
| EventSendRequest (Request : list byte)
| EventReceiveResponse (Response : list byte)
| EventHandleErrorResponse (Response : list byte)
| EventEncapsulatedRequest.

(** ** A monad for the body of an operation: the context, the trace and
    the bytes copied to the output buffer [MeasurementHash] (none before
    the copy) are threaded, [Return] leaves the function with a status. *)

Record EXEC_STATE : Type := {
  ExecContext : SPDM_DEVICE_CONTEXT;
  ExecTrace : list SPDM_EVENT;
  ExecMeasurementHash : list byte
}.

Inductive OUTCOME (A : Type) : Type :=
| Continue (Value : A)
| Return (Status : RETURN_STATUS).
Arguments Continue {A} Value.
Arguments Return {A} Status.

Definition Exec (A : Type) : Type := EXEC_STATE -> OUTCOME A * EXEC_STATE.

Definition ExecRet {A : Type} (Value : A) : Exec A :=
  fun st => (Continue Value, st).

Definition ExecBind {A B : Type} (m : Exec A) (k : A -> Exec B) : Exec B :=
  fun st =>
    match m st with
    | (Continue Value, st') => k Value st'
    | (Return Status, st') => (Return Status, st')
    end.

Definition ExecReturn {A : Type} (Status : RETURN_STATUS) : Exec A :=
  fun st => (Return Status, st).

(** [if (Condition) return Status;] *)
Definition ReturnIf (Condition : bool) (Status : RETURN_STATUS) : Exec unit :=
  if Condition then ExecReturn Status else ExecRet tt.

Definition GetContext : Exec SPDM_DEVICE_CONTEXT :=
  fun st => (Continue (ExecContext st), st).

Definition ModifyContext (f : SPDM_DEVICE_CONTEXT -> SPDM_DEVICE_CONTEXT) : Exec unit :=
  fun st =>
    (Continue tt,
     {| ExecContext := f (ExecContext st); ExecTrace := ExecTrace st;
        ExecMeasurementHash := ExecMeasurementHash st |}).

Definition Emit (Event : SPDM_EVENT) : Exec unit :=
  fun st =>
    (Continue tt,
     {| ExecContext := ExecContext st; ExecTrace := ExecTrace st ++ [Event];
        ExecMeasurementHash := ExecMeasurementHash st |}).

(** [CopyMem (MeasurementHash, ...)] into the output buffer of the caller. *)
Definition CopyMeasurementHash (Hash : list byte) : Exec unit :=
  fun st =>
    (Continue tt,
     {| ExecContext := ExecContext st; ExecTrace := ExecTrace st;
        ExecMeasurementHash := Hash |}).

Declare Scope exec_scope.
Delimit Scope exec_scope with exec.
Notation "x <- m ;; k" := (ExecBind m (fun x => k))
  (at level 100, m at next level, right associativity) : exec_scope.
Notation "m ;;; k" := (ExecBind m (fun _ => k))
  (at level 100, right associativity) : exec_scope.

(** The outcome and the final state of [m] started in [st] satisfy [Q]. *)
Definition wp {A : Type} (m : Exec A) (Q : OUTCOME A -> EXEC_STATE -> Prop)
  (st : EXEC_STATE) : Prop :=
  Q (fst (m st)) (snd (m st)).

Section Requester.
Context `{Config : SpdmLibConfig} `{Crypt : SpdmCryptLib} `{Io : SpdmRequesterIo}.

Definition sizeof_SPDM_CHALLENGE_AUTH_RESPONSE_MAX : nat :=
  sizeof_SPDM_MESSAGE_HEADER + MAX_HASH_SIZE + SPDM_NONCE_SIZE + MAX_HASH_SIZE
  + 2 + MAX_SPDM_OPAQUE_DATA_SIZE + MAX_ASYM_KEY_SIZE.

Open Scope exec_scope.

(** [TrySpdmChallenge].  [Nonce] are the bytes of [SpdmGetRandomNumber].
    [MeasurementHash] is taken to be a buffer of the caller (not NULL); it
    is written after the reset of M1M2, before the encapsulated dialogue.
    [SpdmResponse] is the zeroed local buffer overwritten by the bytes
    received; [SpdmResponseSize] is their count. *)
Definition TrySpdmChallengeBody (SlotNum MeasurementHashType : Z)
  (Nonce : list byte) : Exec unit :=
  c <- GetContext ;;
  ReturnIf
    (bool_decide (Z.land (SpdmCmdReceiveState c) SPDM_NEGOTIATE_ALGORITHMS_RECEIVE_FLAG = 0)
     || bool_decide (Z.land (SpdmCmdReceiveState c) SPDM_GET_CAPABILITIES_RECEIVE_FLAG = 0)
     || bool_decide (Z.land (SpdmCmdReceiveState c) SPDM_GET_DIGESTS_RECEIVE_FLAG = 0))
    RETURN_DEVICE_ERROR ;;;
  ReturnIf
    (bool_decide (Z.land (Flags (Capability (ConnectionInfo c)))
                         SPDM_GET_CAPABILITIES_RESPONSE_FLAGS_CHAL_CAP = 0))
    RETURN_DEVICE_ERROR ;;;
  ReturnIf
    (bool_decide (MAX_SPDM_SLOT_COUNT <= SlotNum) && bool_decide (SlotNum <> 0xFF))
    RETURN_INVALID_PARAMETER ;;;
  ReturnIf
    (bool_decide (SlotNum = 0xFF)
     && bool_decide (length (PeerCertChainProvision (LocalContext c)) = 0%nat))
    RETURN_INVALID_PARAMETER ;;;
  ModifyContext (set_ErrorState SPDM_STATUS_ERROR_DEVICE_NO_CAPABILITIES) ;;;
  c <- GetContext ;;
  let SpdmRequest :=
    MessageHeader
      (if SpdmIsVersionSupported c SPDM_MESSAGE_VERSION_11
       then SPDM_MESSAGE_VERSION_11 else SPDM_MESSAGE_VERSION_10)
      SPDM_CHALLENGE SlotNum MeasurementHashType
    ++ Field SPDM_NONCE_SIZE Nonce in
  Emit (EventSendRequest SpdmRequest) ;;;
  ReturnIf (RETURN_ERROR (SpdmSendSpdmRequest c SpdmRequest)) RETURN_DEVICE_ERROR ;;;
  ModifyContext
    (set_Transcript (fun t => set_MessageC (AppendUnchecked (MessageC t) SpdmRequest) t)) ;;;
  c <- GetContext ;;
  let '(Status, Received) :=
    SpdmReceiveSpdmResponse c sizeof_SPDM_CHALLENGE_AUTH_RESPONSE_MAX in
  ReturnIf (RETURN_ERROR Status) RETURN_DEVICE_ERROR ;;;
  Emit (EventReceiveResponse Received) ;;;
  ReturnIf (bool_decide (length Received < sizeof_SPDM_MESSAGE_HEADER)%nat)
    RETURN_DEVICE_ERROR ;;;
  Received <-
    (if decide (HeaderCode Received = SPDM_ERROR) then
       Emit (EventHandleErrorResponse Received) ;;;
       let '(Status, c', Received') := SpdmHandleErrorResponseMain c Received in
       ModifyContext (fun _ => c') ;;;
       ReturnIf (RETURN_ERROR Status) Status ;;;
       ExecRet Received'
     else
       ReturnIf (bool_decide (HeaderCode Received <> SPDM_CHALLENGE_AUTH))
         RETURN_DEVICE_ERROR ;;;
       ExecRet Received) ;;
  let SpdmResponseSize := length Received in
  let SpdmResponse := Field sizeof_SPDM_CHALLENGE_AUTH_RESPONSE_MAX Received in
  ReturnIf (bool_decide (SpdmResponseSize < sizeof_SPDM_CHALLENGE_AUTH_RESPONSE)%nat)
    RETURN_DEVICE_ERROR ;;;
  ReturnIf (bool_decide (sizeof_SPDM_CHALLENGE_AUTH_RESPONSE_MAX < SpdmResponseSize)%nat)
    RETURN_DEVICE_ERROR ;;;
  let AuthAttribute := HeaderParam1 SpdmResponse in
  (if decide (SlotNum = 0xFF) then
     ReturnIf (bool_decide (AuthAttributeSlotNum AuthAttribute <> 0xF))
       RETURN_DEVICE_ERROR ;;;
     ReturnIf (bool_decide (HeaderParam2 SpdmResponse <> 0)) RETURN_DEVICE_ERROR
   else
     ReturnIf (bool_decide (AuthAttributeSlotNum AuthAttribute <> SlotNum))
       RETURN_DEVICE_ERROR ;;;
     ReturnIf (bool_decide (HeaderParam2 SpdmResponse <> Z.shiftl 1 SlotNum))
       RETURN_DEVICE_ERROR) ;;;
  c <- GetContext ;;
  ReturnIf
    (bool_decide (AuthAttributeBasicMutAuthReq AuthAttribute = 1)
     && bool_decide (Z.land (Flags (Capability (ConnectionInfo c)))
                            SPDM_GET_CAPABILITIES_REQUEST_FLAGS_MUT_AUTH_CAP = 0))
    RETURN_DEVICE_ERROR ;;;
  let HashSize := ContextHashSize c in
  let SignatureSize := ContextAsymSize c in
  let FixedSize :=
    (sizeof_SPDM_CHALLENGE_AUTH_RESPONSE + HashSize + SPDM_NONCE_SIZE + HashSize + 2)%nat in
  ReturnIf (bool_decide (SpdmResponseSize <= FixedSize)%nat) RETURN_DEVICE_ERROR ;;;
  let Ptr := sizeof_SPDM_MESSAGE_HEADER in
  let CertChainHash := take HashSize (drop Ptr SpdmResponse) in
  let Ptr := (Ptr + HashSize)%nat in
  (if SpdmVerifyCertificateChainHash c CertChainHash then ExecRet tt
   else
     ModifyContext (set_ErrorState SPDM_STATUS_ERROR_CERTIFICATE_FAILURE) ;;;
     ExecReturn RETURN_SECURITY_VIOLATION) ;;;
  let Ptr := (Ptr + SPDM_NONCE_SIZE)%nat in
  let MeasurementSummaryHash := take HashSize (drop Ptr SpdmResponse) in
  let Ptr := (Ptr + HashSize)%nat in
  let OpaqueLength := Z.to_nat (ReadUnaligned 2 Ptr SpdmResponse) in
  let Ptr := (Ptr + 2)%nat in
  ReturnIf
    (bool_decide (SpdmResponseSize < FixedSize + OpaqueLength + SignatureSize)%nat)
    RETURN_DEVICE_ERROR ;;;
  let SpdmResponseSize := (FixedSize + OpaqueLength + SignatureSize)%nat in
  ModifyContext
    (set_Transcript (fun t =>
       let t := set_MessageC
                  (AppendUnchecked (MessageC t)
                     (take (SpdmResponseSize - SignatureSize) SpdmResponse)) t in
       let t := set_M1M2 (AppendUnchecked (M1M2 t) (GetManagedBuffer (MessageA t))) t in
       let t := set_M1M2 (AppendUnchecked (M1M2 t) (GetManagedBuffer (MessageB t))) t in
       set_M1M2 (AppendUnchecked (M1M2 t) (GetManagedBuffer (MessageC t))) t)) ;;;
  let Ptr := (Ptr + OpaqueLength)%nat in
  let Signature := take SignatureSize (drop Ptr SpdmResponse) in
  c <- GetContext ;;
  (if SpdmVerifyChallengeAuthSignature c true Signature then ExecRet tt
   else
     ModifyContext (set_ErrorState SPDM_STATUS_ERROR_CERTIFICATE_FAILURE) ;;;
     ExecReturn RETURN_SECURITY_VIOLATION) ;;;
  ModifyContext (set_ErrorState SPDM_STATUS_SUCCESS) ;;;
  ModifyContext (set_Transcript (fun t => set_M1M2 (ResetManagedBuffer (M1M2 t)) t)) ;;;
  CopyMeasurementHash MeasurementSummaryHash ;;;
  (if decide (AuthAttributeBasicMutAuthReq AuthAttribute = 1) then
     Emit EventEncapsulatedRequest ;;;
     c <- GetContext ;;
     let '(Status, c') := SpdmEncapsulatedRequest c in
     ModifyContext (fun _ => c') ;;;
     if RETURN_ERROR Status then
       ModifyContext (set_ErrorState SPDM_STATUS_ERROR_CERTIFICATE_FAILURE) ;;;
       ExecReturn RETURN_SECURITY_VIOLATION
     else ExecRet tt
   else ExecRet tt) ;;;
  ModifyContext (fun c =>
    set_SpdmCmdReceiveState
      (Z.lor (SpdmCmdReceiveState c) SPDM_CHALLENGE_RECEIVE_FLAG) c) ;;;
  ModifyContext (set_ConnectionInfo (set_ConnectionState SpdmConnectionStateAuthenticated)) ;;;
  ExecRet tt.

Close Scope exec_scope.

(** What a call leaves behind: the status, the bytes copied to
    [MeasurementHash] (none on the paths that return before the copy; a
    run that fails in the encapsulated dialogue has copied them), the
    context and the trace. *)
Record CHALLENGE_RESULT : Type := {
  ResultStatus : RETURN_STATUS;
  ResultMeasurementHash : list byte;
  ResultContext : SPDM_DEVICE_CONTEXT;
  ResultTrace : list SPDM_EVENT
}.

Definition ChallengeResult (o : OUTCOME unit) (st : EXEC_STATE)
  : CHALLENGE_RESULT :=
  {| ResultStatus := match o with Continue _ => RETURN_SUCCESS | Return s => s end;
     ResultMeasurementHash := ExecMeasurementHash st;
     ResultContext := ExecContext st;
     ResultTrace := ExecTrace st |}.

Definition TrySpdmChallenge (SpdmContext : SPDM_DEVICE_CONTEXT)
  (SlotNum MeasurementHashType : Z) (Nonce : list byte) : CHALLENGE_RESULT :=
  let Run := TrySpdmChallengeBody SlotNum MeasurementHashType Nonce
               {| ExecContext := SpdmContext; ExecTrace := [];
                  ExecMeasurementHash := [] |} in
  ChallengeResult (fst Run) (snd Run).

End Requester.

(* ================================================================== *)
(** * Concrete configurations and contexts used in examples *)
(* ================================================================== *)

(** The typical maxima named by the spec (4 KiB and 64 KiB message
    buffers, 64 KiB of certificate chain); eight certificate slots; small
    scratch areas, so that the examples evaluate quickly. *)
#[global] Instance TypicalConfig : SpdmLibConfig := {
  MAX_SPDM_MESSAGE_BUFFER_SIZE := 64 * 1024;
  MAX_SPDM_MESSAGE_SMALL_BUFFER_SIZE := 4 * 1024;
  MAX_SPDM_CERT_CHAIN_SIZE := 64 * 1024;
  MAX_SPDM_SLOT_COUNT := 8;
  MAX_SPDM_VERSION_COUNT := 2;
  MAX_SPDM_PSK_HINT_LENGTH := 16;
  MAX_SPDM_MEASUREMENT_RECORD_SIZE := 256;
  MAX_SPDM_REQUEST_RETRY_TIMES := 3;
  MAX_SPDM_OPAQUE_DATA_SIZE := 64;
  MAX_HASH_SIZE := 64;
  MAX_ASYM_KEY_SIZE := 64;
  DEFAULT_OPAQUE_LENGTH := 16;
  DEFAULT_OPAQUE_DATA := "u"%byte
}.

(** A fresh context with the typical four session slots. *)
Definition FreshContext : SPDM_DEVICE_CONTEXT := SpdmInitContext 4.

(** The registry after four sessions were assigned: no slot is free. *)
Definition FullRegistryContext : SPDM_DEVICE_CONTEXT :=
  let c1 := snd (SpdmAssignSessionId FreshContext 0xFFFFFFFF false) in
  let c2 := snd (SpdmAssignSessionId c1 0xFFFEFFFE false) in
  let c3 := snd (SpdmAssignSessionId c2 0xFFFDFFFD true) in
  snd (SpdmAssignSessionId c3 0xFFFCFFFC false).


(** A stand-in for the crypto collaborators, for evaluating the functions
    on concrete inputs: a 4-byte rolling checksum as digest, a signature
    that is the digest behind a tag byte, and a device with two
    measurement blocks, mutable firmware first and immutable ROM second. *)
Definition ToyDigest (Data : list byte) : list byte :=
  WriteLE 4 (fold_left (fun acc b => acc * 31 + byte_to_Z b + 1) Data 7).

Definition ToyFirmwareBlock : list byte :=
  [x01; x01; x05; x00; x01; x02; x00; xcc; xdd].

Definition ToyRomBlock : list byte :=
  [x02; x01; x05; x00; x00; x02; x00; xaa; xbb].

#[global] Instance ToyCrypt : SpdmCryptLib := {
  GetSpdmHashSize := fun _ => 4%nat;
  SpdmHashAll := fun _ Data => ToyDigest Data;
  SpdmHashAll_size := fun _ _ => eq_refl;
  GetSpdmMeasurementHashSize := fun _ => 2%nat;
  SpdmMeasurementHashAll := fun _ Data => ToyDigest Data;
  GetSpdmAsymSize := fun _ => 5%nat;
  GetSpdmReqAsymSize := fun _ => 5%nat;
  SpdmRequesterDataSignFunc := fun _ HashData => Some (x52 :: HashData);
  SpdmResponderDataSignFunc := fun _ HashData => Some (x53 :: HashData);
  X509GetCertFromCertChain := fun Chain _ => Some Chain;
  SpdmAsymGetPublicKeyFromX509 := fun _ Cert => Some Cert;
  SpdmAsymVerify := fun _ _ HashData SignData =>
    bool_decide (SignData = x53 :: HashData);
  SpdmReqAsymGetPublicKeyFromX509 := fun _ Cert => Some Cert;
  SpdmReqAsymVerify := fun _ _ HashData SignData =>
    bool_decide (SignData = x52 :: HashData);
  SpdmHmacAllWithResponseFinishedKey := fun _ Data => ToyDigest Data;
  RsaGetPrivateKeyFromPem := fun Pem => Some Pem;
  RsaPkcs1Sign := fun _ HashData => Some (x53 :: HashData);
  SpdmMeasurementCollectionFunc := fun _ _ _ =>
    Some (2, ToyFirmwareBlock ++ ToyRomBlock)
}.

Definition FilledBuffer (Max : Z) (Data : list byte) : MANAGED_BUFFER :=
  {| MaxBufferSize := Max; Buffer := Data |}.

(** A context after negotiation and the certificate dialogue in both
    directions: A, B, MutB and the CHALLENGE request in MutC are recorded,
    M1M2 is empty. *)
Definition NegotiatedContext : SPDM_DEVICE_CONTEXT :=
  set_Transcript
    (fun t =>
       {| MessageA := FilledBuffer MAX_SPDM_MESSAGE_SMALL_BUFFER_SIZE [x0a; x0a];
          MessageB := FilledBuffer MAX_SPDM_MESSAGE_BUFFER_SIZE [x0b];
          MessageC := FilledBuffer MAX_SPDM_MESSAGE_SMALL_BUFFER_SIZE [x0c];
          MessageMutB := FilledBuffer MAX_SPDM_MESSAGE_BUFFER_SIZE [xb1; xb2];
          MessageMutC := FilledBuffer MAX_SPDM_MESSAGE_SMALL_BUFFER_SIZE [xc1];
          M1M2 := M1M2 t; L1L2 := L1L2 t |})
    FreshContext.

(** A session of [NegotiatedContext] whose MessageK holds two bytes. *)
Definition ExampleSession : SPDM_SESSION_INFO :=
  let s := SpdmSessionInfoInit NegotiatedContext 0xFFFFFFFF true in
  {| SessionId := SessionId s; UsePsk := UsePsk s;
     SessionMutAuthRequested := SessionMutAuthRequested s;
     SessionTranscript :=
       {| MessageK := FilledBuffer MAX_SPDM_MESSAGE_BUFFER_SIZE [xe1; xe2];
          MessageF := MessageF (SessionTranscript s) |};
     SecuredMessageContext := SecuredMessageContext s |}.


(** A responder with one provisioned slot, a private key and two cached
    blocks (immutable ROM, then mutable firmware) with 2-byte digests.  The
    negotiated state and the transcript are those of [NegotiatedContext]. *)
Definition ExampleCertChain : list byte :=
  [x00; x00; x00; x00; xd0; xd1; xd2; xd3; xde; xad; xbe; xef].

Definition ResponderContext : SPDM_DEVICE_CONTEXT :=
  set_LocalContext
    (fun l =>
       {| SpdmVersion := SpdmVersion l; LocalCapability := LocalCapability l;
          LocalAlgorithm := LocalAlgorithm l;
          CertificateChain := <[0%nat := ExampleCertChain]> (CertificateChain l);
          SlotCount := 1;
          ProvisionedSlotNum := 0;
          PeerRootCertHashProvision := PeerRootCertHashProvision l;
          PeerCertChainProvision := PeerCertChainProvision l;
          PskHint := PskHint l;
          OpaqueChallengeAuthRsp := [x6f; x70];
          OpaqueMeasurementRsp := OpaqueMeasurementRsp l;
          BasicMutAuthRequested := BasicMutAuthRequested l;
          MutAuthRequested := MutAuthRequested l;
          DeviceMeasurement :=
            [x01; x01; x05; x00; x00; x02; x00; xaa; xbb;
             x02; x01; x05; x00; x01; x02; x00; xcc; xdd];
          DeviceMeasurementCount := 2;
          PrivatePem := Some [x50; x45; x4d] |})
    NegotiatedContext.

(** A CHALLENGE request: slot in Param1, summary-hash type in Param2. *)
Definition ChallengeRequest (SlotNum MeasurementHashType : Z) : list byte :=
  MessageHeader SPDM_MESSAGE_VERSION_10 SPDM_CHALLENGE SlotNum MeasurementHashType
  ++ replicate SPDM_NONCE_SIZE x11.

(** A requester that has received VERSION, CAPABILITIES (with CHAL_CAP,
    without MUT_AUTH_CAP), ALGORITHMS, DIGESTS and the certificate chain
    of the responder above. *)
Definition RequesterContext : SPDM_DEVICE_CONTEXT :=
  set_SpdmCmdReceiveState
    (Z.lor SPDM_GET_CAPABILITIES_RECEIVE_FLAG
       (Z.lor SPDM_NEGOTIATE_ALGORITHMS_RECEIVE_FLAG SPDM_GET_DIGESTS_RECEIVE_FLAG))
    (set_ConnectionInfo
       (fun i =>
          {| ConnectionState := SpdmConnectionStateAfterCertificate;
             Version := [SPDM_MESSAGE_VERSION_10; 0];
             Capability :=
               set_Flags SPDM_GET_CAPABILITIES_RESPONSE_FLAGS_CHAL_CAP (Capability i);
             Algorithm := Algorithm i;
             PeerCertChainBuffer := ExampleCertChain;
             LocalUsedCertChainBuffer := LocalUsedCertChainBuffer i |})
       (set_Transcript
          (fun t => set_MessageC
                      (FilledBuffer MAX_SPDM_MESSAGE_SMALL_BUFFER_SIZE []) t)
          NegotiatedContext)).

(** The link of the examples: the peer is the responder model itself,
    holding the transcript of the requester (whose ledger C ends with the
    request just sent); an ERROR from the peer ends the operation; the
    encapsulated dialogue is empty. *)
#[global] Instance LoopbackIo : SpdmRequesterIo := {
  SpdmSendSpdmRequest := fun _ _ => RETURN_SUCCESS;
  SpdmReceiveSpdmResponse := fun c _ =>
    let Peer := set_Transcript (fun _ => Transcript c) ResponderContext in
    let Ledger := Buffer (MessageC (Transcript c)) in
    let Request := drop (length Ledger - sizeof_SPDM_CHALLENGE_REQUEST) Ledger in
    match fst (SpdmGetResponseChallenge Peer Request (replicate SPDM_NONCE_SIZE x22)
                 (replicate 16 x00)) with
    | SpdmResponseMessage Message => (RETURN_SUCCESS, Message)
    | SpdmErrorResponse ErrorCode ErrorData =>
        (RETURN_SUCCESS,
         MessageHeader SPDM_MESSAGE_VERSION_10 SPDM_ERROR ErrorCode ErrorData)
    end;
  SpdmHandleErrorResponseMain := fun c Response => (RETURN_DEVICE_ERROR, c, Response);
  SpdmEncapsulatedRequest := fun c => (RETURN_SUCCESS, c)
}.

(** A peer that answers every CHALLENGE for slot 0 with a CHALLENGE_AUTH
    whose auth attribute has [BasicMutAuthReq] set. *)
Definition MutAuthPeerIo : SpdmRequesterIo := {|
  SpdmSendSpdmRequest := fun _ _ => RETURN_SUCCESS;
  SpdmReceiveSpdmResponse := fun _ _ =>
    (RETURN_SUCCESS,
     MessageHeader SPDM_MESSAGE_VERSION_10 SPDM_CHALLENGE_AUTH 0x80 0x01
     ++ replicate 60 x00);
  SpdmHandleErrorResponseMain := fun c Response => (RETURN_DEVICE_ERROR, c, Response);
  SpdmEncapsulatedRequest := fun c => (RETURN_SUCCESS, c)
|}.

(** A requester like [RequesterContext] whose connection carries
    MUT_AUTH_CAP beside CHAL_CAP, while its local capability flags are all
    clear. *)
Definition MutAuthConnectionContext : SPDM_DEVICE_CONTEXT :=
  set_ConnectionInfo
    (fun i =>
       {| ConnectionState := ConnectionState i; Version := Version i;
          Capability :=
            set_Flags
              (Z.lor SPDM_GET_CAPABILITIES_RESPONSE_FLAGS_CHAL_CAP
                     SPDM_GET_CAPABILITIES_REQUEST_FLAGS_MUT_AUTH_CAP)
              (Capability i);
          Algorithm := Algorithm i;
          PeerCertChainBuffer := PeerCertChainBuffer i;
          LocalUsedCertChainBuffer := LocalUsedCertChainBuffer i |})
    RequesterContext.

(** A peer that answers the CHALLENGE for slot 0 with a CHALLENGE_AUTH
    whose auth attribute has [BasicMutAuthReq] set, with the summary hash
    a1 a2 a3 a4 and without opaque data, signed over the ledgers A, B and
    C of the requester followed by the response. *)
Definition MutAuthSigningPeerIo : SpdmRequesterIo := {|
  SpdmSendSpdmRequest := fun _ _ => RETURN_SUCCESS;
  SpdmReceiveSpdmResponse := fun c _ =>
    let Body :=
      MessageHeader SPDM_MESSAGE_VERSION_10 SPDM_CHALLENGE_AUTH 0x80 0x01
      ++ ToyDigest ExampleCertChain ++ replicate SPDM_NONCE_SIZE x22
      ++ [xa1; xa2; xa3; xa4] ++ [x00; x00] in
    let Signed :=
      Buffer (MessageA (Transcript c)) ++ Buffer (MessageB (Transcript c))
      ++ Buffer (MessageC (Transcript c)) ++ Body in
    (RETURN_SUCCESS, Body ++ x53 :: ToyDigest Signed);
  SpdmHandleErrorResponseMain := fun c Response => (RETURN_DEVICE_ERROR, c, Response);
  SpdmEncapsulatedRequest := fun c => (RETURN_SUCCESS, c)
|}.

(** The same peer, whose encapsulated dialogue fails. *)
Definition FailingEncapPeerIo : SpdmRequesterIo := {|
  SpdmSendSpdmRequest := fun _ _ => RETURN_SUCCESS;
  SpdmReceiveSpdmResponse := @SpdmReceiveSpdmResponse MutAuthSigningPeerIo;
  SpdmHandleErrorResponseMain := fun c Response => (RETURN_DEVICE_ERROR, c, Response);
  SpdmEncapsulatedRequest := fun c => (RETURN_DEVICE_ERROR, c)
|}.

(* ================================================================== *)
(** * Predicates used in the statements *)
(* ================================================================== *)

(** ** Session slots *)

Definition ReqHalfFree (s : SPDM_SESSION_INFO) : Prop :=
  Z.land (SessionId s) 0xFFFF0000 = 0.

Definition RspHalfFree (s : SPDM_SESSION_INFO) : Prop :=
  Z.land (SessionId s) 0xFFFF = 0.

(** [Index] is the first slot of [Slots] that satisfies [Free]. *)
Definition FirstFreeSlot (Free : SPDM_SESSION_INFO -> Prop)
  (Slots : list SPDM_SESSION_INFO) (Index : nat) : Prop :=
  (exists s, Slots !! Index = Some s /\ Free s) /\
  forall j s', (j < Index)%nat -> Slots !! j = Some s' -> ~ Free s'.

Definition NoFreeSlot (Free : SPDM_SESSION_INFO -> Prop)
  (Slots : list SPDM_SESSION_INFO) : Prop :=
  forall s, s ∈ Slots -> ~ Free s.

Definition IdTest (Id : Z) (s : SPDM_SESSION_INFO) : bool :=
  bool_decide (SessionId s = Id).

(** ** Algorithm data *)

Definition IsAlgorithmDataType (DataType : SPDM_DATA_TYPE) : bool :=
  match DataType with
  | SpdmDataMeasurementHashAlgo | SpdmDataBaseAsymAlgo | SpdmDataBaseHashAlgo
  | SpdmDataDHENamedGroup | SpdmDataAEADCipherSuite | SpdmDataReqBaseAsymAlg
  | SpdmDataKeySchedule => true
  | _ => false
  end.

(** The field of an algorithm table that a tag names, and its size. *)
Definition AlgorithmField (DataType : SPDM_DATA_TYPE) (a : SPDM_DEVICE_ALGORITHM) : Z :=
  match DataType with
  | SpdmDataMeasurementHashAlgo => MeasurementHashAlgo a
  | SpdmDataBaseAsymAlgo => BaseAsymAlgo a
  | SpdmDataBaseHashAlgo => BaseHashAlgo a
  | SpdmDataDHENamedGroup => DHENamedGroup a
  | SpdmDataAEADCipherSuite => AEADCipherSuite a
  | SpdmDataReqBaseAsymAlg => ReqBaseAsymAlg a
  | SpdmDataKeySchedule => KeySchedule a
  | _ => 0
  end.

Definition AlgorithmFieldSize (DataType : SPDM_DATA_TYPE) : nat :=
  match DataType with
  | SpdmDataMeasurementHashAlgo | SpdmDataBaseAsymAlgo | SpdmDataBaseHashAlgo => 4
  | _ => 2
  end.

Definition AtConnection (Param : SPDM_DATA_PARAMETER) : SPDM_DATA_PARAMETER :=
  {| Location := SpdmDataLocationConnection;
     AdditionalData := AdditionalData Param |}.

(** ** Transcript hash *)

Section StatementPredicates.
Context `{Config : SpdmLibConfig} `{Crypt : SpdmCryptLib}.

(** The bytes the certificate contributes to TH: its digest, or nothing
    when no certificate is handed over. *)
Definition CertTerm (SpdmContext : SPDM_DEVICE_CONTEXT)
  (CertBuffer : option (list byte)) : list byte :=
  match CertBuffer with
  | Some Cert => SpdmHashAll (NegotiatedHashAlgo SpdmContext) Cert
  | None => []
  end.

End StatementPredicates.

(** ** Responses *)

Definition IsInvalidRequest (Response : SPDM_RESPONSE) : Prop :=
  Response = SpdmErrorResponse SPDM_ERROR_CODE_INVALID_REQUEST 0.


(** ** Signatures *)

(** The peer chain in use, if there is one, holds its header. *)
Definition PeerChainHoldsHeader `{Crypt : SpdmCryptLib} (SpdmContext : SPDM_DEVICE_CONTEXT)
  : Prop :=
  forall Chain, PeerCertChain SpdmContext = Some Chain -> ChainHoldsHeader SpdmContext Chain.

(** [Signature] verifies over the digest of [Data] under the key of the
    leaf certificate of the peer chain: the responder key when the
    requester verifies ([IsRequester]), the requester key when the
    responder does. *)
Definition PeerSigned `{Crypt : SpdmCryptLib} (IsRequester : bool)
  (SpdmContext : SPDM_DEVICE_CONTEXT) (Data Signature : list byte) : Prop :=
  exists Chain Cert Key,
    PeerCertChain SpdmContext = Some Chain /\
    X509GetCertFromCertChain (X509Part SpdmContext Chain) (-1) = Some Cert /\
    let HashData := SpdmHashAll (NegotiatedHashAlgo SpdmContext) Data in
    if IsRequester then
      let AsymAlgo := BaseAsymAlgo (Algorithm (ConnectionInfo SpdmContext)) in
      SpdmAsymGetPublicKeyFromX509 AsymAlgo Cert = Some Key /\
      SpdmAsymVerify AsymAlgo Key HashData Signature = true
    else
      let AsymAlgo := ReqBaseAsymAlg (Algorithm (ConnectionInfo SpdmContext)) in
      SpdmReqAsymGetPublicKeyFromX509 AsymAlgo Cert = Some Key /\
      SpdmReqAsymVerify AsymAlgo Key HashData Signature = true.

(** ** Ledgers *)

(** The bytes a ledger held are still there, at the same places: the old
    content is a prefix of the new. *)
Definition LedgerKept (Old New : MANAGED_BUFFER) : Prop :=
  Buffer Old `prefix_of` Buffer New.

Definition LedgerKeptOrReset (Old New : MANAGED_BUFFER) : Prop :=
  Buffer New = [] \/ LedgerKept Old New.

(** Every ledger of the transcript kept its bytes; M1M2, the only ledger
    the challenge code resets, kept them or is empty. *)
Definition TranscriptKept (Old New : SPDM_TRANSCRIPT) : Prop :=
  LedgerKept (MessageA Old) (MessageA New) /\
  LedgerKept (MessageB Old) (MessageB New) /\
  LedgerKept (MessageC Old) (MessageC New) /\
  LedgerKept (MessageMutB Old) (MessageMutB New) /\
  LedgerKept (MessageMutC Old) (MessageMutC New) /\
  LedgerKept (L1L2 Old) (L1L2 New) /\
  LedgerKeptOrReset (M1M2 Old) (M1M2 New).

(** One of the two collaborators that receive the whole context ran. *)
Definition HandlerOrEncapRan (Trace : list SPDM_EVENT) : Prop :=
  In EventEncapsulatedRequest Trace \/
  exists Response, In (EventHandleErrorResponse Response) Trace.


(* ================================================================== *)
(** * Further operations of the common library *)
(* ================================================================== *)

(** ** [SpdmCommonLibContextData.c] *)

(** [SpdmGetSessionKeyInfoViaSessionId]: the secured-message context of
    the slot found, [None] for [NULL]. *)
Definition SpdmGetSessionKeyInfoViaSessionId (SpdmContext : SPDM_DEVICE_CONTEXT)
  (Id : Z) : option SPDM_SECURED_MESSAGE_CONTEXT :=
  match SpdmGetSessionInfoViaSessionId SpdmContext Id with
  | None => None
  | Some Index => SecuredMessageContext <$> SessionInfo SpdmContext !! Index
  end.

Definition SpdmGetLastError (SpdmContext : SPDM_DEVICE_CONTEXT) : SPDM_STATUS :=
  ErrorState SpdmContext.

(** ** [SpdmCommonLibCryptoService.c]: certificates and measurements *)

Definition set_PeerCertChainBuffer (v : list byte) (i : SPDM_CONNECTION_INFO)
  : SPDM_CONNECTION_INFO :=
  {| ConnectionState := ConnectionState i; Version := Version i;
     Capability := Capability i; Algorithm := Algorithm i;
     PeerCertChainBuffer := v;
     LocalUsedCertChainBuffer := LocalUsedCertChainBuffer i |}.

Definition set_L1L2 (v : MANAGED_BUFFER) (t : SPDM_TRANSCRIPT) : SPDM_TRANSCRIPT :=
  {| MessageA := MessageA t; MessageB := MessageB t; MessageC := MessageC t;
     MessageMutB := MessageMutB t; MessageMutC := MessageMutC t;
     M1M2 := M1M2 t; L1L2 := v |}.

(** [CompareMem (Destination, Source, Length)]: zero when the first
    [Length] bytes agree.  A buffer shorter than [Length] is compared as
    far as it goes; the C function would read past its end. *)
Definition CompareMem (Destination Source : list byte) (Length : nat) : Z :=
  if bool_decide (take Length Destination = take Length Source) then 0 else 1.

(** Modelled from the spec: further primitives of the crypto capability
    interface, outside the sources like those of [SpdmCryptLib]: the check
    of a certificate chain against its own root and the HMAC under the
    request-direction finished key of a session. *)
Class SpdmCryptLibSession : Type := {
  SpdmVerifyCertificateChainData : Z -> list byte -> bool;
  SpdmHmacAllWithRequestFinishedKey :
    SPDM_SECURED_MESSAGE_CONTEXT -> list byte -> list byte
}.

Section CryptoServiceMore.
Context `{Config : SpdmLibConfig} `{Crypt : SpdmCryptLib}
        `{CryptSession : SpdmCryptLibSession}.

(** [SpdmVerifyDigest]; [DigestSize] is not read by the function. *)
Definition SpdmVerifyDigest (SpdmContext : SPDM_DEVICE_CONTEXT)
  (Digest : list byte) : bool :=
  let CertBuffer := PeerCertChainProvision (LocalContext SpdmContext) in
  if negb (bool_decide (length CertBuffer = 0%nat)) then
    let HashSize := GetSpdmHashSize (NegotiatedHashAlgo SpdmContext) in
    let CertBufferHash := SpdmHashAll (NegotiatedHashAlgo SpdmContext) CertBuffer in
    if decide (CompareMem Digest CertBufferHash HashSize <> 0) then false
    else true
  else true.

(** [SpdmVerifyCertificateChain]: the [BOOLEAN] and the context, whose
    [PeerCertChainBuffer] takes the chain when the check passes.
    [PeerCertChainBuffer] is an array of [MAX_SPDM_CERT_CHAIN_SIZE] bytes
    and the code copies into it without a check of the size: for a longer
    chain that passes the checks the copy leaves the array, and the call
    has no result here ([None]). *)
Definition SpdmVerifyCertificateChain (SpdmContext : SPDM_DEVICE_CONTEXT)
  (CertificateChain : list byte) : option (bool * SPDM_DEVICE_CONTEXT) :=
  if negb (SpdmVerifyCertificateChainData (NegotiatedHashAlgo SpdmContext)
             CertificateChain)
  then Some (false, SpdmContext)
  else
    let RootCertHash := PeerRootCertHashProvision (LocalContext SpdmContext) in
    let CertBuffer := PeerCertChainProvision (LocalContext SpdmContext) in
    let Pass :=
      if decide (Z.of_nat (length CertificateChain) <= MAX_SPDM_CERT_CHAIN_SIZE)
      then
        Some (true,
              set_ConnectionInfo (set_PeerCertChainBuffer CertificateChain)
                SpdmContext)
      else None in
    if negb (bool_decide (length RootCertHash = 0%nat)) then
      let HashSize := GetSpdmHashSize (NegotiatedHashAlgo SpdmContext) in
      if negb (bool_decide (length RootCertHash = HashSize))
      then Some (false, SpdmContext)
      else if decide (CompareMem (drop sizeof_SPDM_CERT_CHAIN CertificateChain)
                        RootCertHash HashSize <> 0)
      then Some (false, SpdmContext)
      else Pass
    else if negb (bool_decide (length CertBuffer = 0%nat)) then
      if negb (bool_decide (length CertBuffer = length CertificateChain))
      then Some (false, SpdmContext)
      else if decide (CompareMem CertificateChain CertBuffer
                        (length CertificateChain) <> 0)
      then Some (false, SpdmContext)
      else Pass
    else Pass.

(** [SpdmGenerateMeasurementSignature].  [ResponseMessage] is the response
    buffer of [ResponseMessageSize] bytes, [Nonce] the bytes of
    [SpdmGetRandomNumber].  The result is the signature ([None] for
    [FALSE]), the response buffer and the context as the call leaves
    them. *)
Definition SpdmGenerateMeasurementSignature (SpdmContext : SPDM_DEVICE_CONTEXT)
  (ResponseMessage Nonce : list byte)
  : option (list byte) * list byte * SPDM_DEVICE_CONTEXT :=
  let ResponseMessageSize := length ResponseMessage in
  let SignatureSize :=
    GetSpdmAsymSize (BaseAsymAlgo (Algorithm (ConnectionInfo SpdmContext))) in
  let Opaque := OpaqueMeasurementRsp (LocalContext SpdmContext) in
  let MeasurmentSigSize :=
    (SPDM_NONCE_SIZE + 2 + length Opaque + SignatureSize)%nat in
  let Ptr := (ResponseMessageSize - MeasurmentSigSize)%nat in
  let Response := CopyMem ResponseMessage Ptr (Field SPDM_NONCE_SIZE Nonce) in
  let Ptr := (Ptr + SPDM_NONCE_SIZE)%nat in
  let Response :=
    CopyMem Response Ptr (WriteLE 2 (UINT16 (Z.of_nat (length Opaque)))) in
  let Ptr := (Ptr + 2)%nat in
  let Response := CopyMem Response Ptr Opaque in
  let Ptr := (Ptr + length Opaque)%nat in
  let '(Status, NewL1L2) :=
    AppendManagedBuffer (L1L2 (Transcript SpdmContext))
      (take (ResponseMessageSize - SignatureSize) Response) in
  if RETURN_ERROR Status then (None, Response, SpdmContext)
  else
    let SpdmContext' := set_Transcript (set_L1L2 NewL1L2) SpdmContext in
    let HashData :=
      SpdmHashAll (NegotiatedHashAlgo SpdmContext) (GetManagedBuffer NewL1L2) in
    match SpdmResponderDataSignFunc
            (BaseAsymAlgo (Algorithm (ConnectionInfo SpdmContext))) HashData with
    | None => (None, Response, SpdmContext')
    | Some Signature => (Some Signature, CopyMem Response Ptr Signature, SpdmContext')
    end.

(** [SpdmVerifyMeasurementSignature]: the hash is taken over the L1L2
    ledger as it is at the call. *)
Definition SpdmVerifyMeasurementSignature (SpdmContext : SPDM_DEVICE_CONTEXT)
  (SignData : list byte) : bool :=
  let HashData :=
    SpdmHashAll (NegotiatedHashAlgo SpdmContext)
      (GetManagedBuffer (L1L2 (Transcript SpdmContext))) in
  match PeerCertChain SpdmContext with
  | None => false
  | Some Chain =>
      match X509GetCertFromCertChain (X509Part SpdmContext Chain) (-1) with
      | None => false
      | Some CertBuffer =>
          let AsymAlgo := BaseAsymAlgo (Algorithm (ConnectionInfo SpdmContext)) in
          match SpdmAsymGetPublicKeyFromX509 AsymAlgo CertBuffer with
          | None => false
          | Some Key => SpdmAsymVerify AsymAlgo Key HashData SignData
          end
      end
  end.

End CryptoServiceMore.

(** ** [SpdmCommonLibCryptoService.c]: session handshake *)

Section SessionHandshake.
Context `{Config : SpdmLibConfig} `{Crypt : SpdmCryptLib}
        `{CryptSession : SpdmCryptLibSession}.

(** [SpdmCalculateTHCurrAKF].  [CertBuffer] and [MutCertBuffer] are [None]
    for a NULL pointer.  The result is the [BOOLEAN] and [THCurr] as the
    call leaves it. *)
Definition SpdmCalculateTHCurrAKF (SpdmContext : SPDM_DEVICE_CONTEXT)
  (Session : SPDM_SESSION_INFO) (CertBuffer MutCertBuffer : option (list byte))
  : bool * MANAGED_BUFFER :=
  let HashSize := GetSpdmHashSize (NegotiatedHashAlgo SpdmContext) in
  let AppendHash (THCurr : MANAGED_BUFFER) (Buf : option (list byte)) :=
    match Buf with
    | Some Cert =>
        AppendManagedBuffer THCurr
          (take HashSize (SpdmHashAll (NegotiatedHashAlgo SpdmContext) Cert))
    | None => (RETURN_SUCCESS, THCurr)
    end in
  let THCurr := InitManagedBuffer MAX_SPDM_MESSAGE_BUFFER_SIZE in
  let '(Status, THCurr) :=
    AppendManagedBuffer THCurr (GetManagedBuffer (MessageA (Transcript SpdmContext))) in
  if RETURN_ERROR Status then (false, THCurr) else
  let '(Status, THCurr) := AppendHash THCurr CertBuffer in
  if RETURN_ERROR Status then (false, THCurr) else
  let '(Status, THCurr) :=
    AppendManagedBuffer THCurr
      (GetManagedBuffer (MessageK (SessionTranscript Session))) in
  if RETURN_ERROR Status then (false, THCurr) else
  let '(Status, THCurr) := AppendHash THCurr MutCertBuffer in
  if RETURN_ERROR Status then (false, THCurr) else
  let '(Status, THCurr) :=
    AppendManagedBuffer THCurr
      (GetManagedBuffer (MessageF (SessionTranscript Session))) in
  if RETURN_ERROR Status then (false, THCurr) else
  (true, THCurr).

(** The X.509 part of [LocalUsedCertChainBuffer]; [None] when the buffer
    is NULL or empty. *)
Definition LocalUsedCert (SpdmContext : SPDM_DEVICE_CONTEXT) : option (list byte) :=
  let Used := LocalUsedCertChainBuffer (ConnectionInfo SpdmContext) in
  if bool_decide (length Used = 0%nat) then None
  else Some (X509Part SpdmContext Used).

(** The X.509 part of the peer chain: the connection buffer if it is
    filled, else the local provision, else [None]. *)
Definition PeerCert (SpdmContext : SPDM_DEVICE_CONTEXT) : option (list byte) :=
  X509Part SpdmContext <$> PeerCertChain SpdmContext.

(** The tail shared by the signature verifications: the leaf certificate
    of the chain, its public key, the verification of [SignData] over
    [HashData]. *)
Definition VerifyWithLeaf (IsResponderKey : bool) (SpdmContext : SPDM_DEVICE_CONTEXT)
  (CertChainBuffer HashData SignData : list byte) : bool :=
  match X509GetCertFromCertChain CertChainBuffer (-1) with
  | None => false
  | Some CertBuffer =>
      if IsResponderKey then
        let AsymAlgo := BaseAsymAlgo (Algorithm (ConnectionInfo SpdmContext)) in
        match SpdmAsymGetPublicKeyFromX509 AsymAlgo CertBuffer with
        | None => false
        | Some Key => SpdmAsymVerify AsymAlgo Key HashData SignData
        end
      else
        let AsymAlgo := ReqBaseAsymAlg (Algorithm (ConnectionInfo SpdmContext)) in
        match SpdmReqAsymGetPublicKeyFromX509 AsymAlgo CertBuffer with
        | None => false
        | Some Key => SpdmReqAsymVerify AsymAlgo Key HashData SignData
        end
  end.

Definition SpdmGenerateKeyExchangeRspHmac (SpdmContext : SPDM_DEVICE_CONTEXT)
  (Session : SPDM_SESSION_INFO) : option (list byte) :=
  match LocalUsedCert SpdmContext with
  | None => None
  | Some CertBuffer =>
      let HashSize := GetSpdmHashSize (NegotiatedHashAlgo SpdmContext) in
      let '(Result, THCurr) :=
        SpdmCalculateTHCurrAK SpdmContext Session (Some CertBuffer) in
      if negb Result then None
      else
        Some (take HashSize
                (SpdmHmacAllWithResponseFinishedKey (SecuredMessageContext Session)
                   (GetManagedBuffer THCurr)))
  end.

Definition SpdmVerifyKeyExchangeRspSignature (SpdmContext : SPDM_DEVICE_CONTEXT)
  (Session : SPDM_SESSION_INFO) (SignData : list byte) : bool :=
  match PeerCert SpdmContext with
  | None => false
  | Some CertChainBuffer =>
      let '(Result, THCurr) :=
        SpdmCalculateTHCurrAK SpdmContext Session (Some CertChainBuffer) in
      if negb Result then false
      else
        VerifyWithLeaf true SpdmContext CertChainBuffer
          (SpdmHashAll (NegotiatedHashAlgo SpdmContext) (GetManagedBuffer THCurr))
          SignData
  end.

Definition SpdmVerifyKeyExchangeRspHmac (SpdmContext : SPDM_DEVICE_CONTEXT)
  (Session : SPDM_SESSION_INFO) (HmacData : list byte) : bool :=
  let HashSize := GetSpdmHashSize (NegotiatedHashAlgo SpdmContext) in
  match PeerCert SpdmContext with
  | None => false
  | Some CertBuffer =>
      let '(Result, THCurr) :=
        SpdmCalculateTHCurrAK SpdmContext Session (Some CertBuffer) in
      if negb Result then false
      else
        let CalcHmacData :=
          SpdmHmacAllWithResponseFinishedKey (SecuredMessageContext Session)
            (GetManagedBuffer THCurr) in
        if decide (CompareMem CalcHmacData HmacData HashSize <> 0) then false
        else true
  end.

(** [if (SessionInfo->MutAuthRequested)]: the mutual-authentication
    certificate is looked up only when the session asks for it; the outer
    [None] is the [return FALSE] of a missing certificate. *)
Definition WhenMutAuth (Session : SPDM_SESSION_INFO)
  (MutCert : option (list byte)) : option (option (list byte)) :=
  if bool_decide (SessionMutAuthRequested Session <> 0) then
    match MutCert with
    | None => None
    | Some Cert => Some (Some Cert)
    end
  else Some None.

Definition SpdmGenerateFinishReqSignature (SpdmContext : SPDM_DEVICE_CONTEXT)
  (Session : SPDM_SESSION_INFO) : option (list byte) :=
  match LocalUsedCert SpdmContext with
  | None => None
  | Some MutCertBuffer =>
      match PeerCert SpdmContext with
      | None => None
      | Some CertBuffer =>
          let '(Result, THCurr) :=
            SpdmCalculateTHCurrAKF SpdmContext Session (Some CertBuffer)
              (Some MutCertBuffer) in
          if negb Result then None
          else
            SpdmRequesterDataSignFunc
              (ReqBaseAsymAlg (Algorithm (ConnectionInfo SpdmContext)))
              (SpdmHashAll (NegotiatedHashAlgo SpdmContext) (GetManagedBuffer THCurr))
      end
  end.

Definition SpdmGenerateFinishReqHmac (SpdmContext : SPDM_DEVICE_CONTEXT)
  (Session : SPDM_SESSION_INFO) : option (list byte) :=
  let HashSize := GetSpdmHashSize (NegotiatedHashAlgo SpdmContext) in
  match PeerCert SpdmContext with
  | None => None
  | Some CertBuffer =>
      match WhenMutAuth Session (LocalUsedCert SpdmContext) with
      | None => None
      | Some MutCertBuffer =>
          let '(Result, THCurr) :=
            SpdmCalculateTHCurrAKF SpdmContext Session (Some CertBuffer)
              MutCertBuffer in
          if negb Result then None
          else
            Some (take HashSize
                    (SpdmHmacAllWithRequestFinishedKey (SecuredMessageContext Session)
                       (GetManagedBuffer THCurr)))
      end
  end.

Definition SpdmVerifyFinishReqSignature (SpdmContext : SPDM_DEVICE_CONTEXT)
  (Session : SPDM_SESSION_INFO) (SignData : list byte) : bool :=
  match LocalUsedCert SpdmContext with
  | None => false
  | Some CertBuffer =>
      match PeerCert SpdmContext with
      | None => false
      | Some MutCertChainBuffer =>
          let '(Result, THCurr) :=
            SpdmCalculateTHCurrAKF SpdmContext Session (Some CertBuffer)
              (Some MutCertChainBuffer) in
          if negb Result then false
          else
            VerifyWithLeaf false SpdmContext MutCertChainBuffer
              (SpdmHashAll (NegotiatedHashAlgo SpdmContext) (GetManagedBuffer THCurr))
              SignData
      end
  end.

Definition SpdmVerifyFinishReqHmac (SpdmContext : SPDM_DEVICE_CONTEXT)
  (Session : SPDM_SESSION_INFO) (Hmac : list byte) : bool :=
  let HashSize := GetSpdmHashSize (NegotiatedHashAlgo SpdmContext) in
  match LocalUsedCert SpdmContext with
  | None => false
  | Some CertBuffer =>
      match WhenMutAuth Session (PeerCert SpdmContext) with
      | None => false
      | Some MutCertBuffer =>
          let '(Result, THCurr) :=
            SpdmCalculateTHCurrAKF SpdmContext Session (Some CertBuffer)
              MutCertBuffer in
          if negb Result then false
          else
            let HmacData :=
              SpdmHmacAllWithRequestFinishedKey (SecuredMessageContext Session)
                (GetManagedBuffer THCurr) in
            if decide (CompareMem Hmac HmacData HashSize <> 0) then false else true
      end
  end.

Definition SpdmGenerateFinishRspHmac (SpdmContext : SPDM_DEVICE_CONTEXT)
  (Session : SPDM_SESSION_INFO) : option (list byte) :=
  let HashSize := GetSpdmHashSize (NegotiatedHashAlgo SpdmContext) in
  match LocalUsedCert SpdmContext with
  | None => None
  | Some CertBuffer =>
      match WhenMutAuth Session (PeerCert SpdmContext) with
      | None => None
      | Some MutCertBuffer =>
          let '(Result, THCurr) :=
            SpdmCalculateTHCurrAKF SpdmContext Session (Some CertBuffer)
              MutCertBuffer in
          if negb Result then None
          else
            Some (take HashSize
                    (SpdmHmacAllWithResponseFinishedKey (SecuredMessageContext Session)
                       (GetManagedBuffer THCurr)))
      end
  end.

Definition SpdmVerifyFinishRspHmac (SpdmContext : SPDM_DEVICE_CONTEXT)
  (Session : SPDM_SESSION_INFO) (HmacData : list byte) : bool :=
  let HashSize := GetSpdmHashSize (NegotiatedHashAlgo SpdmContext) in
  match PeerCert SpdmContext with
  | None => false
  | Some CertBuffer =>
      match WhenMutAuth Session (LocalUsedCert SpdmContext) with
      | None => false
      | Some MutCertBuffer =>
          let '(Result, THCurr) :=
            SpdmCalculateTHCurrAKF SpdmContext Session (Some CertBuffer)
              MutCertBuffer in
          if negb Result then false
          else
            let CalcHmacData :=
              SpdmHmacAllWithResponseFinishedKey (SecuredMessageContext Session)
                (GetManagedBuffer THCurr) in
            if decide (CompareMem CalcHmacData HmacData HashSize <> 0) then false
            else true
      end
  end.

Definition SpdmVerifyPskExchangeRspHmac (SpdmContext : SPDM_DEVICE_CONTEXT)
  (Session : SPDM_SESSION_INFO) (HmacData : list byte) : bool :=
  let HashSize := GetSpdmHashSize (NegotiatedHashAlgo SpdmContext) in
  let '(Result, THCurr) := SpdmCalculateTHCurrAK SpdmContext Session None in
  if negb Result then false
  else
    let CalcHmacData :=
      SpdmHmacAllWithResponseFinishedKey (SecuredMessageContext Session)
        (GetManagedBuffer THCurr) in
    if decide (CompareMem CalcHmacData HmacData HashSize <> 0) then false else true.

Definition SpdmGeneratePskFinishReqHmac (SpdmContext : SPDM_DEVICE_CONTEXT)
  (Session : SPDM_SESSION_INFO) : option (list byte) :=
  let HashSize := GetSpdmHashSize (NegotiatedHashAlgo SpdmContext) in
  let '(Result, THCurr) := SpdmCalculateTHCurrAKF SpdmContext Session None None in
  if negb Result then None
  else
    Some (take HashSize
            (SpdmHmacAllWithRequestFinishedKey (SecuredMessageContext Session)
               (GetManagedBuffer THCurr))).

Definition SpdmVerifyPskFinishReqHmac (SpdmContext : SPDM_DEVICE_CONTEXT)
  (Session : SPDM_SESSION_INFO) (Hmac : list byte) : bool :=
  let HashSize := GetSpdmHashSize (NegotiatedHashAlgo SpdmContext) in
  let '(Result, THCurr) := SpdmCalculateTHCurrAKF SpdmContext Session None None in
  if negb Result then false
  else
    let HmacData :=
      SpdmHmacAllWithRequestFinishedKey (SecuredMessageContext Session)
        (GetManagedBuffer THCurr) in
    if decide (CompareMem Hmac HmacData HashSize <> 0) then false else true.

End SessionHandshake.

(** ** [SpdmRequesterLibChallenge.c]: the retry loop *)

Section RequesterRetry.
Context `{Config : SpdmLibConfig} `{Crypt : SpdmCryptLib} `{Io : SpdmRequesterIo}.

(** The [do ... while (Retry-- != 0)] loop of [SpdmChallenge]: [Retry] is
    the counter before the test, [Attempt] counts the calls made so far,
    [Nonce Attempt] are the random bytes the call draws, [Trace] what the
    earlier calls did.  The context is handed from one call to the next. *)
Fixpoint SpdmChallengeLoop (Retry Attempt : nat) (SpdmContext : SPDM_DEVICE_CONTEXT)
  (SlotNum MeasurementHashType : Z) (Nonce : nat -> list byte)
  (Trace : list SPDM_EVENT) : CHALLENGE_RESULT :=
  let Attempted :=
    TrySpdmChallenge SpdmContext SlotNum MeasurementHashType (Nonce Attempt) in
  let Result :=
    {| ResultStatus := ResultStatus Attempted;
       ResultMeasurementHash := ResultMeasurementHash Attempted;
       ResultContext := ResultContext Attempted;
       ResultTrace := Trace ++ ResultTrace Attempted |} in
  if decide (RETURN_NO_RESPONSE <> ResultStatus Attempted) then Result
  else
    match Retry with
    | O => Result
    | S Remaining =>
        SpdmChallengeLoop Remaining (S Attempt) (ResultContext Attempted)
          SlotNum MeasurementHashType Nonce (ResultTrace Result)
    end.

(** [SpdmChallenge]: [Retry = SpdmContext->RetryTimes]. *)
Definition SpdmChallenge (SpdmContext : SPDM_DEVICE_CONTEXT)
  (SlotNum MeasurementHashType : Z) (Nonce : nat -> list byte) : CHALLENGE_RESULT :=
  SpdmChallengeLoop (Z.to_nat (RetryTimes SpdmContext)) 0 SpdmContext
    SlotNum MeasurementHashType Nonce [].

End RequesterRetry.

(* ================================================================== *)
(** * Further stand-ins for the examples *)
(* ================================================================== *)

#[global] Instance ToyCryptSession : SpdmCryptLibSession := {
  SpdmVerifyCertificateChainData := fun _ Chain =>
    bool_decide (sizeof_SPDM_CERT_CHAIN + 4 <= length Chain)%nat;
  SpdmHmacAllWithRequestFinishedKey := fun _ Data => ToyDigest (x72 :: Data)
}.

(** A peer that is never ready: every request is answered with an ERROR
    and the error handler hands back [RETURN_NO_RESPONSE]. *)
Definition BusyPeerIo : SpdmRequesterIo := {|
  SpdmSendSpdmRequest := fun _ _ => RETURN_SUCCESS;
  SpdmReceiveSpdmResponse := fun _ _ =>
    (RETURN_SUCCESS, MessageHeader SPDM_MESSAGE_VERSION_10 SPDM_ERROR 0x03 0);
  SpdmHandleErrorResponseMain := fun c Response => (RETURN_NO_RESPONSE, c, Response);
  SpdmEncapsulatedRequest := fun c => (RETURN_SUCCESS, c)
|}.

(** ** Further example contexts *)

(** The two ends of a handshake after the certificate dialogue in both
    directions: the responder uses [ExampleCertChain] and holds
    [ExampleRequesterCertChain] for its peer, the requester the other way
    round.  Ledger A and the session are those of [NegotiatedContext]. *)
Definition ExampleRequesterCertChain : list byte :=
  [x00; x00; x00; x00; xe0; xe1; xe2; xe3; xca; xfe].

Definition HandshakeResponder : SPDM_DEVICE_CONTEXT :=
  set_ConnectionInfo
    (fun i =>
       {| ConnectionState := ConnectionState i; Version := Version i;
          Capability := Capability i; Algorithm := Algorithm i;
          PeerCertChainBuffer := ExampleRequesterCertChain;
          LocalUsedCertChainBuffer := ExampleCertChain |})
    NegotiatedContext.

Definition HandshakeRequester : SPDM_DEVICE_CONTEXT :=
  set_ConnectionInfo
    (fun i =>
       {| ConnectionState := ConnectionState i; Version := Version i;
          Capability := Capability i; Algorithm := Algorithm i;
          PeerCertChainBuffer := ExampleCertChain;
          LocalUsedCertChainBuffer := ExampleRequesterCertChain |})
    NegotiatedContext.

(** A context provisioned with two certificate slots. *)
Definition TwoSlotContext : SPDM_DEVICE_CONTEXT :=
  snd (SpdmSetData FreshContext SpdmDataSlotCount
         {| Location := SpdmDataLocationLocal; AdditionalData := [] |} [x02]).


(** The CHALLENGE_AUTH of the encapsulated handler on the same context,
    for slot 0 with the summary hash of all measurements. *)
Definition ExampleEncapChallengeAuth : list byte :=
  match fst (SpdmGetEncapResponseChallengeAuth ResponderContext
               (ChallengeRequest 0 SPDM_CHALLENGE_REQUEST_ALL_MEASUREMENTS_HASH)
               (replicate SPDM_NONCE_SIZE x22) (replicate 16 x00)) with
  | SpdmResponseMessage Message => Message
  | SpdmErrorResponse _ _ => []
  end.

(* ================================================================== *)
(** * Further predicates used in the statements *)
(* ================================================================== *)

(** No two slots hold the same session id, the free slots apart. *)
Definition UniqueSessionIds (Slots : list SPDM_SESSION_INFO) : Prop :=
  forall i j si sj,
    Slots !! i = Some si -> Slots !! j = Some sj ->
    SessionId si = SessionId sj -> SessionId si <> INVALID_SESSION_ID -> i = j.

(** Everything of a context but its session array and [LatestSessionId]. *)
Definition SameOutsideRegistry (Old New : SPDM_DEVICE_CONTEXT) : Prop :=
  ContextVersion New = ContextVersion Old /\
  ErrorState New = ErrorState Old /\
  EncapContext New = EncapContext Old /\
  LocalContext New = LocalContext Old /\
  ConnectionInfo New = ConnectionInfo Old /\
  Transcript New = Transcript Old /\
  SpdmCmdReceiveState New = SpdmCmdReceiveState Old /\
  ResponseState New = ResponseState Old /\
  CurrentToken New = CurrentToken Old /\
  RetryTimes New = RetryTimes Old.

(** Assigning the ids of a list one after the other: the slots taken, in
    order, and the context left. *)
Fixpoint AssignAll `{Config : SpdmLibConfig} (SpdmContext : SPDM_DEVICE_CONTEXT)
  (Ids : list Z) (Psk : bool) : list (option nat) * SPDM_DEVICE_CONTEXT :=
  match Ids with
  | [] => ([], SpdmContext)
  | Id :: Rest =>
      let '(Slot, SpdmContext') := SpdmAssignSessionId SpdmContext Id Psk in
      let '(Slots, Final) := AssignAll SpdmContext' Rest Psk in
      (Slot :: Slots, Final)
  end.

(** The bounds [SpdmSetData] enforces on what a caller provisions. *)
Definition LocalProvisionInBounds `{Config : SpdmLibConfig}
  (SpdmContext : SPDM_DEVICE_CONTEXT) : Prop :=
  0 <= SlotCount (LocalContext SpdmContext) <= MAX_SPDM_SLOT_COUNT /\
  Z.of_nat (length (PskHint (LocalContext SpdmContext))) <= MAX_SPDM_PSK_HINT_LENGTH /\
  length (CertificateChain (LocalContext SpdmContext)) = Z.to_nat MAX_SPDM_SLOT_COUNT.

(** [Parameter] of a certificate-chain data item: the slot is the first
    byte of [AdditionalData]. *)
Definition SlotParameter (SlotNum : Z) : SPDM_DATA_PARAMETER :=
  {| Location := SpdmDataLocationLocal; AdditionalData := [Z_to_byte SlotNum] |}.

(** What the two ends of a handshake must share for their transcript
    hashes to agree: the negotiated hash, ledger A, the session ledgers K
    and F, the session keys, whether mutual authentication was requested,
    and the certificates: the chain the requester holds for its peer is
    the one the responder uses, and with mutual authentication the chain
    the responder holds for its peer is the one the requester uses. *)
(** Every certificate chain the handshake code takes the X.509 part of
    holds its header: the chain in use, if there is one, and the peer
    chain, if there is one. *)
Definition ChainsHoldHeader `{Crypt : SpdmCryptLib} (SpdmContext : SPDM_DEVICE_CONTEXT)
  : Prop :=
  (LocalUsedCertChainBuffer (ConnectionInfo SpdmContext) <> [] ->
   ChainHoldsHeader SpdmContext (LocalUsedCertChainBuffer (ConnectionInfo SpdmContext))) /\
  PeerChainHoldsHeader SpdmContext.

Definition SameHandshakeView `{Crypt : SpdmCryptLib}
  (Requester Responder : SPDM_DEVICE_CONTEXT)
  (RequesterSession ResponderSession : SPDM_SESSION_INFO) : Prop :=
  NegotiatedHashAlgo Requester = NegotiatedHashAlgo Responder /\
  Buffer (MessageA (Transcript Requester)) = Buffer (MessageA (Transcript Responder)) /\
  Buffer (MessageK (SessionTranscript RequesterSession))
  = Buffer (MessageK (SessionTranscript ResponderSession)) /\
  Buffer (MessageF (SessionTranscript RequesterSession))
  = Buffer (MessageF (SessionTranscript ResponderSession)) /\
  SecuredMessageContext RequesterSession = SecuredMessageContext ResponderSession /\
  SessionMutAuthRequested RequesterSession
  = SessionMutAuthRequested ResponderSession /\
  PeerCert Requester = LocalUsedCert Responder /\
  (SessionMutAuthRequested RequesterSession <> 0 ->
   LocalUsedCert Requester = PeerCert Responder).

(** ** The requester's CHALLENGE *)

(** What [TrySpdmChallenge] asks of the context and of its slot argument
    before it sends anything: the algorithms, capabilities and digests were
    received, the responder has CHAL_CAP, the slot is one of the
    [MAX_SPDM_SLOT_COUNT] slots or 0xFF, and for 0xFF a peer chain is
    provisioned. *)
Definition ChallengeAllowed `{Config : SpdmLibConfig}
  (SpdmContext : SPDM_DEVICE_CONTEXT) (SlotNum : Z) : Prop :=
  Z.land (SpdmCmdReceiveState SpdmContext) SPDM_NEGOTIATE_ALGORITHMS_RECEIVE_FLAG <> 0 /\
  Z.land (SpdmCmdReceiveState SpdmContext) SPDM_GET_CAPABILITIES_RECEIVE_FLAG <> 0 /\
  Z.land (SpdmCmdReceiveState SpdmContext) SPDM_GET_DIGESTS_RECEIVE_FLAG <> 0 /\
  Z.land (Flags (Capability (ConnectionInfo SpdmContext)))
         SPDM_GET_CAPABILITIES_RESPONSE_FLAGS_CHAL_CAP <> 0 /\
  (SlotNum < MAX_SPDM_SLOT_COUNT \/ SlotNum = 0xFF) /\
  (SlotNum = 0xFF -> PeerCertChainProvision (LocalContext SpdmContext) <> []).

Definition IsSendRequest (Event : SPDM_EVENT) : bool :=
  match Event with
  | EventSendRequest _ => true
  | _ => false
  end.

(** The number of requests sent in a trace. *)
Definition SentRequests (Trace : list SPDM_EVENT) : nat :=
  length (List.filter IsSendRequest Trace).

(** The error handler ran in a trace. *)
Definition HandlerRan (Trace : list SPDM_EVENT) : Prop :=
  exists Response, In (EventHandleErrorResponse Response) Trace.

(** [Signature] verifies over the digest of [Data] under the responder key
    of the leaf certificate of the peer chain of the connection. *)
Definition ResponderSigned `{Crypt : SpdmCryptLib} (SpdmContext : SPDM_DEVICE_CONTEXT)
  (Data Signature : list byte) : Prop :=
  exists Chain Cert Key,
    PeerCertChain SpdmContext = Some Chain /\
    X509GetCertFromCertChain (X509Part SpdmContext Chain) (-1) = Some Cert /\
    SpdmAsymGetPublicKeyFromX509
      (BaseAsymAlgo (Algorithm (ConnectionInfo SpdmContext))) Cert = Some Key /\
    SpdmAsymVerify (BaseAsymAlgo (Algorithm (ConnectionInfo SpdmContext))) Key
      (SpdmHashAll (NegotiatedHashAlgo SpdmContext) Data) Signature = true.

(** The parts of a CHALLENGE_AUTH response of [SpdmResponseSize] bytes as
    [TrySpdmChallenge] reads them: the lengths come from the negotiated
    algorithms and from the opaque length field. *)
Section ChallengeAuthLayout.
Context `{Crypt : SpdmCryptLib}.
Variable SpdmContext : SPDM_DEVICE_CONTEXT.
Variable Response : list byte.

Definition AuthOpaqueLength : nat :=
  Z.to_nat
    (ReadUnaligned 2
       (sizeof_SPDM_MESSAGE_HEADER + ContextHashSize SpdmContext + SPDM_NONCE_SIZE
        + ContextHashSize SpdmContext) Response).

Definition AuthSignedSize : nat :=
  sizeof_SPDM_CHALLENGE_AUTH_RESPONSE + ContextHashSize SpdmContext + SPDM_NONCE_SIZE
  + ContextHashSize SpdmContext + 2 + AuthOpaqueLength.

Definition AuthCertChainHash : list byte :=
  take (ContextHashSize SpdmContext) (drop sizeof_SPDM_MESSAGE_HEADER Response).

Definition AuthMeasurementSummaryHash : list byte :=
  take (ContextHashSize SpdmContext)
    (drop (sizeof_SPDM_MESSAGE_HEADER + ContextHashSize SpdmContext + SPDM_NONCE_SIZE)
          Response).

Definition AuthSignature : list byte :=
  take (ContextAsymSize SpdmContext) (drop AuthSignedSize Response).

End ChallengeAuthLayout.

(** ** Measurement blocks *)

(** [DMTFSpecMeasurementValueType] of a block: the byte behind the 4-byte
    common header. *)
Definition BlockValueType (Block : list byte) : Z :=
  byte_to_Z (nth sizeof_SPDM_MEASUREMENT_BLOCK_COMMON_HEADER Block x00).

(** A cached block of the responder: the DMTF header and a digest of the
    measurement hash size. *)
Definition IsCachedBlock (HashSize : nat) (Block : list byte) : Prop :=
  length Block = (sizeof_SPDM_MEASUREMENT_BLOCK_DMTF + HashSize)%nat.

(** A collected block: [MeasurementSize], the 16-bit field at offset 2, is
    the number of bytes behind the common header, which hold at least the
    DMTF header. *)
Definition IsCollectedBlock (Block : list byte) : Prop :=
  (sizeof_SPDM_MEASUREMENT_BLOCK_COMMON_HEADER + 1 <= length Block)%nat /\
  length Block
  = (sizeof_SPDM_MEASUREMENT_BLOCK_COMMON_HEADER
     + Z.to_nat (ReadUnaligned 2 2 Block))%nat.


(* ================================================================== *)
(** * Properties *)
(* ================================================================== *)


(** ** Bytes and machine integers *)

Lemma byte_to_Z_range (b : byte) : 0 <= byte_to_Z b < 256.
Proof.
  unfold byte_to_Z. pose proof (Byte.to_N_bounded b) as Hb. lia.
Qed.

(** ** The slot loop *)

Section SessionLoopFacts.
Variable Test : SPDM_SESSION_INFO -> bool.

Lemma SessionLoop_first (Slots : list SPDM_SESSION_INFO) :
  forall (Index i : nat) (s : SPDM_SESSION_INFO),
    Slots !! i = Some s ->
    Test s = true ->
    (forall j s', (j < i)%nat -> Slots !! j = Some s' -> Test s' = false) ->
    SessionLoop Test Slots Index = Some (Index + i)%nat.
Proof.
  induction Slots as [|Slot Rest IH]; intros Index i s Hi Hs Hbefore.
  - discriminate.
  - destruct i as [|i]; simpl in *.
    + injection Hi as ->. rewrite Hs. f_equal. lia.
    + rewrite (Hbefore 0%nat Slot) by (reflexivity || lia).
      rewrite (IH (S Index) i s Hi Hs).
      * f_equal. lia.
      * intros j s' Hj Hlk. apply (Hbefore (S j) s'); [lia | exact Hlk].
Qed.

Lemma SessionLoop_none (Slots : list SPDM_SESSION_INFO) :
  forall Index : nat,
    (forall s, s ∈ Slots -> Test s = false) ->
    SessionLoop Test Slots Index = None.
Proof.
  induction Slots as [|Slot Rest IH]; intros Index Hall; simpl.
  - reflexivity.
  - rewrite (Hall Slot) by apply list_elem_of_here.
    apply IH. intros s Hs. apply Hall. by apply list_elem_of_further.
Qed.

Lemma SessionLoop_Some_inv (Slots : list SPDM_SESSION_INFO) :
  forall Index r : nat,
    SessionLoop Test Slots Index = Some r ->
    exists i s, r = (Index + i)%nat /\ Slots !! i = Some s /\ Test s = true /\
      forall j s', (j < i)%nat -> Slots !! j = Some s' -> Test s' = false.
Proof.
  induction Slots as [|Slot Rest IH]; intros Index r Hr; simpl in Hr.
  - discriminate.
  - destruct (Test Slot) eqn:HT.
    + injection Hr as <-. exists 0%nat, Slot. repeat split; [lia | done |].
      intros j s' Hj. lia.
    + destruct (IH _ _ Hr) as (i & s & -> & Hi & Hs & Hbefore).
      exists (S i), s. repeat split; [lia | done | done |].
      intros [|j] s' Hj Hlk; simpl in Hlk.
      * by injection Hlk as <-.
      * apply (Hbefore j s'); [lia | done].
Qed.

Lemma SessionLoop_None_inv (Slots : list SPDM_SESSION_INFO) :
  forall Index : nat,
    SessionLoop Test Slots Index = None ->
    forall s, s ∈ Slots -> Test s = false.
Proof.
  induction Slots as [|Slot Rest IH]; intros Index Hr s Hs; simpl in Hr.
  - by apply elem_of_nil in Hs.
  - destruct (Test Slot) eqn:HT; [discriminate|].
    apply elem_of_cons in Hs as [-> | Hs]; [done | by eapply IH].
Qed.

End SessionLoopFacts.

(** ** Half-id allocators *)

Lemma half_id_of_index (Index : nat) :
  Z.of_nat Index < 0xFFFF ->
  UINT16 (0xFFFF - Z.of_nat Index) = 0xFFFF - Z.of_nat Index /\
  UINT16 (0xFFFF - Z.of_nat Index) <> 0.
Proof.
  intros Hlt. unfold UINT16.
  rewrite Z.mod_small by lia. lia.
Qed.

Lemma SessionLoop_FirstFreeSlot (Test : SPDM_SESSION_INFO -> bool)
  (Free : SPDM_SESSION_INFO -> Prop) (Slots : list SPDM_SESSION_INFO) (Index : nat) :
  (forall s, Test s = true <-> Free s) ->
  FirstFreeSlot Free Slots Index ->
  SessionLoop Test Slots 0 = Some Index.
Proof.
  intros HT [(s & Hs & Hfree) Hbefore].
  apply (SessionLoop_first Test Slots 0 Index s Hs).
  - by apply HT.
  - intros j s' Hj Hlk. destruct (Test s') eqn:E; [|done].
    exfalso. apply (Hbefore j s' Hj Hlk). by apply HT.
Qed.

Lemma SessionLoop_NoFreeSlot (Test : SPDM_SESSION_INFO -> bool)
  (Free : SPDM_SESSION_INFO -> Prop) (Slots : list SPDM_SESSION_INFO) :
  (forall s, Test s = true <-> Free s) ->
  NoFreeSlot Free Slots ->
  SessionLoop Test Slots 0 = None.
Proof.
  intros HT Hnone. apply SessionLoop_none. intros s Hs.
  destruct (Test s) eqn:E; [|done].
  exfalso. apply (Hnone s Hs). by apply HT.
Qed.

(** C3, as found in the code.  When the requester (responder) half of some
    slot is free, [SpdmAllocateReqSessionId] ([SpdmAllocateRspSessionId])
    returns [0xFFFF] minus the index of the first such slot, which is not
    zero; when no slot is free the allocator returns the sentinel half-id
    [0]: that return value is its failure indication. *)
Theorem allocate_half_session_id (SpdmContext : SPDM_DEVICE_CONTEXT) :
  Z.of_nat (length (SessionInfo SpdmContext)) <= 0xFFFF ->
  (forall Index,
     FirstFreeSlot ReqHalfFree (SessionInfo SpdmContext) Index ->
     SpdmAllocateReqSessionId SpdmContext = 0xFFFF - Z.of_nat Index /\
     SpdmAllocateReqSessionId SpdmContext <> 0) /\
  (NoFreeSlot ReqHalfFree (SessionInfo SpdmContext) ->
   SpdmAllocateReqSessionId SpdmContext = 0) /\
  (forall Index,
     FirstFreeSlot RspHalfFree (SessionInfo SpdmContext) Index ->
     SpdmAllocateRspSessionId SpdmContext = 0xFFFF - Z.of_nat Index /\
     SpdmAllocateRspSessionId SpdmContext <> 0) /\
  (NoFreeSlot RspHalfFree (SessionInfo SpdmContext) ->
   SpdmAllocateRspSessionId SpdmContext = 0).
Proof.
  intros Hlen.
  assert (Hreq : forall s,
    bool_decide (Z.land (SessionId s) 0xFFFF0000
                 = Z.land INVALID_SESSION_ID 0xFFFF0000) = true <-> ReqHalfFree s).
  { intros s. rewrite bool_decide_eq_true. reflexivity. }
  assert (Hrsp : forall s,
    bool_decide (Z.land (SessionId s) 0xFFFF
                 = Z.land INVALID_SESSION_ID 0xFFFF) = true <-> RspHalfFree s).
  { intros s. rewrite bool_decide_eq_true. reflexivity. }
  assert (Hidx : forall Free Index,
    FirstFreeSlot Free (SessionInfo SpdmContext) Index -> Z.of_nat Index < 0xFFFF).
  { intros Free Index [(s & Hs & _) _]. apply lookup_lt_Some in Hs. lia. }
  repeat split.
  - unfold SpdmAllocateReqSessionId.
    rewrite (SessionLoop_FirstFreeSlot _ _ _ _ Hreq H).
    apply half_id_of_index. by eapply Hidx.
  - unfold SpdmAllocateReqSessionId.
    rewrite (SessionLoop_FirstFreeSlot _ _ _ _ Hreq H).
    apply half_id_of_index. by eapply Hidx.
  - intros Hnone. unfold SpdmAllocateReqSessionId.
    by rewrite (SessionLoop_NoFreeSlot _ _ _ Hreq Hnone).
  - unfold SpdmAllocateRspSessionId.
    rewrite (SessionLoop_FirstFreeSlot _ _ _ _ Hrsp H).
    apply half_id_of_index. by eapply Hidx.
  - unfold SpdmAllocateRspSessionId.
    rewrite (SessionLoop_FirstFreeSlot _ _ _ _ Hrsp H).
    apply half_id_of_index. by eapply Hidx.
  - intros Hnone. unfold SpdmAllocateRspSessionId.
    by rewrite (SessionLoop_NoFreeSlot _ _ _ Hrsp Hnone).
Qed.

(** The fresh context: slot 0 is free, both allocators return [0xFFFF]. *)
Lemma allocate_half_session_id_witness :
  Z.of_nat (length (SessionInfo FreshContext)) <= 0xFFFF /\
  FirstFreeSlot ReqHalfFree (SessionInfo FreshContext) 0 /\
  SpdmAllocateReqSessionId FreshContext = 0xFFFF /\
  SpdmAllocateReqSessionId FreshContext <> 0.
Proof.
  assert (Hlen : Z.of_nat (length (SessionInfo FreshContext)) <= 0xFFFF).
  { vm_compute. discriminate. }
  assert (Hfirst : FirstFreeSlot ReqHalfFree (SessionInfo FreshContext) 0).
  { split.
    - exists ZeroSessionInfo. split; reflexivity.
    - intros j s' Hj. lia. }
  split; [exact Hlen|]. split; [exact Hfirst|].
  exact (proj1 (allocate_half_session_id FreshContext Hlen) 0%nat Hfirst).
Defined.

(** C3, as stated, fails: with every slot taken both allocators return the
    sentinel [0]. *)
Lemma allocate_half_session_id_returns_sentinel :
  NoFreeSlot ReqHalfFree (SessionInfo FullRegistryContext) /\
  SpdmAllocateReqSessionId FullRegistryContext = 0 /\
  SpdmAllocateRspSessionId FullRegistryContext = 0.
Proof.
  split; [|split; reflexivity].
  intros s Hs. unfold ReqHalfFree.
  vm_compute in Hs.
  repeat (apply elem_of_cons in Hs as [-> | Hs]; [vm_compute; discriminate|]).
  by apply elem_of_nil in Hs.
Qed.

(** ** Assign, free, assign again *)

Lemma SessionId_SpdmSessionInfoInit `{Config : SpdmLibConfig}
  (SpdmContext : SPDM_DEVICE_CONTEXT) (Id : Z) (Psk : bool) :
  SessionId (SpdmSessionInfoInit SpdmContext Id Psk) = Id.
Proof. reflexivity. Qed.

(** The slot found by an id search after the slot [Index] was overwritten
    with a session of that id, all earlier slots holding other ids. *)
Lemma SessionLoop_after_insert (Id : Z) (Slots : list SPDM_SESSION_INFO)
  (Index : nat) (New : SPDM_SESSION_INFO) :
  (Index < length Slots)%nat ->
  SessionId New = Id ->
  (forall j s', (j < Index)%nat -> Slots !! j = Some s' -> SessionId s' <> Id) ->
  SessionLoop (IdTest Id) (<[Index := New]> Slots) 0 = Some Index.
Proof.
  intros Hlt HNew Hbefore.
  apply (SessionLoop_first (IdTest Id) _ 0 Index New).
  - by apply list_lookup_insert_eq.
  - unfold IdTest. by apply bool_decide_eq_true.
  - intros j s' Hj Hlk.
    rewrite list_lookup_insert_ne in Hlk by lia.
    unfold IdTest. apply bool_decide_eq_false. by eapply Hbefore.
Qed.

(** C7.  For a non-zero id that the registry does not hold, and a registry
    with a free slot: assign succeeds; a second assign of the same id fails
    and changes nothing; free returns the slot to the free state; assign of
    the same id then succeeds again, in the same slot. *)
Theorem assign_free_assign_round_trip `{Config : SpdmLibConfig}
  (SpdmContext : SPDM_DEVICE_CONTEXT) (Id : Z) (Psk Psk' : bool) :
  Id <> INVALID_SESSION_ID ->
  (forall s, s ∈ SessionInfo SpdmContext -> SessionId s <> Id) ->
  (exists s, s ∈ SessionInfo SpdmContext /\ SessionId s = INVALID_SESSION_ID) ->
  exists (Index : nat) (c1 c2 c3 : SPDM_DEVICE_CONTEXT),
    SpdmAssignSessionId SpdmContext Id Psk = (Some Index, c1) /\
    SessionInfo c1 !! Index = Some (SpdmSessionInfoInit SpdmContext Id Psk) /\
    SpdmGetSessionInfoViaSessionId c1 Id = Some Index /\
    SpdmAssignSessionId c1 Id Psk = (None, c1) /\
    SpdmFreeSessionId c1 Id = (Some Index, c2) /\
    SessionInfo c2 !! Index
      = Some (SpdmSessionInfoInit c1 INVALID_SESSION_ID false) /\
    SpdmGetSessionInfoViaSessionId c2 Id = None /\
    SpdmAssignSessionId c2 Id Psk' = (Some Index, c3) /\
    SessionInfo c3 !! Index = Some (SpdmSessionInfoInit c2 Id Psk').
Proof.
  intros HId Hfresh (s0 & Hs0 & Hfree0).
  set (Slots := SessionInfo SpdmContext) in *.
  (* the id search fails on the original registry *)
  assert (Hnone : SessionLoop (IdTest Id) Slots 0 = None).
  { apply SessionLoop_none. intros s Hs. unfold IdTest.
    apply bool_decide_eq_false. by apply Hfresh. }
  (* the free-slot search finds a first free slot *)
  destruct (SessionLoop (IdTest INVALID_SESSION_ID) Slots 0) as [Index|] eqn:Hfree.
  2:{ exfalso.
      pose proof (SessionLoop_None_inv _ _ _ Hfree s0 Hs0) as HF.
      unfold IdTest in HF. apply bool_decide_eq_false in HF. done. }
  destruct (SessionLoop_Some_inv _ _ _ _ Hfree)
    as (i & sf & Heq & Hlk & Hsf & Hbefore).
  simpl in Heq. subst i.
  assert (Hlt : (Index < length Slots)%nat) by (by eapply lookup_lt_Some).
  assert (Hother : forall j s', (j < Index)%nat -> Slots !! j = Some s' ->
                                SessionId s' <> Id).
  { intros j s' _ Hj. apply Hfresh. eapply list_elem_of_lookup_2, Hj. }
  assert (Hused : forall j s', (j < Index)%nat -> Slots !! j = Some s' ->
                               SessionId s' <> INVALID_SESSION_ID).
  { intros j s' Hj Hlkj. pose proof (Hbefore j s' Hj Hlkj) as HF.
    unfold IdTest in HF. by apply bool_decide_eq_false in HF. }
  set (New := SpdmSessionInfoInit SpdmContext Id Psk).
  set (Slots1 := <[Index := New]> Slots).
  set (c1 := set_LatestSessionId Id (set_SessionInfo Slots1 SpdmContext)).
  assert (Hfind1 : SessionLoop (IdTest Id) Slots1 0 = Some Index).
  { by apply SessionLoop_after_insert. }
  set (Freed := SpdmSessionInfoInit c1 INVALID_SESSION_ID false).
  set (Slots2 := <[Index := Freed]> Slots1).
  set (c2 := set_SessionInfo Slots2 c1).
  assert (Hlt1 : (Index < length Slots1)%nat).
  { unfold Slots1. by rewrite length_insert. }
  assert (Hnone2 : SessionLoop (IdTest Id) Slots2 0 = None).
  { apply SessionLoop_none. intros s Hs. unfold IdTest.
    apply bool_decide_eq_false.
    apply list_elem_of_lookup_1 in Hs as [j Hj].
    destruct (decide (j = Index)) as [->|Hne].
    - unfold Slots2 in Hj. rewrite list_lookup_insert_eq in Hj by done.
      injection Hj as <-. simpl. congruence.
    - unfold Slots2, Slots1 in Hj.
      rewrite !list_lookup_insert_ne in Hj by done.
      apply Hfresh. eapply list_elem_of_lookup_2, Hj. }
  assert (Hfree2 : SessionLoop (IdTest INVALID_SESSION_ID) Slots2 0 = Some Index).
  { apply SessionLoop_after_insert; [done | reflexivity |].
    intros j s' Hj Hlkj. unfold Slots1 in Hlkj.
    rewrite list_lookup_insert_ne in Hlkj by lia. by eapply Hused. }
  set (c3 := set_LatestSessionId Id
               (set_SessionInfo
                  (<[Index := SpdmSessionInfoInit c2 Id Psk']> Slots2) c2)).
  exists Index, c1, c2, c3.
  repeat split.
  - unfold SpdmAssignSessionId. rewrite decide_False by done.
    fold Slots. fold (IdTest Id). rewrite Hnone.
    fold (IdTest INVALID_SESSION_ID). by rewrite Hfree.
  - simpl. by apply list_lookup_insert_eq.
  - unfold SpdmGetSessionInfoViaSessionId. rewrite decide_False by done.
    fold (IdTest Id). exact Hfind1.
  - unfold SpdmAssignSessionId. rewrite decide_False by done.
    fold (IdTest Id). simpl. by rewrite Hfind1.
  - unfold SpdmFreeSessionId. rewrite decide_False by done.
    fold (IdTest Id). simpl. by rewrite Hfind1.
  - simpl. by apply list_lookup_insert_eq.
  - unfold SpdmGetSessionInfoViaSessionId. rewrite decide_False by done.
    fold (IdTest Id). exact Hnone2.
  - unfold SpdmAssignSessionId. rewrite decide_False by done.
    fold (IdTest Id). simpl. rewrite Hnone2.
    fold (IdTest INVALID_SESSION_ID). by rewrite Hfree2.
  - simpl. apply list_lookup_insert_eq.
    unfold Slots2. by rewrite length_insert.
Qed.

(** The scenario of the spec: id [0x1234FFFF] on a fresh registry. *)
Lemma assign_free_assign_round_trip_witness :
  exists (Index : nat) (c1 c2 c3 : SPDM_DEVICE_CONTEXT),
    SpdmAssignSessionId FreshContext 0x1234FFFF false = (Some Index, c1) /\
    SessionInfo c1 !! Index
      = Some (SpdmSessionInfoInit FreshContext 0x1234FFFF false) /\
    SpdmGetSessionInfoViaSessionId c1 0x1234FFFF = Some Index /\
    SpdmAssignSessionId c1 0x1234FFFF false = (None, c1) /\
    SpdmFreeSessionId c1 0x1234FFFF = (Some Index, c2) /\
    SessionInfo c2 !! Index
      = Some (SpdmSessionInfoInit c1 INVALID_SESSION_ID false) /\
    SpdmGetSessionInfoViaSessionId c2 0x1234FFFF = None /\
    SpdmAssignSessionId c2 0x1234FFFF true = (Some Index, c3) /\
    SessionInfo c3 !! Index = Some (SpdmSessionInfoInit c2 0x1234FFFF true).
Proof.
  apply (assign_free_assign_round_trip FreshContext 0x1234FFFF false true).
  - discriminate.
  - intros s Hs. vm_compute in Hs.
    repeat (apply elem_of_cons in Hs as [-> | Hs]; [vm_compute; discriminate|]).
    by apply elem_of_nil in Hs.
  - exists ZeroSessionInfo. split; [|reflexivity].
    apply (list_elem_of_lookup_2 _ 0%nat). reflexivity.
Defined.

(** ** Setting algorithm data touches the local algorithm table only *)

Lemma SpdmGetData_algorithm `{Config : SpdmLibConfig}
  (SpdmContext : SPDM_DEVICE_CONTEXT) (DataType : SPDM_DATA_TYPE)
  (Param : SPDM_DATA_PARAMETER) (DataSize : nat) :
  IsAlgorithmDataType DataType = true ->
  Location Param = SpdmDataLocationConnection ->
  SpdmGetData SpdmContext DataType Param DataSize =
    if decide (DataSize < AlgorithmFieldSize DataType)%nat
    then (RETURN_BUFFER_TOO_SMALL, AlgorithmFieldSize DataType, [])
    else (RETURN_SUCCESS, AlgorithmFieldSize DataType,
          WriteLE (AlgorithmFieldSize DataType)
            (AlgorithmField DataType (Algorithm (ConnectionInfo SpdmContext)))).
Proof.
  intros Htag Hloc.
  destruct DataType; try discriminate Htag;
    unfold SpdmGetData; simpl;
    (rewrite decide_False by (intros Hne; by apply Hne)); reflexivity.
Qed.

(** C9.  A successful [SpdmSetData] with an algorithm tag rewrites the
    local algorithm table and nothing else: the field the tag names takes
    the value of the data, the other algorithm fields keep theirs, and the
    connection state (its algorithm table included) is the one before the
    call.  [SpdmGetData] of an algorithm tag with [Location = Connection]
    returns the field of the connection algorithm table, so it reads the
    same bytes before and after the set. *)
Theorem set_algorithm_constrains_local_only `{Config : SpdmLibConfig}
  (SpdmContext SpdmContext' : SPDM_DEVICE_CONTEXT) (DataType : SPDM_DATA_TYPE)
  (Param : SPDM_DATA_PARAMETER) (Data : list byte) :
  IsAlgorithmDataType DataType = true ->
  SpdmSetData SpdmContext DataType Param Data = (RETURN_SUCCESS, SpdmContext') ->
  (exists a', SpdmContext'
              = set_LocalContext (set_LocalAlgorithm (fun _ => a')) SpdmContext) /\
  length Data = AlgorithmFieldSize DataType /\
  AlgorithmField DataType (LocalAlgorithm (LocalContext SpdmContext')) = ReadLE Data /\
  (forall Other, IsAlgorithmDataType Other = true -> Other <> DataType ->
     AlgorithmField Other (LocalAlgorithm (LocalContext SpdmContext'))
     = AlgorithmField Other (LocalAlgorithm (LocalContext SpdmContext))) /\
  MeasurementSpec (LocalAlgorithm (LocalContext SpdmContext'))
  = MeasurementSpec (LocalAlgorithm (LocalContext SpdmContext)) /\
  ConnectionInfo SpdmContext' = ConnectionInfo SpdmContext /\
  forall (Tag : SPDM_DATA_TYPE) (DataSize : nat),
    IsAlgorithmDataType Tag = true ->
    SpdmGetData SpdmContext' Tag (AtConnection Param) DataSize
    = SpdmGetData SpdmContext Tag (AtConnection Param) DataSize /\
    ((AlgorithmFieldSize Tag <= DataSize)%nat ->
     SpdmGetData SpdmContext' Tag (AtConnection Param) DataSize
     = (RETURN_SUCCESS, AlgorithmFieldSize Tag,
        WriteLE (AlgorithmFieldSize Tag)
          (AlgorithmField Tag (Algorithm (ConnectionInfo SpdmContext))))).
Proof.
  intros Htag Hset.
  assert (Hshape :
    exists a', SpdmContext'
               = set_LocalContext (set_LocalAlgorithm (fun _ => a')) SpdmContext /\
    length Data = AlgorithmFieldSize DataType /\
    AlgorithmField DataType a' = ReadLE Data /\
    (forall Other, IsAlgorithmDataType Other = true -> Other <> DataType ->
       AlgorithmField Other a'
       = AlgorithmField Other (LocalAlgorithm (LocalContext SpdmContext))) /\
    MeasurementSpec a' = MeasurementSpec (LocalAlgorithm (LocalContext SpdmContext))).
  { destruct DataType; try discriminate Htag;
      unfold SpdmSetData in Hset; simpl in Hset;
      (destruct (decide _) as [Hsize|Hsize] in Hset; [|discriminate Hset]);
      injection Hset as <-;
      eexists; (split; [reflexivity|]); (split; [exact Hsize|]);
      (split; [reflexivity|]); (split; [|reflexivity]);
      intros Other HOther Hne;
      destruct Other; try discriminate HOther; try reflexivity;
      exfalso; by apply Hne. }
  destruct Hshape as (a' & -> & Hsize & Hfield & Hothers & Hspec).
  split; [by exists a'|]. split; [exact Hsize|].
  split; [exact Hfield|]. split; [exact Hothers|].
  split; [exact Hspec|]. split; [reflexivity|].
  intros Tag DataSize HTag.
  rewrite !(SpdmGetData_algorithm _ Tag (AtConnection Param) DataSize HTag eq_refl).
  split; [reflexivity|].
  intros Hcap. simpl. by rewrite decide_False by lia.
Qed.

(** Setting the base hash algorithm of a fresh context to [1]. *)
Lemma set_algorithm_constrains_local_only_witness :
  exists SpdmContext',
    SpdmSetData FreshContext SpdmDataBaseHashAlgo
      {| Location := SpdmDataLocationLocal; AdditionalData := [] |}
      [x01; x00; x00; x00] = (RETURN_SUCCESS, SpdmContext') /\
    BaseHashAlgo (LocalAlgorithm (LocalContext SpdmContext')) = 1 /\
    ConnectionInfo SpdmContext' = ConnectionInfo FreshContext.
Proof.
  eexists. split; [reflexivity|].
  pose proof (set_algorithm_constrains_local_only FreshContext _
                SpdmDataBaseHashAlgo
                {| Location := SpdmDataLocationLocal; AdditionalData := [] |}
                [x01; x00; x00; x00] eq_refl eq_refl)
    as (_ & _ & Hfield & _ & _ & Hconn & _).
  split; [exact Hfield | exact Hconn].
Defined.

(** ** Managed buffers *)

Lemma AppendManagedBuffer_success (ManagedBuffer New : MANAGED_BUFFER)
  (Data : list byte) (Status : RETURN_STATUS) :
  AppendManagedBuffer ManagedBuffer Data = (Status, New) ->
  RETURN_ERROR Status = false ->
  Buffer New = Buffer ManagedBuffer ++ Data /\
  MaxBufferSize New = MaxBufferSize ManagedBuffer /\
  Z.of_nat (length (Buffer ManagedBuffer) + length Data)
    <= MaxBufferSize ManagedBuffer.
Proof.
  unfold AppendManagedBuffer, GetManagedBufferSize.
  destruct (decide _) as [Hover|Hfit]; intros [= <- <-] Herr.
  - discriminate Herr.
  - simpl. repeat split; lia.
Qed.

Lemma AppendManagedBuffer_fits (ManagedBuffer : MANAGED_BUFFER) (Data : list byte) :
  Z.of_nat (length (Buffer ManagedBuffer) + length Data)
    <= MaxBufferSize ManagedBuffer ->
  AppendManagedBuffer ManagedBuffer Data
  = (RETURN_SUCCESS,
     {| MaxBufferSize := MaxBufferSize ManagedBuffer;
        Buffer := Buffer ManagedBuffer ++ Data |}).
Proof.
  intros Hfit. unfold AppendManagedBuffer, GetManagedBufferSize.
  by rewrite decide_False by lia.
Qed.

Lemma AppendManagedBuffer_overflow (ManagedBuffer : MANAGED_BUFFER) (Data : list byte) :
  MaxBufferSize ManagedBuffer
    < Z.of_nat (length (Buffer ManagedBuffer) + length Data) ->
  AppendManagedBuffer ManagedBuffer Data = (RETURN_BUFFER_TOO_SMALL, ManagedBuffer).
Proof.
  intros Hover. unfold AppendManagedBuffer, GetManagedBufferSize.
  by rewrite decide_True by lia.
Qed.

(** ** The transcript hash of KEY_EXCHANGE and PSK_EXCHANGE *)

Section TranscriptHash.
Context `{Config : SpdmLibConfig} `{Crypt : SpdmCryptLib}.

Lemma SpdmCalculateTHCurrAK_fits (SpdmContext : SPDM_DEVICE_CONTEXT)
  (Session : SPDM_SESSION_INFO) (CertBuffer : option (list byte)) :
  let A := Buffer (MessageA (Transcript SpdmContext)) in
  let K := Buffer (MessageK (SessionTranscript Session)) in
  let Ct := CertTerm SpdmContext CertBuffer in
  Z.of_nat (length (A ++ Ct ++ K)) <= MAX_SPDM_MESSAGE_BUFFER_SIZE ->
  SpdmCalculateTHCurrAK SpdmContext Session CertBuffer
  = (true, {| MaxBufferSize := MAX_SPDM_MESSAGE_BUFFER_SIZE;
              Buffer := A ++ Ct ++ K |}).
Proof.
  intros A K Ct Hfit. rewrite !length_app in Hfit.
  unfold SpdmCalculateTHCurrAK, GetManagedBuffer.
  rewrite AppendManagedBuffer_fits by (simpl; fold A; lia). simpl.
  destruct CertBuffer as [Cert|]; simpl in Ct.
  - rewrite take_ge by (rewrite SpdmHashAll_size; lia).
    rewrite AppendManagedBuffer_fits by (simpl; fold A Ct; lia). simpl.
    rewrite AppendManagedBuffer_fits
      by (simpl; rewrite length_app; fold A Ct K; lia).
    simpl. by rewrite <- app_assoc.
  - simpl. rewrite AppendManagedBuffer_fits by (simpl; fold A K; subst Ct; simpl in *; lia).
    reflexivity.
Qed.

Lemma SpdmCalculateTHCurrAK_overflow (SpdmContext : SPDM_DEVICE_CONTEXT)
  (Session : SPDM_SESSION_INFO) (CertBuffer : option (list byte)) :
  let A := Buffer (MessageA (Transcript SpdmContext)) in
  let K := Buffer (MessageK (SessionTranscript Session)) in
  let Ct := CertTerm SpdmContext CertBuffer in
  MAX_SPDM_MESSAGE_BUFFER_SIZE < Z.of_nat (length (A ++ Ct ++ K)) ->
  fst (SpdmCalculateTHCurrAK SpdmContext Session CertBuffer) = false.
Proof.
  intros A K Ct Hover. rewrite !length_app in Hover.
  unfold SpdmCalculateTHCurrAK, GetManagedBuffer.
  destruct (AppendManagedBuffer (InitManagedBuffer _) _) as [St1 B1] eqn:E1.
  destruct (RETURN_ERROR St1) eqn:R1; [reflexivity|].
  destruct (AppendManagedBuffer_success _ _ _ _ E1 R1) as (HB1 & HM1 & _).
  simpl in HB1, HM1. fold A in HB1.
  destruct CertBuffer as [Cert|]; simpl in Ct.
  - rewrite take_ge by (rewrite SpdmHashAll_size; lia). fold Ct.
    destruct (AppendManagedBuffer B1 Ct) as [St2 B2] eqn:E2.
    destruct (RETURN_ERROR St2) eqn:R2; [reflexivity|].
    destruct (AppendManagedBuffer_success _ _ _ _ E2 R2) as (HB2 & HM2 & _).
    rewrite AppendManagedBuffer_overflow; [reflexivity|].
    rewrite HM2, HM1, HB2, HB1, length_app. fold K. lia.
  - rewrite AppendManagedBuffer_overflow; [reflexivity|].
    rewrite HM1, HB1. fold K. subst Ct. simpl in Hover. lia.
Qed.

(** C4.  [SpdmCalculateTHCurrAK] succeeds exactly when the concatenation
    fits the TH buffer, and then TH is A, the digest of the certificate and
    MessageK, in this order; without a certificate (the PSK case) the
    certificate contributes no byte at all and TH is A followed by
    MessageK.  [SpdmGenerateKeyExchangeRspSignature], on a certificate
    chain in use that holds its header, is the responder signature over
    the digest of the first, taken with the X.509 part of the chain, when
    this TH fits, and fails otherwise; [SpdmGeneratePskExchangeRspHmac] is
    the HMAC, cut to the hash size, over the second when it fits, and
    fails otherwise. *)
Theorem th_for_signing_ak (SpdmContext : SPDM_DEVICE_CONTEXT)
  (Session : SPDM_SESSION_INFO) :
  let A := Buffer (MessageA (Transcript SpdmContext)) in
  let K := Buffer (MessageK (SessionTranscript Session)) in
  let Hash := SpdmHashAll (NegotiatedHashAlgo SpdmContext) in
  let Used := LocalUsedCertChainBuffer (ConnectionInfo SpdmContext) in
  (forall Cert,
     (fst (SpdmCalculateTHCurrAK SpdmContext Session (Some Cert)) = true <->
      Z.of_nat (length (A ++ Hash Cert ++ K)) <= MAX_SPDM_MESSAGE_BUFFER_SIZE) /\
     (fst (SpdmCalculateTHCurrAK SpdmContext Session (Some Cert)) = true ->
      GetManagedBuffer (snd (SpdmCalculateTHCurrAK SpdmContext Session (Some Cert)))
      = A ++ Hash Cert ++ K)) /\
  (fst (SpdmCalculateTHCurrAK SpdmContext Session None) = true <->
   Z.of_nat (length (A ++ K)) <= MAX_SPDM_MESSAGE_BUFFER_SIZE) /\
  (fst (SpdmCalculateTHCurrAK SpdmContext Session None) = true ->
   GetManagedBuffer (snd (SpdmCalculateTHCurrAK SpdmContext Session None))
   = A ++ K) /\
  (ChainHoldsHeader SpdmContext Used ->
   SpdmGenerateKeyExchangeRspSignature SpdmContext Session
   = if decide (Z.of_nat (length (A ++ Hash (X509Part SpdmContext Used) ++ K))
                <= MAX_SPDM_MESSAGE_BUFFER_SIZE)
     then SpdmResponderDataSignFunc
            (BaseAsymAlgo (Algorithm (ConnectionInfo SpdmContext)))
            (Hash (A ++ Hash (X509Part SpdmContext Used) ++ K))
     else None) /\
  SpdmGeneratePskExchangeRspHmac SpdmContext Session
  = if decide (Z.of_nat (length (A ++ K)) <= MAX_SPDM_MESSAGE_BUFFER_SIZE)
    then Some (take (GetSpdmHashSize (NegotiatedHashAlgo SpdmContext))
                 (SpdmHmacAllWithResponseFinishedKey (SecuredMessageContext Session)
                    (A ++ K)))
    else None.
Proof.
  intros A K Hash Used.
  assert (Hcases : forall CertBuffer,
    (fst (SpdmCalculateTHCurrAK SpdmContext Session CertBuffer) = true <->
     Z.of_nat (length (A ++ CertTerm SpdmContext CertBuffer ++ K))
       <= MAX_SPDM_MESSAGE_BUFFER_SIZE) /\
    (fst (SpdmCalculateTHCurrAK SpdmContext Session CertBuffer) = true ->
     GetManagedBuffer (snd (SpdmCalculateTHCurrAK SpdmContext Session CertBuffer))
     = A ++ CertTerm SpdmContext CertBuffer ++ K)).
  { intros CertBuffer.
    destruct (Z_le_gt_dec
                (Z.of_nat (length (A ++ CertTerm SpdmContext CertBuffer ++ K)))
                MAX_SPDM_MESSAGE_BUFFER_SIZE) as [Hfit|Hover].
    - rewrite (SpdmCalculateTHCurrAK_fits _ _ _ Hfit). simpl. tauto.
    - assert (Hfalse := SpdmCalculateTHCurrAK_overflow SpdmContext Session CertBuffer
                          ltac:(fold A K; lia)).
      rewrite Hfalse. split; [split|]; [discriminate | lia | discriminate]. }
  split; [intros Cert; exact (Hcases (Some Cert))|].
  split; [exact (proj1 (Hcases None))|].
  split; [exact (proj2 (Hcases None))|].
  split.
  - intros Hheader. unfold SpdmGenerateKeyExchangeRspSignature. fold Used.
    rewrite bool_decide_eq_false_2
      by (unfold ChainHoldsHeader, sizeof_SPDM_CERT_CHAIN in Hheader; lia).
    destruct (Hcases (Some (X509Part SpdmContext Used))) as [Hiff Hbuf].
    cbn [CertTerm] in Hiff, Hbuf. fold Hash in Hiff, Hbuf.
    destruct (SpdmCalculateTHCurrAK SpdmContext Session
                (Some (X509Part SpdmContext Used))) as [[] THCurr];
      cbn [fst snd negb] in *.
    + rewrite decide_True by (by apply Hiff). by rewrite (Hbuf eq_refl).
    + rewrite decide_False; [done|]. intros Hfit. by apply Hiff in Hfit.
  - unfold SpdmGeneratePskExchangeRspHmac.
    destruct (Hcases None) as [Hiff Hbuf].
    cbn [CertTerm app] in Hiff, Hbuf.
    destruct (SpdmCalculateTHCurrAK SpdmContext Session None) as [[] THCurr];
      cbn [fst snd negb] in *.
    + rewrite decide_True by (by apply Hiff). by rewrite (Hbuf eq_refl).
    + rewrite decide_False; [done|]. intros Hfit. by apply Hiff in Hfit.
Qed.

End TranscriptHash.

(** C4 on the example session: the KEY_EXCHANGE signature of the
    responder that uses [ExampleCertChain] covers A, the digest of the
    X.509 part of the chain and MessageK; the PSK_EXCHANGE HMAC covers A
    and MessageK only. *)
Lemma th_for_signing_ak_witness :
  SpdmGenerateKeyExchangeRspSignature HandshakeResponder ExampleSession
  = Some (x53 :: ToyDigest ([x0a; x0a] ++ ToyDigest [xde; xad; xbe; xef]
                              ++ [xe1; xe2])) /\
  SpdmGeneratePskExchangeRspHmac HandshakeResponder ExampleSession
  = Some (ToyDigest ([x0a; x0a] ++ [xe1; xe2])).
Proof.
  destruct (th_for_signing_ak HandshakeResponder ExampleSession)
    as (_ & _ & _ & Hsignature & Hhmac).
  split.
  - rewrite Hsignature by (vm_compute; lia). reflexivity.
  - rewrite Hhmac. reflexivity.
Defined.

(** The example session: TH with and without a certificate. *)
Example transcript_hash_with_and_without_certificate :
  SpdmCalculateTHCurrAK NegotiatedContext ExampleSession (Some [x30; x31])
  = (true, FilledBuffer MAX_SPDM_MESSAGE_BUFFER_SIZE
             ([x0a; x0a] ++ ToyDigest [x30; x31] ++ [xe1; xe2])) /\
  SpdmCalculateTHCurrAK NegotiatedContext ExampleSession None
  = (true, FilledBuffer MAX_SPDM_MESSAGE_BUFFER_SIZE ([x0a; x0a] ++ [xe1; xe2])).
Proof. split; vm_compute; reflexivity. Qed.

(** ** What the challenge signature is taken over *)

Section ChallengeSignature.
Context `{Config : SpdmLibConfig} `{Crypt : SpdmCryptLib}.

(** The verdict of the verification, spelled out. *)
Lemma SpdmVerifyChallengeAuthSignature_PeerSigned (SpdmContext : SPDM_DEVICE_CONTEXT)
  (IsRequester : bool) (SignData : list byte) :
  SpdmVerifyChallengeAuthSignature SpdmContext IsRequester SignData = true <->
  PeerSigned IsRequester SpdmContext
    (Buffer (M1M2 (Transcript SpdmContext))) SignData.
Proof.
  unfold SpdmVerifyChallengeAuthSignature, PeerSigned, GetManagedBuffer. cbv zeta.
  split.
  - destruct (PeerCertChain SpdmContext) as [Chain|]; [|discriminate].
    destruct (X509GetCertFromCertChain _ _) as [Cert|] eqn:HX; [|discriminate].
    destruct IsRequester.
    + destruct (SpdmAsymGetPublicKeyFromX509 _ _) as [Key|] eqn:HK; [|discriminate].
      intros HV. by exists Chain, Cert, Key.
    + destruct (SpdmReqAsymGetPublicKeyFromX509 _ _) as [Key|] eqn:HK; [|discriminate].
      intros HV. by exists Chain, Cert, Key.
  - intros (Chain & Cert & Key & -> & -> & HV).
    destruct IsRequester; destruct HV as [-> HV]; exact HV.
Qed.

(** C1, as found in the code.  When the response fits the ledger that
    records it and the ledgers fit M1M2, [SpdmGenerateChallengeAuthSignature]
    appends the response to MutC (to C in the responder role), then
    appends to M1M2 the ledgers MutB and MutC, and no other (A, B and C in
    the responder role), and hands back the requester (responder)
    signature of the digest of M1M2; when something does not fit there is
    no signature.  With M1M2 empty on entry, as every reset leaves it, the
    requester signs the digest of MutB || MutC and the responder that of
    A || B || C.  [SpdmVerifyChallengeAuthSignature] accepts exactly the
    signatures that verify, under the key of the leaf certificate of the
    peer chain, over the digest of M1M2 as the context holds it at the
    call. *)
Theorem challenge_auth_signature_transcript
  (SpdmContext : SPDM_DEVICE_CONTEXT) (IsRequester : bool)
  (ResponseMessage SignData : list byte) :
  let T := Transcript SpdmContext in
  let Hash := SpdmHashAll (NegotiatedHashAlgo SpdmContext) in
  let Result :=
    SpdmGenerateChallengeAuthSignature SpdmContext IsRequester ResponseMessage in
  let T' := Transcript (snd Result) in
  let Ledger := if IsRequester then MessageMutC T else MessageC T in
  let Recorded := Buffer Ledger ++ ResponseMessage in
  let Appended :=
    if IsRequester then Buffer (MessageMutB T) ++ Recorded
    else Buffer (MessageA T) ++ Buffer (MessageB T) ++ Recorded in
  let Sign :=
    if IsRequester
    then SpdmRequesterDataSignFunc
           (ReqBaseAsymAlg (Algorithm (ConnectionInfo SpdmContext)))
    else SpdmResponderDataSignFunc
           (BaseAsymAlgo (Algorithm (ConnectionInfo SpdmContext))) in
  let Fits :=
    Z.of_nat (length Recorded) <= MaxBufferSize Ledger /\
    Z.of_nat (length (Buffer (M1M2 T) ++ Appended)) <= MaxBufferSize (M1M2 T) in
  (Fits ->
   fst Result = Sign (Hash (Buffer (M1M2 T) ++ Appended)) /\
   Buffer (M1M2 T') = Buffer (M1M2 T) ++ Appended /\
   Buffer (if IsRequester then MessageMutC T' else MessageC T') = Recorded /\
   (Buffer (M1M2 T) = [] ->
    Buffer (M1M2 T')
    = if IsRequester then Buffer (MessageMutB T') ++ Buffer (MessageMutC T')
      else Buffer (MessageA T') ++ Buffer (MessageB T') ++ Buffer (MessageC T'))) /\
  (~ Fits -> fst Result = None) /\
  (PeerChainHoldsHeader SpdmContext ->
   (SpdmVerifyChallengeAuthSignature SpdmContext IsRequester SignData = true <->
    PeerSigned IsRequester SpdmContext (Buffer (M1M2 T)) SignData)).
Proof.
  intros T Hash Result T' Ledger Recorded Appended Sign Fits.
  split; [|split].
  - subst Fits Result T' Sign Appended Recorded Ledger T. cbv beta.
    rewrite !length_app. intros [HL HM].
    unfold SpdmGenerateChallengeAuthSignature, GetManagedBuffer.
    destruct IsRequester.
    + rewrite AppendManagedBuffer_fits by (rewrite ?length_app in *; lia).
      cbn [RETURN_ERROR Transcript set_Transcript set_MessageMutC set_M1M2
           M1M2 MessageMutB MessageMutC Buffer MaxBufferSize].
      rewrite AppendManagedBuffer_fits
        by (cbn [Buffer MaxBufferSize]; rewrite ?length_app in *; lia).
      cbn [RETURN_ERROR Transcript set_Transcript set_MessageMutC set_M1M2
           M1M2 MessageMutB MessageMutC Buffer MaxBufferSize].
      rewrite AppendManagedBuffer_fits
        by (cbn [Buffer MaxBufferSize]; rewrite ?length_app in *; lia).
      cbn [RETURN_ERROR Transcript set_Transcript set_MessageMutC set_M1M2
           M1M2 MessageMutB MessageMutC Buffer MaxBufferSize fst snd].
      rewrite <- !app_assoc. repeat split; try reflexivity.
      intros ->. reflexivity.
    + rewrite AppendManagedBuffer_fits by (rewrite ?length_app in *; lia).
      cbn [RETURN_ERROR Transcript set_Transcript set_MessageC set_M1M2
           M1M2 MessageA MessageB MessageC Buffer MaxBufferSize].
      rewrite AppendManagedBuffer_fits
        by (cbn [Buffer MaxBufferSize]; rewrite ?length_app in *; lia).
      cbn [RETURN_ERROR Transcript set_Transcript set_MessageC set_M1M2
           M1M2 MessageA MessageB MessageC Buffer MaxBufferSize].
      rewrite AppendManagedBuffer_fits
        by (cbn [Buffer MaxBufferSize]; rewrite ?length_app in *; lia).
      cbn [RETURN_ERROR Transcript set_Transcript set_MessageC set_M1M2
           M1M2 MessageA MessageB MessageC Buffer MaxBufferSize].
      rewrite AppendManagedBuffer_fits
        by (cbn [Buffer MaxBufferSize]; rewrite ?length_app in *; lia).
      cbn [RETURN_ERROR Transcript set_Transcript set_MessageC set_M1M2
           M1M2 MessageA MessageB MessageC Buffer MaxBufferSize fst snd].
      rewrite <- !app_assoc. repeat split; try reflexivity.
      intros ->. reflexivity.
  - subst Fits Result T' Sign Appended Recorded Ledger T. cbv beta.
    rewrite !length_app. intros Hno.
    unfold SpdmGenerateChallengeAuthSignature, AppendManagedBuffer,
      GetManagedBufferSize, GetManagedBuffer.
    destruct IsRequester;
      repeat (case_decide;
              cbn [RETURN_ERROR Transcript set_Transcript set_MessageC set_MessageMutC
                   set_M1M2 M1M2 MessageA MessageB MessageC MessageMutB MessageMutC
                   Buffer MaxBufferSize fst snd]);
      try reflexivity;
      exfalso; apply Hno; rewrite ?length_app in *; lia.
  - intros _. apply SpdmVerifyChallengeAuthSignature_PeerSigned.
Qed.

End ChallengeSignature.

(** Both roles on the example context, and the verification of a
    responder signature over what M1M2 holds. *)
Lemma challenge_auth_signature_transcript_witness :
  let Requester := SpdmGenerateChallengeAuthSignature NegotiatedContext true [xc2] in
  let Responder := SpdmGenerateChallengeAuthSignature NegotiatedContext false [xc2] in
  let Verifier :=
    set_Transcript
      (set_M1M2 (FilledBuffer MAX_SPDM_MESSAGE_BUFFER_SIZE [x01; x02]))
      RequesterContext in
  (fst Requester = Some (x52 :: ToyDigest ([xb1; xb2] ++ [xc1; xc2])) /\
   Buffer (M1M2 (Transcript (snd Requester))) = [xb1; xb2] ++ [xc1; xc2]) /\
  (fst Responder = Some (x53 :: ToyDigest ([x0a; x0a] ++ [x0b] ++ [x0c; xc2])) /\
   Buffer (M1M2 (Transcript (snd Responder))) = [x0a; x0a] ++ [x0b] ++ [x0c; xc2]) /\
  SpdmVerifyChallengeAuthSignature Verifier true (x53 :: ToyDigest [x01; x02]) = true.
Proof.
  cbv zeta. split; [|split].
  - destruct (challenge_auth_signature_transcript NegotiatedContext true [xc2] [])
      as (Hgen & _ & _).
    destruct Hgen as (Hsign & HM1M2 & _ & _); [vm_compute; split; discriminate|].
    split; [exact Hsign | exact HM1M2].
  - destruct (challenge_auth_signature_transcript NegotiatedContext false [xc2] [])
      as (Hgen & _ & _).
    destruct Hgen as (Hsign & HM1M2 & _ & _); [vm_compute; split; discriminate|].
    split; [exact Hsign | exact HM1M2].
  - match goal with
    | |- SpdmVerifyChallengeAuthSignature ?c _ ?sig = true =>
        destruct (challenge_auth_signature_transcript c true [] sig)
          as (_ & _ & Hverify)
    end.
    apply Hverify.
    + intros Chain [= <-]. vm_compute. lia.
    + exists ExampleCertChain, [xde; xad; xbe; xef], [xde; xad; xbe; xef].
      vm_compute. repeat split; reflexivity.
Defined.

(** C1, as stated, fails: on the example context, whose ledger A holds two
    bytes, the requester signature covers MutB || MutC; ledger A is not
    part of M1M2 and the signature differs from the one over
    A || MutB || MutC. *)
Lemma challenge_auth_signature_omits_A :
  let Result := SpdmGenerateChallengeAuthSignature NegotiatedContext true [xc2] in
  let T' := Transcript (snd Result) in
  Buffer (MessageA T') = [x0a; x0a] /\
  Buffer (M1M2 T') = Buffer (MessageMutB T') ++ Buffer (MessageMutC T') /\
  Buffer (M1M2 T')
    <> Buffer (MessageA T') ++ Buffer (MessageMutB T') ++ Buffer (MessageMutC T') /\
  fst Result
    <> SpdmRequesterDataSignFunc 0
         (SpdmHashAll 0
            (Buffer (MessageA T') ++ Buffer (MessageMutB T')
             ++ Buffer (MessageMutC T'))).
Proof.
  vm_compute. repeat split; discriminate.
Qed.

(** ** The measurement summary hash *)

(** The parts of C5 the code keeps: type None gives the all-zero hash of
    the negotiated size, a type other than None, TcbComponent and All
    makes the function fail. *)
Lemma measurement_summary_hash_none `{Config : SpdmLibConfig} `{Crypt : SpdmCryptLib}
  (SpdmContext : SPDM_DEVICE_CONTEXT) (Stack : list byte) :
  SpdmGenerateMeasurementSummaryHash SpdmContext
    SPDM_CHALLENGE_REQUEST_NO_MEASUREMENT_SUMMARY_HASH Stack
  = Some (replicate (GetSpdmHashSize (NegotiatedHashAlgo SpdmContext)) x00).
Proof. reflexivity. Qed.

Lemma measurement_summary_hash_unknown_type `{Config : SpdmLibConfig}
  `{Crypt : SpdmCryptLib} (SpdmContext : SPDM_DEVICE_CONTEXT)
  (MeasurementSummaryHashType : Z) (Stack : list byte) :
  MeasurementSummaryHashType <> SPDM_CHALLENGE_REQUEST_NO_MEASUREMENT_SUMMARY_HASH ->
  MeasurementSummaryHashType <> SPDM_CHALLENGE_REQUEST_TCB_COMPONENT_MEASUREMENT_HASH ->
  MeasurementSummaryHashType <> SPDM_CHALLENGE_REQUEST_ALL_MEASUREMENTS_HASH ->
  SpdmGenerateMeasurementSummaryHash SpdmContext MeasurementSummaryHashType Stack
  = None.
Proof.
  intros H0 H1 H2. unfold SpdmGenerateMeasurementSummaryHash.
  rewrite decide_False by done. rewrite decide_False by tauto. reflexivity.
Qed.

(** Type All on the example device: both blocks are hashed, whatever the
    array held before. *)
Example measurement_summary_hash_all :
  SpdmGenerateMeasurementSummaryHash NegotiatedContext
    SPDM_CHALLENGE_REQUEST_ALL_MEASUREMENTS_HASH (replicate 16 xff)
  = Some (ToyDigest (drop 4 ToyFirmwareBlock ++ drop 4 ToyRomBlock)).
Proof. vm_compute. reflexivity. Qed.

(** C5 at the failing input.  The device reports a mutable-firmware block
    followed by an immutable-ROM block.  With type TcbComponent the hashed
    bytes are the five bytes the local array happened to hold, followed by
    the ROM block: the firmware block is skipped by the copy but not by
    the running size.  Two calls that differ only in the stale content of
    the array give two hashes, neither of them the hash of the ROM block. *)
Lemma tcb_measurement_summary_hash_covers_stale_bytes :
  let Rom := drop 4 ToyRomBlock in
  let Tcb := SPDM_CHALLENGE_REQUEST_TCB_COMPONENT_MEASUREMENT_HASH in
  SpdmGenerateMeasurementSummaryHash NegotiatedContext Tcb (replicate 16 x00)
  = Some (ToyDigest (replicate 5 x00 ++ Rom)) /\
  SpdmGenerateMeasurementSummaryHash NegotiatedContext Tcb (replicate 16 xff)
  = Some (ToyDigest (replicate 5 xff ++ Rom)) /\
  SpdmGenerateMeasurementSummaryHash NegotiatedContext Tcb (replicate 16 x00)
  <> Some (ToyDigest Rom) /\
  SpdmGenerateMeasurementSummaryHash NegotiatedContext Tcb (replicate 16 x00)
  <> SpdmGenerateMeasurementSummaryHash NegotiatedContext Tcb (replicate 16 xff).
Proof.
  vm_compute. repeat split; discriminate.
Qed.

(** The responder library selects by the unmasked value type and advances
    its write index only on a copy: on the same two blocks it hashes the
    digest of the ROM block alone. *)
Example cached_measurement_summary_hash_tcb :
  CalculateMeasurementSummaryHash ResponderContext
    SPDM_CHALLENGE_REQUEST_TCB_COMPONENT_MEASUREMENT_HASH (replicate 16 xff)
  = Some (ToyDigest [xaa; xbb]).
Proof. vm_compute. reflexivity. Qed.

(** ** Message headers and response assembly *)

Lemma byte_to_Z_to_byte (z : Z) : byte_to_Z (Z_to_byte z) = z mod 256.
Proof.
  unfold byte_to_Z, Z_to_byte.
  assert (Hr : 0 <= z mod 256 < 256) by (apply Z.mod_pos_bound; lia).
  destruct (Byte.of_N (Z.to_N (z mod 256))) as [b|] eqn:E.
  - apply Byte.to_of_N in E. rewrite E. lia.
  - apply Byte.of_N_None_iff in E. lia.
Qed.

Lemma Header_of_take (Message : list byte) (SpdmVer Code Param1 Param2 : Z) :
  take 4 Message = MessageHeader SpdmVer Code Param1 Param2 ->
  HeaderCode Message = Code mod 256 /\
  HeaderParam1 Message = Param1 mod 256 /\
  HeaderParam2 Message = Param2 mod 256.
Proof.
  intros Htake. unfold HeaderCode, HeaderParam1, HeaderParam2.
  assert (Hn : forall i, (i < 4)%nat ->
            nth i Message x00 = nth i (take 4 Message) x00).
  { intros i Hi. rewrite nth_firstn.
    destruct (Nat.ltb_spec i 4); [reflexivity | lia]. }
  rewrite !Hn by lia. rewrite Htake. unfold MessageHeader. simpl.
  rewrite !byte_to_Z_to_byte. done.
Qed.

Lemma length_CopyMem_ge (Destination Source : list byte) (Offset : nat) :
  (length Destination <= length (CopyMem Destination Offset Source))%nat.
Proof.
  unfold CopyMem. rewrite !length_app, length_take, length_drop. lia.
Qed.




(** ** The slot checks of the two CHALLENGE handlers *)

Section SlotChecks.
Context `{Config : SpdmLibConfig} `{Crypt : SpdmCryptLib}.






End SlotChecks.


(** The slot number [SlotCount] itself, one past the last provisioned
    slot, is answered with CHALLENGE_AUTH. *)
Example challenge_for_slot_count_is_processed :
  exists Message,
    fst (SpdmGetResponseChallenge ResponderContext (ChallengeRequest 1 0)
           (replicate SPDM_NONCE_SIZE x22) (replicate 16 x00))
    = SpdmResponseMessage Message /\
    HeaderCode Message = SPDM_CHALLENGE_AUTH /\
    HeaderParam1 Message = 1.
Proof. eexists. vm_compute. repeat split; reflexivity. Qed.

(** ** Stepping through the body of an operation *)

Lemma wp_bind {A B : Type} (m : Exec A) (k : A -> Exec B)
  (Q : OUTCOME B -> EXEC_STATE -> Prop) (st : EXEC_STATE) :
  wp m (fun o st' =>
          match o with
          | Continue a => wp (k a) Q st'
          | Return s => Q (Return s) st'
          end) st ->
  wp (ExecBind m k) Q st.
Proof.
  unfold wp, ExecBind. destruct (m st) as [[a|s] st']; simpl; auto.
Qed.

Lemma wp_ret {A : Type} (a : A) (Q : OUTCOME A -> EXEC_STATE -> Prop)
  (st : EXEC_STATE) :
  Q (Continue a) st -> wp (ExecRet a) Q st.
Proof. auto. Qed.

Lemma wp_return {A : Type} (s : RETURN_STATUS)
  (Q : OUTCOME A -> EXEC_STATE -> Prop) (st : EXEC_STATE) :
  Q (Return s) st -> wp (ExecReturn s) Q st.
Proof. auto. Qed.

Lemma wp_ReturnIf (c : bool) (s : RETURN_STATUS)
  (Q : OUTCOME unit -> EXEC_STATE -> Prop) (st : EXEC_STATE) :
  (c = true -> Q (Return s) st) ->
  (c = false -> Q (Continue tt) st) ->
  wp (ReturnIf c s) Q st.
Proof. unfold wp, ReturnIf. destruct c; simpl; auto. Qed.

Lemma wp_get (Q : OUTCOME SPDM_DEVICE_CONTEXT -> EXEC_STATE -> Prop)
  (st : EXEC_STATE) :
  Q (Continue (ExecContext st)) st -> wp GetContext Q st.
Proof. auto. Qed.

Lemma wp_modify (f : SPDM_DEVICE_CONTEXT -> SPDM_DEVICE_CONTEXT)
  (Q : OUTCOME unit -> EXEC_STATE -> Prop) (st : EXEC_STATE) :
  Q (Continue tt)
    {| ExecContext := f (ExecContext st); ExecTrace := ExecTrace st;
       ExecMeasurementHash := ExecMeasurementHash st |} ->
  wp (ModifyContext f) Q st.
Proof. auto. Qed.

Lemma wp_emit (e : SPDM_EVENT) (Q : OUTCOME unit -> EXEC_STATE -> Prop)
  (st : EXEC_STATE) :
  Q (Continue tt)
    {| ExecContext := ExecContext st; ExecTrace := ExecTrace st ++ [e];
       ExecMeasurementHash := ExecMeasurementHash st |} ->
  wp (Emit e) Q st.
Proof. auto. Qed.

Lemma wp_copy (Hash : list byte) (Q : OUTCOME unit -> EXEC_STATE -> Prop)
  (st : EXEC_STATE) :
  Q (Continue tt)
    {| ExecContext := ExecContext st; ExecTrace := ExecTrace st;
       ExecMeasurementHash := Hash |} ->
  wp (CopyMeasurementHash Hash) Q st.
Proof. auto. Qed.

(** One statement of the body: a bind is entered, a primitive is
    executed, a branch or a destructuring [let] splits the goal. *)
Ltac wp_step :=
  lazymatch goal with
  | |- wp (ExecBind _ _) _ _ => apply wp_bind
  | |- wp (ExecRet _) _ _ => apply wp_ret; cbv beta iota
  | |- wp (ExecReturn _) _ _ => apply wp_return; cbv beta iota
  | |- wp (ReturnIf _ _) _ _ =>
      let H := fresh "Hc" in
      apply wp_ReturnIf; intros H; cbv beta iota
  | |- wp GetContext _ _ =>
      apply wp_get; cbv beta iota; cbn [ExecContext ExecTrace ExecMeasurementHash]
  | |- wp (ModifyContext _) _ _ =>
      apply wp_modify; cbv beta iota; cbn [ExecContext ExecTrace ExecMeasurementHash]
  | |- wp (Emit _) _ _ =>
      apply wp_emit; cbv beta iota; cbn [ExecContext ExecTrace ExecMeasurementHash]
  | |- wp (CopyMeasurementHash _) _ _ =>
      apply wp_copy; cbv beta iota; cbn [ExecContext ExecTrace ExecMeasurementHash]
  | |- wp (if ?b then _ else _) _ _ =>
      let H := fresh "Hc" in destruct b eqn:H
  | |- wp (let '(_, _) := ?x in _) _ _ =>
      let H := fresh "Hx" in destruct x eqn:H
  | |- wp (let x := ?v in _) _ _ =>
      let y := fresh x in set (y := v); cbv zeta
  end.




(** ** Ledgers only grow *)

Lemma LedgerKept_refl (b : MANAGED_BUFFER) : LedgerKept b b.
Proof. unfold LedgerKept. reflexivity. Qed.

Lemma LedgerKept_trans (a b c : MANAGED_BUFFER) :
  LedgerKept a b -> LedgerKept b c -> LedgerKept a c.
Proof. unfold LedgerKept. apply transitivity. Qed.

Lemma LedgerKept_AppendUnchecked (b : MANAGED_BUFFER) (Data : list byte) :
  LedgerKept b (AppendUnchecked b Data).
Proof.
  unfold LedgerKept, AppendUnchecked, AppendManagedBuffer.
  destruct (decide _); simpl; [reflexivity | by apply prefix_app_r].
Qed.

Lemma LedgerKept_append_eq (a b : MANAGED_BUFFER) (Data : list byte)
  (Status : RETURN_STATUS) :
  AppendManagedBuffer a Data = (Status, b) -> LedgerKept a b.
Proof.
  intros H. pose proof (LedgerKept_AppendUnchecked a Data) as K.
  unfold AppendUnchecked in K. by rewrite H in K.
Qed.

Lemma LedgerKept_then_append (a b c : MANAGED_BUFFER) (Data : list byte)
  (Status : RETURN_STATUS) :
  AppendManagedBuffer b Data = (Status, c) -> LedgerKept a b -> LedgerKept a c.
Proof. intros H K. eapply LedgerKept_trans; [exact K | by eapply LedgerKept_append_eq]. Qed.

Lemma LedgerKept_then_AppendUnchecked (a b : MANAGED_BUFFER) (Data : list byte) :
  LedgerKept a b -> LedgerKept a (AppendUnchecked b Data).
Proof.
  intros K. eapply LedgerKept_trans; [exact K | apply LedgerKept_AppendUnchecked].
Qed.


Create HintDb ledger.
#[local] Hint Resolve LedgerKept_refl LedgerKept_then_append
  LedgerKept_then_AppendUnchecked : ledger.

Ltac transcript_cbn :=
  cbn [fst snd ChallengeResult ResultStatus ResultTrace ResultContext
       ExecTrace ExecContext
       Transcript set_Transcript set_ErrorState set_ConnectionInfo
       set_SpdmCmdReceiveState set_MessageMutC set_MessageC set_M1M2
       MessageA MessageB MessageC MessageMutB MessageMutC M1M2 L1L2
       ResetManagedBuffer GetManagedBufferSize GetManagedBuffer Buffer length] in *.

Ltac ledgers_kept :=
  unfold TranscriptKept, LedgerKeptOrReset; transcript_cbn;
  solve [repeat split; try (left; reflexivity); try right; eauto 8 with ledger].

Section Ledgers.
Context `{Config : SpdmLibConfig} `{Crypt : SpdmCryptLib}.

(** [SpdmGenerateChallengeAuthSignature] only appends, on every path. *)
Lemma SpdmGenerateChallengeAuthSignature_keeps (SpdmContext : SPDM_DEVICE_CONTEXT)
  (IsRequester : bool) (ResponseMessage : list byte) :
  let T := Transcript SpdmContext in
  let T' := Transcript
              (snd (SpdmGenerateChallengeAuthSignature SpdmContext IsRequester
                      ResponseMessage)) in
  TranscriptKept T T' /\ LedgerKept (M1M2 T) (M1M2 T').
Proof.
  intros T T'. subst T T'. unfold SpdmGenerateChallengeAuthSignature.
  destruct IsRequester.
  all: repeat match goal with
       | |- context [let '(_, _) := ?x in _] =>
           let E := fresh "E" in destruct x eqn:E
       | |- context [if RETURN_ERROR ?s then _ else _] =>
           destruct (RETURN_ERROR s)
       end.
  all: transcript_cbn; split; [ledgers_kept | eauto 8 with ledger].
Qed.


End Ledgers.

(** ** The requester's CHALLENGE *)

Section RequesterChallenge.
Context `{Config : SpdmLibConfig} `{Crypt : SpdmCryptLib} `{Io : SpdmRequesterIo}.


(** A property of the result follows from stepping through the body. *)
Lemma TrySpdmChallenge_wp (SpdmContext : SPDM_DEVICE_CONTEXT)
  (SlotNum MeasurementHashType : Z) (Nonce : list byte)
  (P : CHALLENGE_RESULT -> Prop) :
  wp (TrySpdmChallengeBody SlotNum MeasurementHashType Nonce)
     (fun o st => P (ChallengeResult o st))
     {| ExecContext := SpdmContext; ExecTrace := []; ExecMeasurementHash := [] |} ->
  P (TrySpdmChallenge SpdmContext SlotNum MeasurementHashType Nonce).
Proof. auto. Qed.








End RequesterChallenge.

(** The requester's challenge of slot 0 against the example responder:
    the run succeeds without an encapsulated dialogue and leaves M1M2
    empty; ledger C holds the request and the response without its
    signature. *)
Example challenge_round_resets_M1M2 :
  let Result :=
    TrySpdmChallenge RequesterContext 0
      SPDM_CHALLENGE_REQUEST_ALL_MEASUREMENTS_HASH (replicate 32 x11) in
  ResultStatus Result = RETURN_SUCCESS /\
  ~ HandlerOrEncapRan (ResultTrace Result) /\
  GetManagedBufferSize (M1M2 (Transcript (ResultContext Result))) = 0%nat /\
  GetManagedBufferSize (MessageC (Transcript (ResultContext Result))) = 98%nat /\
  ConnectionState (ConnectionInfo (ResultContext Result))
  = SpdmConnectionStateAuthenticated.
Proof.
  cbv zeta. split; [vm_compute; reflexivity|]. split.
  - intros [Hin | [Response Hin]]; vm_compute in Hin; intuition discriminate.
  - vm_compute. repeat split; reflexivity.
Qed.




(** A run that fails in the encapsulated dialogue: the status is
    [RETURN_SECURITY_VIOLATION], the connection is not authenticated, M1M2
    was reset and the summary hash of the response was copied to
    [MeasurementHash] before the dialogue was entered. *)
Example failed_encapsulated_dialogue_after_copy :
  let Result :=
    @TrySpdmChallenge TypicalConfig ToyCrypt FailingEncapPeerIo
      MutAuthConnectionContext 0
      SPDM_CHALLENGE_REQUEST_NO_MEASUREMENT_SUMMARY_HASH (replicate 32 x11) in
  ResultStatus Result = RETURN_SECURITY_VIOLATION /\
  In EventEncapsulatedRequest (ResultTrace Result) /\
  ResultMeasurementHash Result = [xa1; xa2; xa3; xa4] /\
  GetManagedBufferSize (M1M2 (Transcript (ResultContext Result))) = 0%nat /\
  ConnectionState (ConnectionInfo (ResultContext Result))
  = SpdmConnectionStateAfterCertificate /\
  ErrorState (ResultContext Result) = SPDM_STATUS_ERROR_CERTIFICATE_FAILURE.
Proof.
  cbv zeta. split; [vm_compute; reflexivity|].
  split; [vm_compute; tauto|]. vm_compute. repeat split; reflexivity.
Qed.

(** ** Slot 0xFF *)

Section ProvisionedSlot.
Context `{Config : SpdmLibConfig} `{Crypt : SpdmCryptLib} `{Io : SpdmRequesterIo}.

Lemma SpdmResponseMessage_inj (a b : list byte) :
  SpdmResponseMessage a = SpdmResponseMessage b -> a = b.
Proof. congruence. Qed.




End ProvisionedSlot.


(* ================================================================== *)
(** * Further properties *)
(* ================================================================== *)

(** ** The session registry *)

Lemma SessionLoop_shift (Test : SPDM_SESSION_INFO -> bool)
  (Slots : list SPDM_SESSION_INFO) (Index : nat) :
  SessionLoop Test Slots Index = (fun i => (Index + i)%nat) <$> SessionLoop Test Slots 0.
Proof.
  revert Index. induction Slots as [|Slot Rest IH]; intros Index; simpl; [done|].
  destruct (Test Slot); simpl; [f_equal; lia|].
  rewrite (IH (S Index)), (IH 1%nat).
  destruct (SessionLoop Test Rest 0); simpl; [f_equal; lia | done].
Qed.

(** Overwriting a slot by one that answers the test alike does not move
    the slot the loop finds. *)
Lemma SessionLoop_insert_same (Test : SPDM_SESSION_INFO -> bool)
  (Slots : list SPDM_SESSION_INFO) (i : nat) (Old New : SPDM_SESSION_INFO) :
  Slots !! i = Some Old -> Test New = Test Old ->
  forall Index, SessionLoop Test (<[i := New]> Slots) Index = SessionLoop Test Slots Index.
Proof.
  revert i. induction Slots as [|Slot Rest IH]; intros [|i] Hlk HT Index;
    simpl in *; try done.
  - injection Hlk as ->. by rewrite HT.
  - destruct (Test Slot); [done|]. by apply IH.
Qed.

Section Registry.
Context `{Config : SpdmLibConfig}.

(** The two ways [SpdmAssignSessionId] ends. *)
Lemma SpdmAssignSessionId_cases (SpdmContext : SPDM_DEVICE_CONTEXT)
  (Id : Z) (Psk : bool) :
  let Slots := SessionInfo SpdmContext in
  (SpdmAssignSessionId SpdmContext Id Psk = (None, SpdmContext) /\
   (Id = INVALID_SESSION_ID \/
    (exists s, s ∈ Slots /\ SessionId s = Id) \/
    (forall s, s ∈ Slots -> SessionId s <> INVALID_SESSION_ID))) \/
  (exists Index Old,
     Id <> INVALID_SESSION_ID /\
     (forall s, s ∈ Slots -> SessionId s <> Id) /\
     Slots !! Index = Some Old /\ SessionId Old = INVALID_SESSION_ID /\
     (forall j s', (j < Index)%nat -> Slots !! j = Some s' ->
                   SessionId s' <> INVALID_SESSION_ID) /\
     SpdmAssignSessionId SpdmContext Id Psk
     = (Some Index,
        set_LatestSessionId Id
          (set_SessionInfo
             (<[Index := SpdmSessionInfoInit SpdmContext Id Psk]> Slots)
             SpdmContext))).
Proof.
  intros Slots. unfold SpdmAssignSessionId. fold Slots.
  destruct (decide (Id = INVALID_SESSION_ID)) as [HId|HId]; [left; tauto|].
  destruct (SessionLoop (fun s => bool_decide (SessionId s = Id)) Slots 0)
    as [Found|] eqn:Hdup.
  { left. split; [reflexivity|]. right. left.
    apply SessionLoop_Some_inv in Hdup as (i & s & _ & Hlk & HT & _).
    exists s. split; [by eapply list_elem_of_lookup_2 | by apply bool_decide_eq_true in HT]. }
  destruct (SessionLoop (fun s => bool_decide (SessionId s = INVALID_SESSION_ID)) Slots 0)
    as [Index|] eqn:Hfree.
  - right. apply SessionLoop_Some_inv in Hfree as (i & Old & Hi & Hlk & HT & Hbefore).
    simpl in Hi. subst i. exists Index, Old.
    split; [exact HId|]. split.
    { intros s Hs. pose proof (SessionLoop_None_inv _ _ _ Hdup s Hs) as HF.
      by apply bool_decide_eq_false in HF. }
    split; [exact Hlk|]. split; [by apply bool_decide_eq_true in HT|].
    split; [|reflexivity].
    intros j s' Hj Hs'. pose proof (Hbefore j s' Hj Hs') as HF.
    by apply bool_decide_eq_false in HF.
  - left. split; [reflexivity|]. right. right.
    intros s Hs. pose proof (SessionLoop_None_inv _ _ _ Hfree s Hs) as HF.
    by apply bool_decide_eq_false in HF.
Qed.

(** The two ways [SpdmFreeSessionId] ends. *)
Lemma SpdmFreeSessionId_cases (SpdmContext : SPDM_DEVICE_CONTEXT) (Id : Z) :
  let Slots := SessionInfo SpdmContext in
  (SpdmFreeSessionId SpdmContext Id = (None, SpdmContext) /\
   (Id = INVALID_SESSION_ID \/ forall s, s ∈ Slots -> SessionId s <> Id)) \/
  (exists Index Old,
     Id <> INVALID_SESSION_ID /\
     Slots !! Index = Some Old /\ SessionId Old = Id /\
     (forall j s', (j < Index)%nat -> Slots !! j = Some s' -> SessionId s' <> Id) /\
     SpdmFreeSessionId SpdmContext Id
     = (Some Index,
        set_SessionInfo
          (<[Index := SpdmSessionInfoInit SpdmContext INVALID_SESSION_ID false]> Slots)
          SpdmContext)).
Proof.
  intros Slots. unfold SpdmFreeSessionId. fold Slots.
  destruct (decide (Id = INVALID_SESSION_ID)) as [HId|HId]; [left; tauto|].
  destruct (SessionLoop (fun s => bool_decide (SessionId s = Id)) Slots 0)
    as [Index|] eqn:Hfound.
  - right. apply SessionLoop_Some_inv in Hfound as (i & Old & Hi & Hlk & HT & Hbefore).
    simpl in Hi. subst i. exists Index, Old.
    split; [exact HId|]. split; [exact Hlk|].
    split; [by apply bool_decide_eq_true in HT|]. split; [|reflexivity].
    intros j s' Hj Hs'. pose proof (Hbefore j s' Hj Hs') as HF.
    by apply bool_decide_eq_false in HF.
  - left. split; [reflexivity|]. right.
    intros s Hs. pose proof (SessionLoop_None_inv _ _ _ Hfound s Hs) as HF.
    by apply bool_decide_eq_false in HF.
Qed.

Lemma UniqueSessionIds_insert (Slots : list SPDM_SESSION_INFO) (Index : nat)
  (New : SPDM_SESSION_INFO) :
  UniqueSessionIds Slots ->
  (SessionId New = INVALID_SESSION_ID \/
   forall j s, j <> Index -> Slots !! j = Some s -> SessionId s <> SessionId New) ->
  UniqueSessionIds (<[Index := New]> Slots).
Proof.
  intros Huniq Hnew i j si sj Hi Hj Heq Hnz.
  destruct (decide (i = Index)) as [->|Hni], (decide (j = Index)) as [->|Hnj];
    [done| | |].
  - apply list_lookup_insert_Some in Hi as [(_ & <- & _) | (? & _)]; [|done].
    rewrite list_lookup_insert_ne in Hj by done.
    destruct Hnew as [H0 | Hother]; [done|].
    exfalso. by apply (Hother j sj).
  - apply list_lookup_insert_Some in Hj as [(_ & <- & _) | (? & _)]; [|done].
    rewrite list_lookup_insert_ne in Hi by done.
    destruct Hnew as [H0 | Hother]; [congruence|].
    exfalso. by apply (Hother i si).
  - rewrite list_lookup_insert_ne in Hi by done.
    rewrite list_lookup_insert_ne in Hj by done.
    by eapply Huniq.
Qed.

(** X1.  The session ids of the registry stay pairwise different: the array
    [SpdmInitContext] leaves has no session, and neither
    [SpdmAssignSessionId] nor [SpdmFreeSessionId] brings one id into two
    slots, whatever they are called with. *)
Theorem session_ids_stay_unique (SpdmContext : SPDM_DEVICE_CONTEXT)
  (SessionCount : nat) (Id : Z) (Psk : bool) :
  UniqueSessionIds (SessionInfo (SpdmInitContext SessionCount)) /\
  (UniqueSessionIds (SessionInfo SpdmContext) ->
   UniqueSessionIds (SessionInfo (snd (SpdmAssignSessionId SpdmContext Id Psk))) /\
   UniqueSessionIds (SessionInfo (snd (SpdmFreeSessionId SpdmContext Id)))).
Proof.
  split.
  - intros i j si sj Hi Hj _ Hnz. simpl in Hi.
    apply lookup_replicate in Hi as [-> _]. done.
  - intros Huniq. split.
    + destruct (SpdmAssignSessionId_cases SpdmContext Id Psk)
        as [[-> _] | (Index & Old & _ & Hfresh & _ & _ & _ & ->)]; [done|].
      simpl. apply UniqueSessionIds_insert; [done|]. right.
      intros j s _ Hs. apply Hfresh. by eapply list_elem_of_lookup_2.
    + destruct (SpdmFreeSessionId_cases SpdmContext Id)
        as [[-> _] | (Index & Old & _ & _ & _ & _ & ->)]; [done|].
      simpl. apply UniqueSessionIds_insert; [done|]. by left.
Qed.

(** X2.  [SpdmAssignSessionId] returns [NULL] exactly for the invalid id, for an
    id the registry holds already and for a registry without a free slot;
    it then leaves the context as it was. *)
Theorem assign_fails_exactly_when (SpdmContext : SPDM_DEVICE_CONTEXT)
  (Id : Z) (Psk : bool) :
  let Slots := SessionInfo SpdmContext in
  (fst (SpdmAssignSessionId SpdmContext Id Psk) = None <->
   Id = INVALID_SESSION_ID \/
   (exists s, s ∈ Slots /\ SessionId s = Id) \/
   (forall s, s ∈ Slots -> SessionId s <> INVALID_SESSION_ID)) /\
  (fst (SpdmAssignSessionId SpdmContext Id Psk) = None ->
   snd (SpdmAssignSessionId SpdmContext Id Psk) = SpdmContext).
Proof.
  intros Slots.
  destruct (SpdmAssignSessionId_cases SpdmContext Id Psk)
    as [[-> Hwhy] | (Index & Old & HId & Hfresh & Hlk & Hold & _ & ->)].
  - split; [tauto | done].
  - split; [|discriminate]. split; [discriminate|].
    intros [H0 | [(s & Hs & Hdup) | Hfull]]; exfalso.
    + done.
    + by apply (Hfresh s).
    + apply (Hfull Old); [by eapply list_elem_of_lookup_2 | done].
Qed.

(** X3.  [SpdmAssignSessionId] and [SpdmFreeSessionId] write one slot of the
    session array: its length and every other slot stay, and so does the
    rest of the context, except that a successful assign records the id in
    [LatestSessionId].  [SpdmFreeSessionId] does not touch
    [LatestSessionId], which can go on naming the session just freed. *)
Theorem registry_operations_frame (SpdmContext : SPDM_DEVICE_CONTEXT)
  (Id : Z) (Psk : bool) :
  let Assigned := SpdmAssignSessionId SpdmContext Id Psk in
  let Freed := SpdmFreeSessionId SpdmContext Id in
  (SameOutsideRegistry SpdmContext (snd Assigned) /\
   length (SessionInfo (snd Assigned)) = length (SessionInfo SpdmContext) /\
   (forall j, fst Assigned <> Some j ->
      SessionInfo (snd Assigned) !! j = SessionInfo SpdmContext !! j) /\
   LatestSessionId (snd Assigned)
   = match fst Assigned with
     | Some _ => Id
     | None => LatestSessionId SpdmContext
     end) /\
  (SameOutsideRegistry SpdmContext (snd Freed) /\
   length (SessionInfo (snd Freed)) = length (SessionInfo SpdmContext) /\
   (forall j, fst Freed <> Some j ->
      SessionInfo (snd Freed) !! j = SessionInfo SpdmContext !! j) /\
   LatestSessionId (snd Freed) = LatestSessionId SpdmContext).
Proof.
  intros Assigned Freed. subst Assigned Freed. split.
  - destruct (SpdmAssignSessionId_cases SpdmContext Id Psk)
      as [[-> _] | (Index & Old & _ & _ & _ & _ & _ & ->)]; simpl.
    + by repeat split.
    + repeat split; [by rewrite length_insert|].
      intros j Hj. apply list_lookup_insert_ne. congruence.
  - destruct (SpdmFreeSessionId_cases SpdmContext Id)
      as [[-> _] | (Index & Old & _ & _ & _ & _ & ->)]; simpl.
    + by repeat split.
    + repeat split; [by rewrite length_insert|].
      intros j Hj. apply list_lookup_insert_ne. congruence.
Qed.

(** X4.  Assigning or freeing a session does not disturb the other sessions:
    the lookups of every other id find the same slot and the same keys
    context as before. *)
Theorem other_sessions_undisturbed (SpdmContext : SPDM_DEVICE_CONTEXT)
  (Id Other : Z) (Psk : bool) :
  Other <> Id ->
  let Assigned := snd (SpdmAssignSessionId SpdmContext Id Psk) in
  let Freed := snd (SpdmFreeSessionId SpdmContext Id) in
  SpdmGetSessionInfoViaSessionId Assigned Other
  = SpdmGetSessionInfoViaSessionId SpdmContext Other /\
  SpdmGetSessionKeyInfoViaSessionId Assigned Other
  = SpdmGetSessionKeyInfoViaSessionId SpdmContext Other /\
  SpdmGetSessionInfoViaSessionId Freed Other
  = SpdmGetSessionInfoViaSessionId SpdmContext Other /\
  SpdmGetSessionKeyInfoViaSessionId Freed Other
  = SpdmGetSessionKeyInfoViaSessionId SpdmContext Other.
Proof.
  intros Hne Assigned Freed. subst Assigned Freed.
  assert (Hone : forall (Index : nat) (Old New : SPDM_SESSION_INFO) (c' : SPDM_DEVICE_CONTEXT),
    SessionInfo SpdmContext !! Index = Some Old ->
    SessionInfo c' = <[Index := New]> (SessionInfo SpdmContext) ->
    (Other <> INVALID_SESSION_ID -> SessionId Old <> Other /\ SessionId New <> Other) ->
    SpdmGetSessionInfoViaSessionId c' Other
    = SpdmGetSessionInfoViaSessionId SpdmContext Other /\
    SpdmGetSessionKeyInfoViaSessionId c' Other
    = SpdmGetSessionKeyInfoViaSessionId SpdmContext Other).
  { intros Index Old New c' Hlk Hslots Hids.
    assert (Hinfo : SpdmGetSessionInfoViaSessionId c' Other
                    = SpdmGetSessionInfoViaSessionId SpdmContext Other).
    { unfold SpdmGetSessionInfoViaSessionId.
      destruct (decide (Other = INVALID_SESSION_ID)) as [|Hnz]; [done|].
      destruct (Hids Hnz) as [HOld HNew]. rewrite Hslots.
      apply (SessionLoop_insert_same _ _ _ Old); [done|].
      by rewrite !bool_decide_eq_false_2. }
    split; [exact Hinfo|].
    unfold SpdmGetSessionKeyInfoViaSessionId. rewrite Hinfo.
    unfold SpdmGetSessionInfoViaSessionId.
    destruct (decide (Other = INVALID_SESSION_ID)) as [|Hnz]; [done|].
    destruct (Hids Hnz) as [HOld HNew].
    destruct (SessionLoop _ (SessionInfo SpdmContext) 0) as [Found|] eqn:Hfound;
      [|done].
    apply SessionLoop_Some_inv in Hfound as (i & s & Hi & Hs & HT & _).
    simpl in Hi. subst i. apply bool_decide_eq_true in HT.
    rewrite Hslots, list_lookup_insert_ne; [done|].
    intros <-. congruence. }
  assert (Hassign :
    SpdmGetSessionInfoViaSessionId (snd (SpdmAssignSessionId SpdmContext Id Psk)) Other
    = SpdmGetSessionInfoViaSessionId SpdmContext Other /\
    SpdmGetSessionKeyInfoViaSessionId (snd (SpdmAssignSessionId SpdmContext Id Psk)) Other
    = SpdmGetSessionKeyInfoViaSessionId SpdmContext Other).
  { destruct (SpdmAssignSessionId_cases SpdmContext Id Psk)
      as [[-> _] | (Index & Old & _ & _ & Hlk & Hold & _ & ->)]; [done|].
    apply (Hone Index Old (SpdmSessionInfoInit SpdmContext Id Psk)); [done..|].
    intros Hnz. simpl. split; congruence. }
  assert (Hfree :
    SpdmGetSessionInfoViaSessionId (snd (SpdmFreeSessionId SpdmContext Id)) Other
    = SpdmGetSessionInfoViaSessionId SpdmContext Other /\
    SpdmGetSessionKeyInfoViaSessionId (snd (SpdmFreeSessionId SpdmContext Id)) Other
    = SpdmGetSessionKeyInfoViaSessionId SpdmContext Other).
  { destruct (SpdmFreeSessionId_cases SpdmContext Id)
      as [[-> _] | (Index & Old & _ & Hlk & Hold & _ & ->)]; [done|].
    apply (Hone Index Old (SpdmSessionInfoInit SpdmContext INVALID_SESSION_ID false));
      [done..|].
    intros Hnz. simpl. split; congruence. }
  tauto.
Qed.

Lemma assign_full (SpdmContext : SPDM_DEVICE_CONTEXT) (Id : Z) (Psk : bool) :
  (forall s, s ∈ SessionInfo SpdmContext -> SessionId s <> INVALID_SESSION_ID) ->
  fst (SpdmAssignSessionId SpdmContext Id Psk) = None.
Proof.
  intros Hfull.
  destruct (SpdmAssignSessionId_cases SpdmContext Id Psk)
    as [[-> _] | (Index & Old & _ & _ & Hlk & Hold & _ & _)]; [done|].
  exfalso. apply (Hfull Old); [by eapply list_elem_of_lookup_2 | done].
Qed.

(** The registry with [Used] sessions in its first slots and [Free] free
    slots behind them takes new ids in the order of the slots. *)
Lemma AssignAll_in_order (Ids : list Z) (Psk : bool) :
  forall (SpdmContext : SPDM_DEVICE_CONTEXT) (Used : list SPDM_SESSION_INFO)
         (Free : nat),
    SessionInfo SpdmContext = Used ++ replicate Free ZeroSessionInfo ->
    Forall (fun s => SessionId s <> INVALID_SESSION_ID) Used ->
    NoDup (Ids ++ (SessionId <$> Used)) ->
    Forall (fun Id => Id <> INVALID_SESSION_ID) Ids ->
    (length Ids <= Free)%nat ->
    fst (AssignAll SpdmContext Ids Psk) = Some <$> seq (length Used) (length Ids) /\
    exists Used',
      SessionInfo (snd (AssignAll SpdmContext Ids Psk))
      = Used' ++ replicate (Free - length Ids) ZeroSessionInfo /\
      Forall (fun s => SessionId s <> INVALID_SESSION_ID) Used' /\
      SessionId <$> Used' = (SessionId <$> Used) ++ Ids.
Proof.
  induction Ids as [|Id Rest IH]; intros SpdmContext Used Free Hslots Hused Hdup Hnz Hlen.
  { simpl. split; [done|]. exists Used. rewrite Nat.sub_0_r, app_nil_r. done. }
  simpl in Hlen. destruct Free as [|Free]; [lia|].
  apply Forall_cons_1 in Hnz as [HId HRest].
  simpl in Hdup.
  pose proof (NoDup_cons_1_1 _ _ Hdup) as Hfresh.
  apply NoDup_cons_1_2 in Hdup.
  simpl.
  destruct (SpdmAssignSessionId_cases SpdmContext Id Psk)
    as [[_ Hwhy] | (Index & Old & _ & _ & Hlk & Hold & Hbefore & Heq)].
  { exfalso. destruct Hwhy as [H0 | [(s & Hs & Hsid) | Hfull]].
    - done.
    - rewrite Hslots in Hs. apply elem_of_app in Hs as [Hs | Hs].
      + apply Hfresh, elem_of_app. right. rewrite <- Hsid.
        by apply list_elem_of_fmap_2.
      + apply elem_of_replicate in Hs as [-> _].
        unfold ZeroSessionInfo in Hsid. simpl in Hsid.
        unfold INVALID_SESSION_ID in HId. congruence.
    - apply (Hfull ZeroSessionInfo); [|done]. rewrite Hslots.
      apply elem_of_app. right. apply elem_of_replicate. split; [done | lia]. }
  assert (HIndex : Index = length Used).
  { rewrite Hslots in Hlk, Hbefore.
    destruct (Nat.lt_trichotomy Index (length Used)) as [Hlt | [-> | Hgt]]; [|done|].
    - exfalso. rewrite lookup_app_l in Hlk by done.
      rewrite list.Forall_forall in Hused. apply (Hused Old); [|done].
      by eapply list_elem_of_lookup_2.
    - exfalso. apply (Hbefore (length Used) ZeroSessionInfo Hgt); [|done].
      rewrite lookup_app_r by lia. rewrite Nat.sub_diag. done. }
  subst Index. rewrite Heq. clear Heq.
  set (New := SpdmSessionInfoInit SpdmContext Id Psk).
  set (c' := set_LatestSessionId Id _).
  assert (Hslots' : SessionInfo c' = (Used ++ [New]) ++ replicate Free ZeroSessionInfo).
  { subst c'. simpl. rewrite Hslots.
    rewrite insert_app_r_alt by lia. rewrite Nat.sub_diag. simpl.
    by rewrite <- app_assoc. }
  destruct (IH c' (Used ++ [New]) Free Hslots') as (Hfst & Used' & HS & HU & HI).
  - apply list.Forall_app. split; [done|]. by apply Forall_singleton.
  - rewrite fmap_app. simpl.
    apply list.NoDup_app in Hdup as (HdR & Hdis & HdU).
    apply list.NoDup_app. split; [done|]. split.
    + intros x Hx Hin. apply elem_of_app in Hin as [Hin | Hin].
      * by apply (Hdis x).
      * apply list_elem_of_singleton in Hin as ->.
        apply Hfresh, elem_of_app. by left.
    + apply list.NoDup_app. split; [done|]. split; [|apply NoDup_singleton].
      intros x Hx Hin. apply list_elem_of_singleton in Hin as ->.
      apply Hfresh, elem_of_app. by right.
  - done.
  - lia.
  - destruct (AssignAll c' Rest Psk) as [Slots Final] eqn:HAll. simpl in *.
    split.
    + rewrite Hfst, length_app. simpl. f_equal.
      replace (length Used + 1)%nat with (S (length Used)) by lia. done.
    + exists Used'. split; [exact HS|]. split; [exact HU|].
      rewrite HI, fmap_app, <- app_assoc. done.
Qed.

(** X5.  A fresh registry of [SessionCount] slots takes that many different
    non-zero session ids, the first in slot 0, the next in slot 1 and so
    on; once it has taken [SessionCount] ids, every further
    [SpdmAssignSessionId] fails. *)
Theorem registry_fills_in_order (SessionCount : nat) (Ids : list Z) (Psk : bool) :
  NoDup Ids ->
  Forall (fun Id => Id <> INVALID_SESSION_ID) Ids ->
  (length Ids <= SessionCount)%nat ->
  let Filled := AssignAll (SpdmInitContext SessionCount) Ids Psk in
  fst Filled = Some <$> seq 0 (length Ids) /\
  (length Ids = SessionCount ->
   forall Id Psk', fst (SpdmAssignSessionId (snd Filled) Id Psk') = None).
Proof.
  intros Hdup Hnz Hlen Filled. subst Filled.
  destruct (AssignAll_in_order Ids Psk (SpdmInitContext SessionCount) [] SessionCount)
    as (Hfst & Used' & HS & HU & HI); try done.
  { by rewrite app_nil_r. }
  split; [exact Hfst|].
  intros Hfull Id Psk'.
  apply assign_full. rewrite HS, Hfull, Nat.sub_diag, app_nil_r.
  intros s Hs. rewrite list.Forall_forall in HU. by apply HU.
Qed.

End Registry.

(** ** Get and set of context data *)

Lemma Z_to_byte_to_Z (b : byte) : Z_to_byte (byte_to_Z b) = b.
Proof.
  unfold Z_to_byte, byte_to_Z.
  pose proof (Byte.to_N_bounded b) as Hb.
  rewrite Z.mod_small by lia.
  rewrite N2Z.id. by rewrite Byte.of_to_N.
Qed.

Lemma ReadLE_nonneg (bs : list byte) : 0 <= ReadLE bs.
Proof.
  induction bs as [|b rest IH]; simpl; [lia|].
  pose proof (byte_to_Z_range b). lia.
Qed.

Lemma length_WriteLE (n : nat) (z : Z) : length (WriteLE n z) = n.
Proof. revert z. induction n as [|n IH]; intros z; simpl; [done | by rewrite IH]. Qed.

Lemma length_Field (Size : nat) (Data : list byte) : length (Field Size Data) = Size.
Proof.
  unfold Field, ZeroMem.
  rewrite length_take, length_app, length_replicate. lia.
Qed.

(** Writing back what was read through a cast pointer gives the bytes
    read. *)
Lemma WriteLE_ReadLE (bs : list byte) : WriteLE (length bs) (ReadLE bs) = bs.
Proof.
  induction bs as [|b rest IH]; simpl; [done|].
  pose proof (byte_to_Z_range b) as Hb.
  f_equal.
  - unfold Z_to_byte.
    replace ((byte_to_Z b + 256 * ReadLE rest) mod 256) with (byte_to_Z b).
    + unfold byte_to_Z. rewrite N2Z.id. by rewrite Byte.of_to_N.
    + rewrite (Z.mul_comm 256), Z.mod_add by lia.
      by rewrite Z.mod_small by lia.
  - replace ((byte_to_Z b + 256 * ReadLE rest) / 256) with (ReadLE rest); [done|].
    rewrite (Z.mul_comm 256), Z.div_add by lia.
    rewrite (Z.div_small (byte_to_Z b)) by lia. lia.
Qed.

Section DataApiFacts.
Context `{Config : SpdmLibConfig}.

(** The paths of [SpdmSetData], from an equation for its result. *)
Ltac set_data_cases H :=
  unfold SpdmSetData in H; cbv beta zeta in H;
  cbn [NeedSessionInfoForData andb] in H;
  lazymatch type of H with
  | context [IsDebugOnlyData ?t] =>
      destruct (IsDebugOnlyData t) eqn:?; [|destruct t]
  end;
  cbv beta iota zeta in H;
  repeat case_decide;
  repeat match type of H with
         | context [if negb ?b then _ else _] =>
             destruct b eqn:?; cbn [negb] in H
         end;
  injection H as <- <-.

(** X6.  [SpdmSetData] returns one of three statuses; unless it returns
    [RETURN_SUCCESS] the context is as before; and whatever it is given, it
    leaves the connection, the transcript, the session array and the error
    state alone.  So [SpdmGetData], which reads the connection, returns
    after the call what it returned before, for every data type but the
    response state. *)
Theorem set_data_frame (SpdmContext : SPDM_DEVICE_CONTEXT)
  (DataType : SPDM_DATA_TYPE) (Param : SPDM_DATA_PARAMETER) (Data : list byte) :
  let Status := fst (SpdmSetData SpdmContext DataType Param Data) in
  let SpdmContext' := snd (SpdmSetData SpdmContext DataType Param Data) in
  (Status = RETURN_SUCCESS \/ Status = RETURN_INVALID_PARAMETER \/
   Status = RETURN_UNSUPPORTED) /\
  (Status <> RETURN_SUCCESS -> SpdmContext' = SpdmContext) /\
  ConnectionInfo SpdmContext' = ConnectionInfo SpdmContext /\
  Transcript SpdmContext' = Transcript SpdmContext /\
  SessionInfo SpdmContext' = SessionInfo SpdmContext /\
  ErrorState SpdmContext' = ErrorState SpdmContext /\
  SpdmCmdReceiveState SpdmContext' = SpdmCmdReceiveState SpdmContext /\
  forall (Read : SPDM_DATA_TYPE) (ReadParam : SPDM_DATA_PARAMETER) (DataSize : nat),
    Read <> SpdmDataResponseState ->
    SpdmGetData SpdmContext' Read ReadParam DataSize
    = SpdmGetData SpdmContext Read ReadParam DataSize.
Proof.
  intros Status SpdmContext'. subst Status SpdmContext'.
  assert (Hread : forall c' : SPDM_DEVICE_CONTEXT,
    ConnectionInfo c' = ConnectionInfo SpdmContext ->
    forall (Read : SPDM_DATA_TYPE) (ReadParam : SPDM_DATA_PARAMETER) (DataSize : nat),
      Read <> SpdmDataResponseState ->
      SpdmGetData c' Read ReadParam DataSize
      = SpdmGetData SpdmContext Read ReadParam DataSize).
  { intros c' Hinfo Read ReadParam DataSize HRead.
    unfold SpdmGetData. cbn [NeedSessionInfoForData andb]. rewrite Hinfo.
    destruct Read; try reflexivity. done. }
  destruct (SpdmSetData SpdmContext DataType Param Data) as [Status c'] eqn:Hset.
  cbn [fst snd].
  set_data_cases Hset.
  all: split; [tauto|].
  all: split; [first [reflexivity | intros Hne; exfalso; apply Hne; reflexivity]|].
  all: repeat (split; [reflexivity|]).
  all: apply Hread; reflexivity.
Qed.

(** X7.  [SpdmGetData] with a buffer that is too small reports the size it
    needs and copies nothing; called again with a buffer of that size it
    succeeds and fills it. *)
Theorem get_data_reports_needed_size (SpdmContext : SPDM_DEVICE_CONTEXT)
  (DataType : SPDM_DATA_TYPE) (Param : SPDM_DATA_PARAMETER)
  (DataSize Needed : nat) (Data : list byte) :
  SpdmGetData SpdmContext DataType Param DataSize
  = (RETURN_BUFFER_TOO_SMALL, Needed, Data) ->
  (DataSize < Needed)%nat /\ Data = [] /\
  exists Copied,
    SpdmGetData SpdmContext DataType Param Needed = (RETURN_SUCCESS, Needed, Copied) /\
    length Copied = Needed.
Proof.
  unfold SpdmGetData. cbn [NeedSessionInfoForData andb].
  destruct (IsDebugOnlyData DataType); [discriminate|].
  destruct DataType; try discriminate.
  all: repeat match goal with
         | |- context [if decide ?P then _ else _] => destruct (decide P)
         end; try discriminate.
  all: intros [= <- <-]; try (exfalso; lia).
  all: split; [assumption|]; split; [reflexivity|].
  all: eexists; split; [reflexivity | apply length_WriteLE].
Qed.

(** X8.  The response state is the one data item a caller reads back as set:
    after [SpdmSetData] of four bytes, [SpdmGetData] returns these four
    bytes, at every location and for every buffer of four bytes or more. *)
Theorem response_state_round_trip (SpdmContext : SPDM_DEVICE_CONTEXT)
  (Param ReadParam : SPDM_DATA_PARAMETER) (Data : list byte) (DataSize : nat) :
  length Data = 4%nat -> (4 <= DataSize)%nat ->
  fst (SpdmSetData SpdmContext SpdmDataResponseState Param Data) = RETURN_SUCCESS /\
  SpdmGetData (snd (SpdmSetData SpdmContext SpdmDataResponseState Param Data))
    SpdmDataResponseState ReadParam DataSize
  = (RETURN_SUCCESS, 4%nat, Data).
Proof.
  intros Hlen Hsize. unfold SpdmSetData, SpdmGetData.
  cbn [IsDebugOnlyData NeedSessionInfoForData andb].
  rewrite decide_True by done. cbn [fst snd set_ResponseState ResponseState].
  rewrite decide_False by lia. split; [reflexivity|].
  f_equal. rewrite <- Hlen. apply WriteLE_ReadLE.
Qed.

(** X9.  The bounds on the provisioned data hold for the context
    [SpdmInitContext] leaves and are kept by [SpdmSetData], whatever it is
    called with: the slot count never exceeds [MAX_SPDM_SLOT_COUNT], the
    PSK hint never [MAX_SPDM_PSK_HINT_LENGTH], and the certificate array
    keeps its [MAX_SPDM_SLOT_COUNT] entries. *)
Theorem provision_stays_in_bounds (SpdmContext : SPDM_DEVICE_CONTEXT)
  (SessionCount : nat) (DataType : SPDM_DATA_TYPE) (Param : SPDM_DATA_PARAMETER)
  (Data : list byte) :
  0 <= MAX_SPDM_SLOT_COUNT -> 0 <= MAX_SPDM_PSK_HINT_LENGTH ->
  LocalProvisionInBounds (SpdmInitContext SessionCount) /\
  (LocalProvisionInBounds SpdmContext ->
   LocalProvisionInBounds (snd (SpdmSetData SpdmContext DataType Param Data))).
Proof.
  intros Hslot Hpsk. split.
  { unfold LocalProvisionInBounds. simpl. rewrite length_replicate. lia. }
  unfold LocalProvisionInBounds. intros (HS & HP & HC).
  pose proof (ReadLE_nonneg Data) as Hpos.
  destruct (SpdmSetData SpdmContext DataType Param Data) as [Status c'] eqn:Hset.
  cbn [fst snd].
  set_data_cases Hset.
  all: simpl; try rewrite length_insert; repeat split; lia.
Qed.

(** X10.  A certificate chain can be provisioned only for a slot below the slot
    count, so never before a slot count is set; once it is provisioned,
    the digest [SpdmGenerateCertChainHash] reports for the slot is the
    digest of this chain, and the chains of the other slots are as
    before. *)
Theorem provisioned_chain_is_hashed (SpdmContext : SPDM_DEVICE_CONTEXT)
  `{Crypt : SpdmCryptLib} (Param : SPDM_DATA_PARAMETER) (Data : list byte) :
  LocalProvisionInBounds SpdmContext ->
  let SlotNum := AdditionalDataAt Param 0 in
  let Status := fst (SpdmSetData SpdmContext SpdmDataPublicCertChains Param Data) in
  let SpdmContext' := snd (SpdmSetData SpdmContext SpdmDataPublicCertChains Param Data) in
  (Status = RETURN_SUCCESS <-> SlotNum < SlotCount (LocalContext SpdmContext)) /\
  (Status = RETURN_SUCCESS ->
   SpdmGenerateCertChainHash SpdmContext' SlotNum
   = SpdmHashAll (NegotiatedHashAlgo SpdmContext) Data /\
   forall Other, 0 <= Other -> Other <> SlotNum ->
     LocalCertificateChain SpdmContext' Other
     = LocalCertificateChain SpdmContext Other).
Proof.
  intros (HS & HP & HC) SlotNum Status SpdmContext'.
  subst Status SpdmContext'. unfold SpdmSetData.
  cbn [IsDebugOnlyData NeedSessionInfoForData andb]. fold SlotNum.
  pose proof (byte_to_Z_range (nth 0 (AdditionalData Param) x00)) as Hrange.
  fold (AdditionalDataAt Param 0) in Hrange. fold SlotNum in Hrange.
  destruct (decide (SlotCount (LocalContext SpdmContext) <= SlotNum)) as [Hge|Hlt];
    cbn [fst snd].
  { split; [split; [discriminate | lia] | discriminate]. }
  split; [split; [lia | reflexivity]|]. intros _.
  unfold SpdmGenerateCertChainHash, LocalCertificateChain, NegotiatedHashAlgo.
  cbn [LocalContext set_LocalContext CertificateChain set_CertificateChain
       ConnectionInfo].
  split.
  - f_equal. apply nth_lookup_Some with (d := []).
    apply list_lookup_insert_eq. lia.
  - intros Other HOther Hne.
    destruct (decide (Z.to_nat Other < length (CertificateChain (LocalContext SpdmContext)))%nat)
      as [Hin|Hout].
    + destruct (lookup_lt_is_Some_2 _ _ Hin) as [Chain HChain].
      rewrite (nth_lookup_Some _ _ [] Chain HChain).
      apply nth_lookup_Some. rewrite list_lookup_insert_ne by lia. done.
    + rewrite !nth_overflow; [done | lia | rewrite length_insert; lia].
Qed.

End DataApiFacts.

(** ** Transcript hashes and HMACs of the session handshake *)

Lemma CompareMem_take (Calc : list byte) (Size : nat) :
  CompareMem Calc (take Size Calc) Size = 0 /\
  CompareMem (take Size Calc) Calc Size = 0.
Proof.
  unfold CompareMem. rewrite take_take, Nat.min_id.
  by rewrite !bool_decide_eq_true_2.
Qed.

Lemma CompareMem_zero (a b : list byte) (Size : nat) :
  CompareMem a b Size = 0 <-> take Size a = take Size b.
Proof.
  unfold CompareMem. case_bool_decide; split; try done; lia.
Qed.

Section HandshakeFacts.
Context `{Config : SpdmLibConfig} `{Crypt : SpdmCryptLib}
        `{CryptSession : SpdmCryptLibSession}.

(** The two transcript hashes read of a context and a session only the
    negotiated hash algorithm and the bytes of the ledgers A, K and F. *)
Lemma SpdmCalculateTHCurrAK_ext (c1 c2 : SPDM_DEVICE_CONTEXT)
  (s1 s2 : SPDM_SESSION_INFO) (Cert : option (list byte)) :
  NegotiatedHashAlgo c1 = NegotiatedHashAlgo c2 ->
  Buffer (MessageA (Transcript c1)) = Buffer (MessageA (Transcript c2)) ->
  Buffer (MessageK (SessionTranscript s1)) = Buffer (MessageK (SessionTranscript s2)) ->
  SpdmCalculateTHCurrAK c1 s1 Cert = SpdmCalculateTHCurrAK c2 s2 Cert.
Proof.
  intros Hh HA HK. unfold SpdmCalculateTHCurrAK, GetManagedBuffer.
  by rewrite Hh, HA, HK.
Qed.

Lemma SpdmCalculateTHCurrAKF_ext (c1 c2 : SPDM_DEVICE_CONTEXT)
  (s1 s2 : SPDM_SESSION_INFO) (Cert MutCert : option (list byte)) :
  NegotiatedHashAlgo c1 = NegotiatedHashAlgo c2 ->
  Buffer (MessageA (Transcript c1)) = Buffer (MessageA (Transcript c2)) ->
  Buffer (MessageK (SessionTranscript s1)) = Buffer (MessageK (SessionTranscript s2)) ->
  Buffer (MessageF (SessionTranscript s1)) = Buffer (MessageF (SessionTranscript s2)) ->
  SpdmCalculateTHCurrAKF c1 s1 Cert MutCert = SpdmCalculateTHCurrAKF c2 s2 Cert MutCert.
Proof.
  intros Hh HA HK HF. unfold SpdmCalculateTHCurrAKF, GetManagedBuffer.
  by rewrite Hh, HA, HK, HF.
Qed.

Lemma length_CertTerm (SpdmContext : SPDM_DEVICE_CONTEXT) (Cert : option (list byte)) :
  length (CertTerm SpdmContext Cert)
  = match Cert with
    | Some _ => GetSpdmHashSize (NegotiatedHashAlgo SpdmContext)
    | None => 0%nat
    end.
Proof. destruct Cert; simpl; [apply SpdmHashAll_size | done]. Qed.

(** X11.  TH for FINISH.  [SpdmCalculateTHCurrAKF] succeeds exactly when the
    concatenation fits the TH buffer, and then TH is A, the digest of the
    certificate, K, the digest of the mutual-authentication certificate
    and F, in this order; a certificate that is not handed over
    contributes no byte.  It is the TH of [SpdmCalculateTHCurrAK] followed
    by the mutual-authentication digest and F. *)
Theorem th_for_finish (SpdmContext : SPDM_DEVICE_CONTEXT)
  (Session : SPDM_SESSION_INFO) (Cert MutCert : option (list byte)) :
  let A := Buffer (MessageA (Transcript SpdmContext)) in
  let K := Buffer (MessageK (SessionTranscript Session)) in
  let F := Buffer (MessageF (SessionTranscript Session)) in
  let TH := A ++ CertTerm SpdmContext Cert ++ K ++ CertTerm SpdmContext MutCert ++ F in
  let AKF := SpdmCalculateTHCurrAKF SpdmContext Session Cert MutCert in
  let AK := SpdmCalculateTHCurrAK SpdmContext Session Cert in
  (fst AKF = true <-> Z.of_nat (length TH) <= MAX_SPDM_MESSAGE_BUFFER_SIZE) /\
  (fst AKF = true ->
   GetManagedBuffer (snd AKF) = TH /\
   fst AK = true /\
   GetManagedBuffer (snd AKF)
   = GetManagedBuffer (snd AK) ++ CertTerm SpdmContext MutCert ++ F).
Proof.
  intros A K F TH AKF AK. subst AKF AK.
  assert (HAK : Z.of_nat (length (A ++ CertTerm SpdmContext Cert ++ K))
                <= MAX_SPDM_MESSAGE_BUFFER_SIZE ->
                SpdmCalculateTHCurrAK SpdmContext Session Cert
                = (true, {| MaxBufferSize := MAX_SPDM_MESSAGE_BUFFER_SIZE;
                            Buffer := A ++ CertTerm SpdmContext Cert ++ K |})).
  { apply SpdmCalculateTHCurrAK_fits. }
  pose proof (length_CertTerm SpdmContext Cert) as HLC.
  pose proof (length_CertTerm SpdmContext MutCert) as HLM.
  assert (Hlen : length TH = (length A + length (CertTerm SpdmContext Cert) + length K
                              + length (CertTerm SpdmContext MutCert) + length F)%nat).
  { subst TH. rewrite !length_app. lia. }
  assert (Hcalc :
    (SpdmCalculateTHCurrAKF SpdmContext Session Cert MutCert
     = (true, {| MaxBufferSize := MAX_SPDM_MESSAGE_BUFFER_SIZE; Buffer := TH |}) /\
     Z.of_nat (length TH) <= MAX_SPDM_MESSAGE_BUFFER_SIZE)
    \/ (fst (SpdmCalculateTHCurrAKF SpdmContext Session Cert MutCert) = false /\
        MAX_SPDM_MESSAGE_BUFFER_SIZE < Z.of_nat (length TH))).
  { rewrite Hlen. clear HAK. subst TH.
    unfold SpdmCalculateTHCurrAKF, AppendManagedBuffer, GetManagedBufferSize,
      GetManagedBuffer, InitManagedBuffer.
    fold A K F.
    destruct Cert as [Cert|], MutCert as [MutCert|];
      cbn [CertTerm length] in *;
      cbn [Buffer MaxBufferSize RETURN_ERROR fst snd length app];
      repeat (case_decide;
              cbn [Buffer MaxBufferSize RETURN_ERROR fst snd length app]);
      rewrite ?length_app, ?length_take, ?SpdmHashAll_size, ?Nat.min_id in *;
      rewrite ?take_ge by (rewrite SpdmHashAll_size; lia);
      try (right; split; [reflexivity | lia]);
      left; (split; [|lia]); f_equal; f_equal; by rewrite <- ?app_assoc. }
  destruct Hcalc as [[-> Hfit] | [Hfalse Hover]]; cbn [fst snd GetManagedBuffer Buffer].
  - split; [done|]. intros _. split; [reflexivity|].
    rewrite HAK.
    + cbn [fst snd Buffer GetManagedBuffer]. split; [reflexivity|]. subst TH.
      by rewrite <- !app_assoc.
    + rewrite Hlen in Hfit. rewrite !length_app. lia.
  - rewrite Hfalse. split; [split; [discriminate | lia] | discriminate].
Qed.

(** A stored HMAC of [HashSize] bytes and the check against it. *)
Lemma stored_hmac_accepted (Calc Other : list byte) (Size : nat) :
  (if decide (CompareMem Calc (take Size Calc) Size <> 0) then false else true) = true /\
  (if decide (CompareMem (take Size Calc) Calc Size <> 0) then false else true) = true /\
  ((if decide (CompareMem Calc Other Size <> 0) then false else true) = true ->
   take Size Other = take Size Calc) /\
  ((if decide (CompareMem Other Calc Size <> 0) then false else true) = true ->
   take Size Other = take Size Calc).
Proof.
  destruct (CompareMem_take Calc Size) as [H1 H2].
  rewrite !decide_False by lia.
  repeat split.
  - case_decide; [discriminate|]. intros _.
    symmetry. apply CompareMem_zero. lia.
  - case_decide; [discriminate|]. intros _.
    apply CompareMem_zero. lia.
Qed.

(** X12.  KEY_EXCHANGE_RSP.  When both ends share the handshake view and
    their certificate chains hold their headers, the HMAC
    [SpdmGenerateKeyExchangeRspHmac] produces on the responder passes
    [SpdmVerifyKeyExchangeRspHmac] on the requester, and the requester
    accepts no byte string that starts differently. *)
Theorem key_exchange_hmac_agrees (Requester Responder : SPDM_DEVICE_CONTEXT)
  (RequesterSession ResponderSession : SPDM_SESSION_INFO) (Hmac : list byte) :
  SameHandshakeView Requester Responder RequesterSession ResponderSession ->
  ChainsHoldHeader Requester ->
  ChainsHoldHeader Responder ->
  SpdmGenerateKeyExchangeRspHmac Responder ResponderSession = Some Hmac ->
  SpdmVerifyKeyExchangeRspHmac Requester RequesterSession Hmac = true /\
  forall Other,
    SpdmVerifyKeyExchangeRspHmac Requester RequesterSession Other = true ->
    take (GetSpdmHashSize (NegotiatedHashAlgo Requester)) Other = Hmac.
Proof.
  intros (Hh & HA & HK & HF & HS & HM & HPeer & HMut) _ _.
  unfold SpdmGenerateKeyExchangeRspHmac, SpdmVerifyKeyExchangeRspHmac.
  rewrite HPeer, HS, Hh.
  destruct (LocalUsedCert Responder) as [Cert|]; [|discriminate].
  rewrite (SpdmCalculateTHCurrAK_ext Requester Responder RequesterSession
             ResponderSession (Some Cert) Hh HA HK).
  destruct (SpdmCalculateTHCurrAK Responder ResponderSession (Some Cert))
    as [[|] THCurr]; cbn [negb]; [|discriminate].
  intros [= <-].
  match goal with
  | |- context [CompareMem ?c _ ?n] =>
      destruct (stored_hmac_accepted c (take n c) n) as (H1 & _ & _ & _);
      split; [exact H1|];
      intros Other HOther;
      destruct (stored_hmac_accepted c Other n) as (_ & _ & H3 & _);
      exact (H3 HOther)
  end.
Qed.

(** X13.  FINISH.  When both ends share the handshake view and their
    certificate chains hold their headers, the HMAC of
    [SpdmGenerateFinishReqHmac] on the requester passes
    [SpdmVerifyFinishReqHmac] on the responder, and the HMAC of
    [SpdmGenerateFinishRspHmac] on the responder passes
    [SpdmVerifyFinishRspHmac] on the requester, with and without mutual
    authentication; neither verifier accepts a byte string that starts
    differently. *)
Theorem finish_hmacs_agree (Requester Responder : SPDM_DEVICE_CONTEXT)
  (RequesterSession ResponderSession : SPDM_SESSION_INFO) :
  SameHandshakeView Requester Responder RequesterSession ResponderSession ->
  ChainsHoldHeader Requester ->
  ChainsHoldHeader Responder ->
  let HashSize := GetSpdmHashSize (NegotiatedHashAlgo Requester) in
  (forall Hmac,
     SpdmGenerateFinishReqHmac Requester RequesterSession = Some Hmac ->
     SpdmVerifyFinishReqHmac Responder ResponderSession Hmac = true /\
     forall Other,
       SpdmVerifyFinishReqHmac Responder ResponderSession Other = true ->
       take HashSize Other = Hmac) /\
  (forall Hmac,
     SpdmGenerateFinishRspHmac Responder ResponderSession = Some Hmac ->
     SpdmVerifyFinishRspHmac Requester RequesterSession Hmac = true /\
     forall Other,
       SpdmVerifyFinishRspHmac Requester RequesterSession Other = true ->
       take HashSize Other = Hmac).
Proof.
  intros (Hh & HA & HK & HF & HS & HM & HPeer & HMut) _ _ HashSize. subst HashSize.
  assert (HWhen : WhenMutAuth RequesterSession (LocalUsedCert Requester)
                  = WhenMutAuth ResponderSession (PeerCert Responder)).
  { unfold WhenMutAuth. rewrite <- HM.
    case_bool_decide as Hreq; [|done]. by rewrite (HMut Hreq). }
  split; intros Hmac.
  - unfold SpdmGenerateFinishReqHmac, SpdmVerifyFinishReqHmac.
    rewrite HPeer, HS, Hh, HWhen.
    destruct (LocalUsedCert Responder) as [Cert|]; [|discriminate].
    destruct (WhenMutAuth ResponderSession (PeerCert Responder)) as [MutCert|];
      [|discriminate].
    rewrite (SpdmCalculateTHCurrAKF_ext Requester Responder RequesterSession
               ResponderSession (Some Cert) MutCert Hh HA HK HF).
    destruct (SpdmCalculateTHCurrAKF Responder ResponderSession (Some Cert) MutCert)
      as [[|] THCurr]; cbn [negb]; [|discriminate].
    intros [= <-].
    match goal with
    | |- context [CompareMem _ ?c ?n] =>
        destruct (stored_hmac_accepted c (take n c) n) as (_ & H2 & _ & _);
        split; [exact H2|];
        intros Other HOther;
        destruct (stored_hmac_accepted c Other n) as (_ & _ & _ & H4);
        exact (H4 HOther)
    end.
  - unfold SpdmGenerateFinishRspHmac, SpdmVerifyFinishRspHmac.
    rewrite HPeer, HS, Hh, HWhen.
    destruct (LocalUsedCert Responder) as [Cert|]; [|discriminate].
    destruct (WhenMutAuth ResponderSession (PeerCert Responder)) as [MutCert|];
      [|discriminate].
    rewrite (SpdmCalculateTHCurrAKF_ext Requester Responder RequesterSession
               ResponderSession (Some Cert) MutCert Hh HA HK HF).
    destruct (SpdmCalculateTHCurrAKF Responder ResponderSession (Some Cert) MutCert)
      as [[|] THCurr]; cbn [negb]; [|discriminate].
    intros [= <-].
    match goal with
    | |- context [CompareMem ?c _ ?n] =>
        destruct (stored_hmac_accepted c (take n c) n) as (H1 & _ & _ & _);
        split; [exact H1|];
        intros Other HOther;
        destruct (stored_hmac_accepted c Other n) as (_ & _ & H3 & _);
        exact (H3 HOther)
    end.
Qed.

(** X14.  PSK_EXCHANGE_RSP and PSK_FINISH.  The two HMACs of a PSK session read
    no certificate at all: when the ends agree on the negotiated hash, on
    the ledgers A, K and F and on the session keys, the HMAC of
    [SpdmGeneratePskExchangeRspHmac] passes [SpdmVerifyPskExchangeRspHmac]
    and the HMAC of [SpdmGeneratePskFinishReqHmac] passes
    [SpdmVerifyPskFinishReqHmac], whatever certificate chains the two
    contexts hold. *)
Theorem psk_hmacs_agree (Requester Responder : SPDM_DEVICE_CONTEXT)
  (RequesterSession ResponderSession : SPDM_SESSION_INFO) :
  NegotiatedHashAlgo Requester = NegotiatedHashAlgo Responder ->
  Buffer (MessageA (Transcript Requester)) = Buffer (MessageA (Transcript Responder)) ->
  Buffer (MessageK (SessionTranscript RequesterSession))
  = Buffer (MessageK (SessionTranscript ResponderSession)) ->
  Buffer (MessageF (SessionTranscript RequesterSession))
  = Buffer (MessageF (SessionTranscript ResponderSession)) ->
  SecuredMessageContext RequesterSession = SecuredMessageContext ResponderSession ->
  (forall Hmac,
     SpdmGeneratePskExchangeRspHmac Responder ResponderSession = Some Hmac ->
     SpdmVerifyPskExchangeRspHmac Requester RequesterSession Hmac = true) /\
  (forall Hmac,
     SpdmGeneratePskFinishReqHmac Requester RequesterSession = Some Hmac ->
     SpdmVerifyPskFinishReqHmac Responder ResponderSession Hmac = true).
Proof.
  intros Hh HA HK HF HS. split; intros Hmac.
  - unfold SpdmGeneratePskExchangeRspHmac, SpdmVerifyPskExchangeRspHmac.
    rewrite HS, Hh.
    rewrite (SpdmCalculateTHCurrAK_ext Requester Responder RequesterSession
               ResponderSession None Hh HA HK).
    destruct (SpdmCalculateTHCurrAK Responder ResponderSession None)
      as [[|] THCurr]; cbn [negb]; [|discriminate].
    intros [= <-].
    match goal with
    | |- context [CompareMem ?c _ ?n] =>
        by destruct (stored_hmac_accepted c (take n c) n) as (H1 & _ & _ & _)
    end.
  - unfold SpdmGeneratePskFinishReqHmac, SpdmVerifyPskFinishReqHmac.
    rewrite HS, Hh.
    rewrite (SpdmCalculateTHCurrAKF_ext Requester Responder RequesterSession
               ResponderSession None None Hh HA HK HF).
    destruct (SpdmCalculateTHCurrAKF Responder ResponderSession None None)
      as [[|] THCurr]; cbn [negb]; [|discriminate].
    intros [= <-].
    match goal with
    | |- context [CompareMem _ ?c ?n] =>
        by destruct (stored_hmac_accepted c (take n c) n) as (_ & H2 & _ & _)
    end.
Qed.

End HandshakeFacts.

(** ** Certificates and measurements *)

Section CertificateFacts.
Context `{Config : SpdmLibConfig} `{Crypt : SpdmCryptLib}
        `{CryptSession : SpdmCryptLibSession}.

(** X15.  [SpdmVerifyCertificateChain] on a chain that fits
    [PeerCertChainBuffer] (and holds its header where the root hash behind
    it is read): the call returns, and it returns [TRUE] exactly when the
    chain passes the check of its own data and, when a root hash is
    provisioned, carries this hash behind its header (the provisioned
    chain is then not looked at); else, when a chain is provisioned, is
    this chain byte for byte; else nothing more is asked of it.  A chain
    that fails leaves the context as it was.  A chain that passes is
    copied to [PeerCertChainBuffer] and nothing else changes; unless it is
    empty it is then the peer chain of the connection, and its digest
    passes [SpdmVerifyCertificateChainHash]. *)
Theorem accepted_chain_becomes_peer_chain (SpdmContext : SPDM_DEVICE_CONTEXT)
  (CertificateChain : list byte) :
  let HashAlgo := NegotiatedHashAlgo SpdmContext in
  let RootCertHash := PeerRootCertHashProvision (LocalContext SpdmContext) in
  let CertBuffer := PeerCertChainProvision (LocalContext SpdmContext) in
  let Accepted :=
    SpdmVerifyCertificateChainData HashAlgo CertificateChain = true /\
    (RootCertHash <> [] ->
     length RootCertHash = GetSpdmHashSize HashAlgo /\
     take (GetSpdmHashSize HashAlgo) (drop sizeof_SPDM_CERT_CHAIN CertificateChain)
     = RootCertHash) /\
    (RootCertHash = [] -> CertBuffer <> [] -> CertificateChain = CertBuffer) in
  Z.of_nat (length CertificateChain) <= MAX_SPDM_CERT_CHAIN_SIZE ->
  (RootCertHash <> [] -> ChainHoldsHeader SpdmContext CertificateChain) ->
  exists Result,
    SpdmVerifyCertificateChain SpdmContext CertificateChain = Some Result /\
    (fst Result = true <-> Accepted) /\
    (fst Result = false -> snd Result = SpdmContext) /\
    (fst Result = true ->
     snd Result
     = set_ConnectionInfo (set_PeerCertChainBuffer CertificateChain) SpdmContext /\
     (CertificateChain <> [] ->
      PeerCertChain (snd Result) = Some CertificateChain /\
      SpdmVerifyCertificateChainHash (snd Result)
        (SpdmHashAll HashAlgo CertificateChain) = true)).
Proof.
  intros HashAlgo RootCertHash CertBuffer Accepted Hfits _.
  set (c' := set_ConnectionInfo (set_PeerCertChainBuffer CertificateChain) SpdmContext).
  assert (HP : CertificateChain <> [] -> PeerCertChain c' = Some CertificateChain).
  { intros Hne. unfold PeerCertChain. simpl.
    rewrite bool_decide_eq_false_2; [done|].
    intros Hz. by apply length_zero_iff_nil in Hz. }
  assert (HV : CertificateChain <> [] ->
               SpdmVerifyCertificateChainHash c' (SpdmHashAll HashAlgo CertificateChain)
               = true).
  { intros Hne. unfold SpdmVerifyCertificateChainHash. rewrite (HP Hne).
    unfold NegotiatedHashAlgo. simpl. fold (NegotiatedHashAlgo SpdmContext).
    fold HashAlgo. rewrite SpdmHashAll_size.
    by rewrite !bool_decide_eq_true_2. }
  assert (Hnil : forall l : list byte, length l = 0%nat <-> l = []).
  { intros l. apply length_zero_iff_nil. }
  assert (Hrefused : ~ Accepted ->
    exists Result,
      Some (false, SpdmContext) = Some Result /\
      (fst Result = true <-> Accepted) /\
      (fst Result = false -> snd Result = SpdmContext) /\
      (fst Result = true ->
       snd Result = c' /\
       (CertificateChain <> [] ->
        PeerCertChain (snd Result) = Some CertificateChain /\
        SpdmVerifyCertificateChainHash (snd Result)
          (SpdmHashAll HashAlgo CertificateChain) = true))).
  { intros Hno. exists (false, SpdmContext). cbn [fst snd].
    split; [reflexivity|]. split; [split; [discriminate | tauto]|].
    split; [done | discriminate]. }
  assert (Hpassed : Accepted ->
    exists Result,
      Some (true, c') = Some Result /\
      (fst Result = true <-> Accepted) /\
      (fst Result = false -> snd Result = SpdmContext) /\
      (fst Result = true ->
       snd Result = c' /\
       (CertificateChain <> [] ->
        PeerCertChain (snd Result) = Some CertificateChain /\
        SpdmVerifyCertificateChainHash (snd Result)
          (SpdmHashAll HashAlgo CertificateChain) = true))).
  { intros Hyes. exists (true, c'). cbn [fst snd].
    split; [reflexivity|]. split; [tauto|]. split; [discriminate|].
    intros _. split; [reflexivity|]. intros Hne. split; [by apply HP | by apply HV]. }
  unfold SpdmVerifyCertificateChain.
  fold HashAlgo RootCertHash CertBuffer c'.
  rewrite (decide_True (P := Z.of_nat (length CertificateChain)
                             <= MAX_SPDM_CERT_CHAIN_SIZE)) by exact Hfits.
  subst Accepted.
  destruct (SpdmVerifyCertificateChainData HashAlgo CertificateChain) eqn:Hdata;
    cbn [negb]; [|apply Hrefused; intros (Habs & _); discriminate Habs].
  case_bool_decide as HRoot; cbn [negb].
  - (* no root hash provisioned *)
    apply Hnil in HRoot.
    case_bool_decide as HProv; cbn [negb].
    + apply Hnil in HProv. apply Hpassed. repeat split; try done.
    + case_bool_decide as HLen; cbn [negb].
      * case_decide as HCmp.
        -- apply Hrefused. intros (_ & _ & Heq).
           apply HCmp, CompareMem_zero. rewrite (Heq HRoot); [done|].
           intros Hz. apply HProv. by apply Hnil.
        -- apply Hpassed. split; [done|]. split; [done|]. intros _ _.
           assert (HC : CompareMem CertificateChain CertBuffer
                          (length CertificateChain) = 0)
             by (destruct (decide (CompareMem CertificateChain CertBuffer
                                     (length CertificateChain) = 0)); [done | tauto]).
           apply CompareMem_zero in HC.
           rewrite firstn_all in HC. rewrite <- HLen in HC at 1.
           by rewrite firstn_all in HC.
      * apply Hrefused. intros (_ & _ & Heq). apply HLen.
        rewrite (Heq HRoot); [done|]. intros Hz. apply HProv. by apply Hnil.
  - (* a root hash is provisioned *)
    assert (HRoot' : RootCertHash <> []) by (intros Hz; apply HRoot; by apply Hnil).
    case_bool_decide as HLen; cbn [negb].
    + case_decide as HCmp.
      * apply Hrefused. intros (_ & Hroot & _). destruct (Hroot HRoot') as [_ Htake].
        apply HCmp, CompareMem_zero. rewrite Htake.
        rewrite <- HLen. by rewrite firstn_all.
      * apply Hpassed. split; [done|]. split; [|done]. intros _. split; [done|].
        assert (HC : CompareMem (drop sizeof_SPDM_CERT_CHAIN CertificateChain)
                       RootCertHash (GetSpdmHashSize HashAlgo) = 0)
          by (destruct (decide (CompareMem (drop sizeof_SPDM_CERT_CHAIN CertificateChain)
                                  RootCertHash (GetSpdmHashSize HashAlgo) = 0));
              [done | tauto]).
        apply CompareMem_zero in HC.
        rewrite <- HLen in HC at 2. by rewrite firstn_all in HC.
    + apply Hrefused. intros (_ & Hroot & _). by destruct (Hroot HRoot') as [Hlen' _].
Qed.

(** X16.  [SpdmVerifyDigest]: when no peer chain is provisioned every digest
    passes; when one is, a digest of the hash size passes exactly when it
    is the digest of the provisioned chain. *)
Theorem digest_checked_against_provision (SpdmContext : SPDM_DEVICE_CONTEXT)
  (Digest : list byte) :
  let CertBuffer := PeerCertChainProvision (LocalContext SpdmContext) in
  (CertBuffer = [] -> SpdmVerifyDigest SpdmContext Digest = true) /\
  (CertBuffer <> [] ->
   length Digest = GetSpdmHashSize (NegotiatedHashAlgo SpdmContext) ->
   (SpdmVerifyDigest SpdmContext Digest = true <->
    Digest = SpdmHashAll (NegotiatedHashAlgo SpdmContext) CertBuffer)).
Proof.
  intros CertBuffer. unfold SpdmVerifyDigest. fold CertBuffer. split.
  - intros ->. reflexivity.
  - intros Hne Hlen.
    rewrite bool_decide_eq_false_2
      by (intros Hz; by apply length_zero_iff_nil in Hz).
    cbn [negb].
    pose proof (SpdmHashAll_size (NegotiatedHashAlgo SpdmContext) CertBuffer) as HS.
    case_decide as HCmp.
    + split; [discriminate|]. intros ->. exfalso. apply HCmp.
      by apply CompareMem_zero.
    + split; [intros _ | done].
      assert (HC : CompareMem Digest (SpdmHashAll (NegotiatedHashAlgo SpdmContext)
                                        CertBuffer)
                     (GetSpdmHashSize (NegotiatedHashAlgo SpdmContext)) = 0)
        by (destruct (decide (CompareMem Digest
                                (SpdmHashAll (NegotiatedHashAlgo SpdmContext) CertBuffer)
                                (GetSpdmHashSize (NegotiatedHashAlgo SpdmContext)) = 0));
            [done | tauto]).
      apply CompareMem_zero in HC.
      rewrite <- Hlen in HC at 1. rewrite firstn_all in HC.
      rewrite <- HS in HC. by rewrite firstn_all in HC.
Qed.

End CertificateFacts.

(** ** The requester's CHALLENGE, continued *)

Section RequesterChallengeMore.
Context `{Config : SpdmLibConfig} `{Crypt : SpdmCryptLib} `{Io : SpdmRequesterIo}.

Lemma ChallengeAllowed_checks (SpdmContext : SPDM_DEVICE_CONTEXT) (SlotNum : Z) :
  ChallengeAllowed SpdmContext SlotNum <->
  (bool_decide (Z.land (SpdmCmdReceiveState SpdmContext)
                  SPDM_NEGOTIATE_ALGORITHMS_RECEIVE_FLAG = 0)
   || bool_decide (Z.land (SpdmCmdReceiveState SpdmContext)
                     SPDM_GET_CAPABILITIES_RECEIVE_FLAG = 0)
   || bool_decide (Z.land (SpdmCmdReceiveState SpdmContext)
                     SPDM_GET_DIGESTS_RECEIVE_FLAG = 0)) = false /\
  bool_decide (Z.land (Flags (Capability (ConnectionInfo SpdmContext)))
                 SPDM_GET_CAPABILITIES_RESPONSE_FLAGS_CHAL_CAP = 0) = false /\
  (bool_decide (MAX_SPDM_SLOT_COUNT <= SlotNum) && bool_decide (SlotNum <> 0xFF)) = false /\
  (bool_decide (SlotNum = 0xFF)
   && bool_decide (length (PeerCertChainProvision (LocalContext SpdmContext)) = 0%nat))
  = false.
Proof.
  unfold ChallengeAllowed.
  rewrite !orb_false_iff, !andb_false_iff, !bool_decide_eq_false.
  rewrite length_zero_iff_nil.
  split.
  - intros (H1 & H2 & H3 & H4 & H5 & H6). repeat split; try done.
    + destruct (decide (SlotNum = 0xFF)); [right; tauto | left; lia].
    + destruct (decide (SlotNum = 0xFF)); [right; tauto | left; done].
  - intros (((H1 & H2) & H3) & H4 & H5 & H6). repeat split; try done.
    + destruct (decide (SlotNum = 0xFF)); [by right | left].
      destruct H5 as [H5|H5]; [lia | tauto].
    + intros ->. destruct H6 as [H6|H6]; [done | exact H6].
Qed.

(** X17.  [TrySpdmChallenge] refuses before it does anything: when the context
    or the slot argument does not allow the challenge, nothing is sent,
    the context is returned as it was, and the status is
    [RETURN_DEVICE_ERROR] or [RETURN_INVALID_PARAMETER]. *)
Theorem challenge_refused_before_any_message (SpdmContext : SPDM_DEVICE_CONTEXT)
  (SlotNum MeasurementHashType : Z) (Nonce : list byte) :
  let Result := TrySpdmChallenge SpdmContext SlotNum MeasurementHashType Nonce in
  ~ ChallengeAllowed SpdmContext SlotNum ->
  ResultTrace Result = [] /\ ResultContext Result = SpdmContext /\
  ResultMeasurementHash Result = [] /\
  (ResultStatus Result = RETURN_DEVICE_ERROR \/
   ResultStatus Result = RETURN_INVALID_PARAMETER).
Proof.
  intros Result Hnot. subst Result.
  apply TrySpdmChallenge_wp. unfold TrySpdmChallengeBody.
  repeat wp_step.
  all: try (cbn [ChallengeResult ResultStatus ResultTrace ResultContext
                   ResultMeasurementHash ExecTrace ExecContext]; by auto).
  all: exfalso; apply Hnot; apply ChallengeAllowed_checks; auto.
Qed.

(** X18.  A run that is allowed starts by sending one CHALLENGE request of 36
    bytes: the version 1.1 if the connection supports it, else 1.0, the
    code 0x83, the slot and the summary hash type as given, and the nonce.
    No second request is sent by the same run. *)
Theorem challenge_request_format (SpdmContext : SPDM_DEVICE_CONTEXT)
  (SlotNum MeasurementHashType : Z) (Nonce : list byte) :
  let Result := TrySpdmChallenge SpdmContext SlotNum MeasurementHashType Nonce in
  ChallengeAllowed SpdmContext SlotNum ->
  exists Request Rest,
    ResultTrace Result = EventSendRequest Request :: Rest /\
    SentRequests (ResultTrace Result) = 1%nat /\
    length Request = sizeof_SPDM_CHALLENGE_REQUEST /\
    take 1 Request
    = [Z_to_byte (if SpdmIsVersionSupported SpdmContext SPDM_MESSAGE_VERSION_11
                  then SPDM_MESSAGE_VERSION_11 else SPDM_MESSAGE_VERSION_10)] /\
    HeaderCode Request = SPDM_CHALLENGE /\
    HeaderParam1 Request = SlotNum mod 256 /\
    HeaderParam2 Request = MeasurementHashType mod 256 /\
    drop sizeof_SPDM_MESSAGE_HEADER Request = Field SPDM_NONCE_SIZE Nonce.
Proof.
  intros Result Hallowed. subst Result.
  apply ChallengeAllowed_checks in Hallowed.
  destruct Hallowed as (A1 & A2 & A3 & A4).
  apply TrySpdmChallenge_wp. unfold TrySpdmChallengeBody.
  repeat wp_step.
  all: try congruence.
  all: cbn [ChallengeResult ResultStatus ResultTrace ResultContext
              ResultMeasurementHash ExecTrace ExecContext app].
  all: eexists _, _; split; [reflexivity|].
  all: split; [reflexivity|].
  all: split; [cbn [length app MessageHeader]; rewrite length_Field; reflexivity|].
  all: split; [reflexivity|].
  all: unfold HeaderCode, HeaderParam1, HeaderParam2, MessageHeader;
       cbn [nth app drop sizeof_SPDM_MESSAGE_HEADER];
       rewrite !byte_to_Z_to_byte; done.
Qed.


Lemma land_lor_flag (State Flag : Z) : Z.land (Z.lor State Flag) Flag = Flag.
Proof.
  apply Z.bits_inj'. intros n _.
  rewrite Z.land_spec, Z.lor_spec.
  destruct (Z.testbit State n), (Z.testbit Flag n); reflexivity.
Qed.

Ltac context_cbn :=
  cbn [fst snd ChallengeResult ResultStatus ResultTrace ResultContext
       ResultMeasurementHash ExecTrace ExecContext
       ErrorState ConnectionInfo SpdmCmdReceiveState LocalContext SessionInfo
       Transcript ConnectionState
       set_Transcript set_ErrorState set_ConnectionInfo set_SpdmCmdReceiveState
       set_ConnectionState] in *.

Ltac handler_or_encap_ran H :=
  exfalso; apply H; unfold HandlerOrEncapRan, HandlerRan; cbn [app In];
  solve [tauto | left; tauto | right; eexists; eauto 10 | eexists; eauto 10].

(** X20.  What the status of [TrySpdmChallenge] says about the context.  On
    [RETURN_SUCCESS] the connection is authenticated and the CHALLENGE flag
    is set (and the error state is success, unless the encapsulated
    dialogue wrote it).  On any other status the connection, the received
    flags, the local provision and the sessions are those before the call;
    [RETURN_SECURITY_VIOLATION] comes with the error state certificate
    failure and a [RETURN_DEVICE_ERROR] after the request went out with the
    error state no-capabilities (on the paths that did not hand the context
    to the error handler or the encapsulated dialogue). *)
Theorem challenge_status_and_context (SpdmContext : SPDM_DEVICE_CONTEXT)
  (SlotNum MeasurementHashType : Z) (Nonce : list byte) :
  let Result := TrySpdmChallenge SpdmContext SlotNum MeasurementHashType Nonce in
  let Final := ResultContext Result in
  (ResultStatus Result = RETURN_SUCCESS ->
   ConnectionState (ConnectionInfo Final) = SpdmConnectionStateAuthenticated /\
   Z.land (SpdmCmdReceiveState Final) SPDM_CHALLENGE_RECEIVE_FLAG
   = SPDM_CHALLENGE_RECEIVE_FLAG /\
   (~ In EventEncapsulatedRequest (ResultTrace Result) ->
    ErrorState Final = SPDM_STATUS_SUCCESS)) /\
  (ResultStatus Result <> RETURN_SUCCESS ->
   ~ HandlerOrEncapRan (ResultTrace Result) ->
   ConnectionInfo Final = ConnectionInfo SpdmContext /\
   SpdmCmdReceiveState Final = SpdmCmdReceiveState SpdmContext /\
   LocalContext Final = LocalContext SpdmContext /\
   SessionInfo Final = SessionInfo SpdmContext) /\
  (ResultStatus Result = RETURN_SECURITY_VIOLATION ->
   ~ HandlerRan (ResultTrace Result) ->
   ErrorState Final = SPDM_STATUS_ERROR_CERTIFICATE_FAILURE) /\
  (ResultStatus Result = RETURN_DEVICE_ERROR ->
   ResultTrace Result <> [] ->
   ~ HandlerOrEncapRan (ResultTrace Result) ->
   ErrorState Final = SPDM_STATUS_ERROR_DEVICE_NO_CAPABILITIES).
Proof.
  intros Result Final. subst Final Result.
  apply TrySpdmChallenge_wp. unfold TrySpdmChallengeBody.
  repeat wp_step.
  all: context_cbn.
  all: split; [intros Hok; try discriminate Hok|].
  all: try (split; [reflexivity|];
            split; [apply land_lor_flag|];
            intros Hno; first [reflexivity | handler_or_encap_ran Hno]).
  all: try (exfalso; subst; discriminate).
  all: split; [intros Hne Hran;
               first [ by (exfalso; apply Hne)
                     | by repeat split
                     | handler_or_encap_ran Hran ]|].
  all: split; [intros Hsv Hran;
               first [ discriminate Hsv
                     | reflexivity
                     | handler_or_encap_ran Hran ]|].
  all: intros Hde Hsent Hran;
       first [ discriminate Hde
             | reflexivity
             | by (exfalso; apply Hsent)
             | handler_or_encap_ran Hran ].
Qed.

End RequesterChallengeMore.

Section RequesterChallengeVerified.
Context `{Config : SpdmLibConfig} `{Crypt : SpdmCryptLib} `{Io : SpdmRequesterIo}.

Lemma AppendUnchecked_fits (ManagedBuffer : MANAGED_BUFFER) (Data : list byte) :
  Z.of_nat (length (Buffer ManagedBuffer) + length Data) <= MaxBufferSize ManagedBuffer ->
  AppendUnchecked ManagedBuffer Data
  = {| MaxBufferSize := MaxBufferSize ManagedBuffer;
       Buffer := Buffer ManagedBuffer ++ Data |}.
Proof.
  intros Hfits. unfold AppendUnchecked, AppendManagedBuffer, GetManagedBufferSize.
  destruct (decide _); [lia | reflexivity].
Qed.

Lemma take_drop_Field (Size k n : nat) (Data : list byte) :
  (k + n <= length Data)%nat -> (length Data <= Size)%nat ->
  take n (drop k (Field Size Data)) = take n (drop k Data).
Proof.
  intros Hkn Hlen. unfold Field.
  rewrite take_app_ge by lia.
  rewrite drop_app_le by lia.
  rewrite take_app_le by (rewrite length_drop; lia).
  reflexivity.
Qed.

Lemma take_Field (Size n : nat) (Data : list byte) :
  (n <= length Data)%nat -> (length Data <= Size)%nat ->
  take n (Field Size Data) = take n Data.
Proof. intros Hn Hlen. by apply (take_drop_Field Size 0 n Data). Qed.

Lemma ReadUnaligned_Field (Size k n : nat) (Data : list byte) :
  (k + n <= length Data)%nat -> (length Data <= Size)%nat ->
  ReadUnaligned n k (Field Size Data) = ReadUnaligned n k Data.
Proof.
  intros Hkn Hlen. unfold ReadUnaligned. by rewrite take_drop_Field.
Qed.

Lemma SpdmVerifyChallengeAuthSignature_signed (Verified SpdmContext : SPDM_DEVICE_CONTEXT)
  (Signature : list byte) :
  ConnectionInfo Verified = ConnectionInfo SpdmContext ->
  LocalContext Verified = LocalContext SpdmContext ->
  SpdmVerifyChallengeAuthSignature Verified true Signature = true ->
  ResponderSigned SpdmContext (GetManagedBuffer (M1M2 (Transcript Verified))) Signature.
Proof.
  intros HC HL. unfold SpdmVerifyChallengeAuthSignature, ResponderSigned.
  unfold PeerCertChain, X509Part, NegotiatedHashAlgo. rewrite HC, HL.
  fold (NegotiatedHashAlgo SpdmContext). fold (PeerCertChain SpdmContext).
  destruct (PeerCertChain SpdmContext) as [Chain|]; [|discriminate].
  destruct (X509GetCertFromCertChain _ _) as [Cert|] eqn:HX; [|discriminate].
  destruct (SpdmAsymGetPublicKeyFromX509 _ _) as [Key|] eqn:HK; [|discriminate].
  intros HV. by exists Chain, Cert, Key.
Qed.

Lemma SpdmVerifyCertificateChainHash_ext (Verified SpdmContext : SPDM_DEVICE_CONTEXT)
  (Hash : list byte) :
  ConnectionInfo Verified = ConnectionInfo SpdmContext ->
  LocalContext Verified = LocalContext SpdmContext ->
  SpdmVerifyCertificateChainHash Verified Hash
  = SpdmVerifyCertificateChainHash SpdmContext Hash.
Proof.
  intros HC HL. unfold SpdmVerifyCertificateChainHash, PeerCertChain, NegotiatedHashAlgo.
  by rewrite HC, HL.
Qed.

(** The ledgers after the two appends to C and the three to M1M2 that
    [TrySpdmChallenge] makes, when C and M1M2 have the room. *)
Lemma challenge_ledgers_fit (T : SPDM_TRANSCRIPT) (Request Signed : list byte) :
  Z.of_nat (length (Buffer (MessageC T)) + length Request + length Signed)
  <= MaxBufferSize (MessageC T) ->
  Z.of_nat (length (Buffer (M1M2 T)) + length (Buffer (MessageA T))
            + length (Buffer (MessageB T)) + length (Buffer (MessageC T))
            + length Request + length Signed)
  <= MaxBufferSize (M1M2 T) ->
  Buffer
    (M1M2
       ((fun t =>
           let t := set_MessageC (AppendUnchecked (MessageC t) Signed) t in
           let t := set_M1M2 (AppendUnchecked (M1M2 t) (GetManagedBuffer (MessageA t))) t in
           let t := set_M1M2 (AppendUnchecked (M1M2 t) (GetManagedBuffer (MessageB t))) t in
           set_M1M2 (AppendUnchecked (M1M2 t) (GetManagedBuffer (MessageC t))) t)
          (set_MessageC (AppendUnchecked (MessageC T) Request) T)))
  = Buffer (M1M2 T) ++ Buffer (MessageA T) ++ Buffer (MessageB T)
    ++ Buffer (MessageC T) ++ Request ++ Signed.
Proof.
  intros HC HM. cbv beta zeta.
  cbn [set_MessageC set_M1M2 MessageA MessageB MessageC M1M2].
  unfold GetManagedBuffer.
  rewrite (AppendUnchecked_fits (MessageC T) Request) by lia.
  rewrite (AppendUnchecked_fits _ Signed)
    by (cbn [Buffer MaxBufferSize]; rewrite length_app; lia).
  cbn [Buffer MaxBufferSize].
  rewrite (AppendUnchecked_fits (M1M2 T)) by lia.
  rewrite (AppendUnchecked_fits _ (Buffer (MessageB T)))
    by (cbn [Buffer MaxBufferSize]; rewrite length_app; lia).
  cbn [Buffer MaxBufferSize].
  rewrite AppendUnchecked_fits
    by (cbn [Buffer MaxBufferSize]; rewrite !length_app; lia).
  cbn [Buffer]. by rewrite <- !app_assoc.
Qed.

(** X21.  A [RETURN_SUCCESS] of [TrySpdmChallenge] means that the response was
    checked: the run sent the request and received a response (no ERROR
    went through the error handler) that is long enough for its parts, the
    certificate chain hash in it is the digest of the peer chain, the
    measurement summary hash handed back is the one in it, and its
    signature verifies under the key of the leaf certificate over the
    digest of M1M2 followed by A, B, C, the request and the response
    without the signature.  The peer chain is assumed to hold its header;
    C and M1M2 are assumed to have the room for the appends, whose
    statuses the function drops. *)
Theorem challenge_success_means_verified (SpdmContext : SPDM_DEVICE_CONTEXT)
  (SlotNum MeasurementHashType : Z) (Nonce : list byte) :
  let Result := TrySpdmChallenge SpdmContext SlotNum MeasurementHashType Nonce in
  let T := Transcript SpdmContext in
  PeerChainHoldsHeader SpdmContext ->
  ResultStatus Result = RETURN_SUCCESS ->
  ~ HandlerRan (ResultTrace Result) ->
  Z.of_nat (length (Buffer (MessageC T)) + sizeof_SPDM_CHALLENGE_REQUEST
            + sizeof_SPDM_CHALLENGE_AUTH_RESPONSE_MAX)
  <= MaxBufferSize (MessageC T) ->
  Z.of_nat (length (Buffer (M1M2 T)) + length (Buffer (MessageA T))
            + length (Buffer (MessageB T)) + length (Buffer (MessageC T))
            + sizeof_SPDM_CHALLENGE_REQUEST + sizeof_SPDM_CHALLENGE_AUTH_RESPONSE_MAX)
  <= MaxBufferSize (M1M2 T) ->
  exists Request Response Rest,
    ResultTrace Result
    = EventSendRequest Request :: EventReceiveResponse Response :: Rest /\
    (AuthSignedSize SpdmContext Response + ContextAsymSize SpdmContext
     <= length Response)%nat /\
    SpdmVerifyCertificateChainHash SpdmContext (AuthCertChainHash SpdmContext Response)
    = true /\
    ResponderSigned SpdmContext
      (Buffer (M1M2 T) ++ Buffer (MessageA T) ++ Buffer (MessageB T)
       ++ Buffer (MessageC T) ++ Request
       ++ take (AuthSignedSize SpdmContext Response) Response)
      (AuthSignature SpdmContext Response) /\
    ResultMeasurementHash Result = AuthMeasurementSummaryHash SpdmContext Response.
Proof.
  intros Result T _. subst Result.
  apply TrySpdmChallenge_wp. unfold TrySpdmChallengeBody.
  repeat wp_step.
  all: cbn [fst snd ChallengeResult ResultStatus ResultTrace ResultContext
       ResultMeasurementHash ExecTrace ExecContext ExecMeasurementHash] in *.
  all: intros Hok Hran HcapC HcapM; try discriminate Hok.
  all: try (exfalso; subst; discriminate).
  all: try solve [exfalso; apply Hran; unfold HandlerRan; cbn [app In];
                  eexists; eauto 10].
  all: set (Request := MessageHeader _ _ _ _ ++ Field _ _) in *.
  all: assert (HRequest : length Request = sizeof_SPDM_CHALLENGE_REQUEST)
         by (subst Request; cbn [length app MessageHeader];
             rewrite length_Field; reflexivity).
  all: unfold AuthSignedSize, AuthOpaqueLength, AuthSignature, AuthCertChainHash,
         AuthMeasurementSummaryHash.
  all: unfold ContextHashSize, ContextAsymSize, NegotiatedHashAlgo in *.
  all: cbn [ConnectionInfo LocalContext set_Transcript set_ErrorState] in *.
  all: match goal with
       | Hmax : bool_decide (sizeof_SPDM_CHALLENGE_AUTH_RESPONSE_MAX < length ?l)%nat
                = false,
         Hfix : bool_decide (length ?l <= _)%nat = false,
         Hsize : bool_decide (length ?l < _ + _)%nat = false,
         Hcert : SpdmVerifyCertificateChainHash _ _ = true,
         Hsig : SpdmVerifyChallengeAuthSignature _ true _ = true |- _ =>
           apply bool_decide_eq_false in Hmax, Hfix, Hsize;
           unfold sizeof_SPDM_CHALLENGE_AUTH_RESPONSE, sizeof_SPDM_MESSAGE_HEADER,
             SPDM_NONCE_SIZE in *;
           exists Request, l; eexists;
           rewrite ReadUnaligned_Field in Hsize, Hsig by lia;
           rewrite Nat.add_sub in Hsig;
           rewrite take_drop_Field in Hcert by lia;
           rewrite take_drop_Field in Hsig by lia;
           rewrite take_Field in Hsig by lia;
           rewrite ?take_drop_Field by lia;
           split; [cbn [app]; reflexivity|];
           split; [lia|];
           split; [rewrite <- Hcert; symmetry;
                   by apply SpdmVerifyCertificateChainHash_ext|];
           split; [|reflexivity];
           apply SpdmVerifyChallengeAuthSignature_signed
             with (SpdmContext := SpdmContext) in Hsig; [|reflexivity|reflexivity];
           unfold GetManagedBuffer in Hsig;
           match type of Hsig with
           | ResponderSigned _ ?D _ =>
               match goal with
               | |- ResponderSigned _ ?E _ =>
                   assert (HD : D = E)
                     by (apply (challenge_ledgers_fit T Request);
                         rewrite ?length_take; lia)
               end
           end;
           rewrite HD in Hsig; exact Hsig
       end.
Qed.

End RequesterChallengeVerified.

(** ** The retry loop of [SpdmChallenge] *)

Section RetryFacts.
Context `{Config : SpdmLibConfig} `{Crypt : SpdmCryptLib} `{Io : SpdmRequesterIo}.

Lemma SentRequests_app (Trace1 Trace2 : list SPDM_EVENT) :
  SentRequests (Trace1 ++ Trace2) = (SentRequests Trace1 + SentRequests Trace2)%nat.
Proof. unfold SentRequests. by rewrite List.filter_app, length_app. Qed.

Lemma HandlerRan_app_r (Trace1 Trace2 : list SPDM_EVENT) :
  HandlerRan Trace2 -> HandlerRan (Trace1 ++ Trace2).
Proof. intros [R HR]. exists R. apply in_or_app. by right. Qed.

(** One call sends at most one request. *)
Lemma TrySpdmChallenge_sends_at_most_once (SpdmContext : SPDM_DEVICE_CONTEXT)
  (SlotNum MeasurementHashType : Z) (Nonce : list byte) :
  (SentRequests
     (ResultTrace (TrySpdmChallenge SpdmContext SlotNum MeasurementHashType Nonce))
   <= 1)%nat.
Proof.
  apply TrySpdmChallenge_wp. unfold TrySpdmChallengeBody.
  repeat wp_step.
  all: cbn [ChallengeResult ResultTrace ExecTrace app SentRequests List.filter
              IsSendRequest length]; lia.
Qed.

(** [RETURN_NO_RESPONSE] is a status of the error handler only: the call
    has then sent its request and handed an ERROR response to the handler,
    which returned this status. *)
Lemma TrySpdmChallenge_no_response (SpdmContext : SPDM_DEVICE_CONTEXT)
  (SlotNum MeasurementHashType : Z) (Nonce : list byte) :
  let Result := TrySpdmChallenge SpdmContext SlotNum MeasurementHashType Nonce in
  ResultStatus Result = RETURN_NO_RESPONSE ->
  SentRequests (ResultTrace Result) = 1%nat /\
  HandlerRan (ResultTrace Result) /\
  exists Context Response,
    (SpdmHandleErrorResponseMain Context Response).1.1 = RETURN_NO_RESPONSE.
Proof.
  intros Result. subst Result.
  apply TrySpdmChallenge_wp. unfold TrySpdmChallengeBody.
  repeat wp_step.
  all: cbn [ChallengeResult ResultStatus ResultTrace ExecTrace app].
  all: intros Hno; try discriminate Hno.
  all: split; [reflexivity|].
  all: split; [unfold HandlerRan; cbn [In]; eexists; eauto 10|].
  all: match goal with
       | H : SpdmHandleErrorResponseMain ?c ?r = _ |- _ =>
           exists c, r; by rewrite H
       end.
Qed.

Lemma SpdmChallengeLoop_sends (Retry : nat) :
  forall (Attempt : nat) (SpdmContext : SPDM_DEVICE_CONTEXT)
         (SlotNum MeasurementHashType : Z) (Nonce : nat -> list byte)
         (Trace : list SPDM_EVENT),
    let Result :=
      SpdmChallengeLoop Retry Attempt SpdmContext SlotNum MeasurementHashType
        Nonce Trace in
    (SentRequests (ResultTrace Result) <= SentRequests Trace + Retry + 1)%nat /\
    (ResultStatus Result = RETURN_NO_RESPONSE ->
     SentRequests (ResultTrace Result) = (SentRequests Trace + Retry + 1)%nat /\
     HandlerRan (ResultTrace Result)).
Proof.
  induction Retry as [|Retry IH]; intros Attempt SpdmContext SlotNum
    MeasurementHashType Nonce Trace; cbn [SpdmChallengeLoop].
  all: pose proof (TrySpdmChallenge_sends_at_most_once SpdmContext SlotNum
                     MeasurementHashType (Nonce Attempt)) as Hone.
  all: pose proof (TrySpdmChallenge_no_response SpdmContext SlotNum
                     MeasurementHashType (Nonce Attempt)) as Hno.
  all: cbv zeta in Hno.
  all: destruct (decide _) as [Hne|Heq]; cbn [ResultTrace ResultStatus].
  - rewrite SentRequests_app. split; [lia | intros Hs; by rewrite Hs in Hne].
  - rewrite SentRequests_app. split; [lia|]. intros Hs.
    destruct (Hno Hs) as (H1 & H2 & _). split; [lia | by apply HandlerRan_app_r].
  - rewrite SentRequests_app. split; [lia | intros Hs; by rewrite Hs in Hne].
  - assert (Hs : ResultStatus (TrySpdmChallenge SpdmContext SlotNum
                                 MeasurementHashType (Nonce Attempt))
                 = RETURN_NO_RESPONSE).
    { destruct (decide (RETURN_NO_RESPONSE
                        = ResultStatus (TrySpdmChallenge SpdmContext SlotNum
                                          MeasurementHashType (Nonce Attempt))));
        [done | tauto]. }
    destruct (Hno Hs) as (H1 & _).
    match goal with
    | |- context [SpdmChallengeLoop Retry ?a ?c ?s ?m ?n ?t] =>
        destruct (IH a c s m n t) as [IH1 IH2]
    end.
    rewrite SentRequests_app in IH1, IH2. split; [lia|].
    intros Hr. destruct (IH2 Hr) as [IH3 IH4]. split; [lia | exact IH4].
Qed.

(** X22.  [SpdmChallenge] sends at most [RetryTimes + 1] requests.  It returns
    [RETURN_NO_RESPONSE] only after all of them were sent and the error
    handler ran.  When the error handler never returns
    [RETURN_NO_RESPONSE], the operation is its first attempt. *)
Theorem challenge_retry_budget (SpdmContext : SPDM_DEVICE_CONTEXT)
  (SlotNum MeasurementHashType : Z) (Nonce : nat -> list byte) :
  let Result := SpdmChallenge SpdmContext SlotNum MeasurementHashType Nonce in
  let Budget := (Z.to_nat (RetryTimes SpdmContext) + 1)%nat in
  (SentRequests (ResultTrace Result) <= Budget)%nat /\
  (ResultStatus Result = RETURN_NO_RESPONSE ->
   SentRequests (ResultTrace Result) = Budget /\ HandlerRan (ResultTrace Result)) /\
  ((forall Context Response,
      (SpdmHandleErrorResponseMain Context Response).1.1 <> RETURN_NO_RESPONSE) ->
   Result = TrySpdmChallenge SpdmContext SlotNum MeasurementHashType (Nonce 0%nat)).
Proof.
  intros Result Budget. subst Result Budget. unfold SpdmChallenge.
  destruct (SpdmChallengeLoop_sends (Z.to_nat (RetryTimes SpdmContext)) 0 SpdmContext
              SlotNum MeasurementHashType Nonce []) as [Hle Hno].
  split; [exact Hle|]. split; [exact Hno|].
  intros Hnever.
  pose proof (TrySpdmChallenge_no_response SpdmContext SlotNum MeasurementHashType
                (Nonce 0%nat)) as Hfirst.
  cbv zeta in Hfirst.
  destruct (Z.to_nat (RetryTimes SpdmContext)); cbn [SpdmChallengeLoop].
  all: destruct (decide _) as [Hne|Heq];
       [| exfalso;
          assert (Hs : ResultStatus (TrySpdmChallenge SpdmContext SlotNum
                                       MeasurementHashType (Nonce 0%nat))
                       = RETURN_NO_RESPONSE)
            by (destruct (decide (RETURN_NO_RESPONSE
                                  = ResultStatus
                                      (TrySpdmChallenge SpdmContext SlotNum
                                         MeasurementHashType (Nonce 0%nat))));
                [done | tauto]);
          destruct (Hfirst Hs) as (_ & _ & c' & R & Hh); by apply (Hnever c' R)].
  all: cbn [app]; by destruct (TrySpdmChallenge _ _ _ _).
Qed.

End RetryFacts.

(** ** Measurement summary hashes *)

Lemma ReadLE_singleton (b : byte) : ReadLE [b] = byte_to_Z b.
Proof. simpl. lia. Qed.

Lemma ReadUnaligned_byte (Offset : nat) (Data : list byte) :
  (Offset < length Data)%nat ->
  ReadUnaligned 1 Offset Data = byte_to_Z (nth Offset Data x00).
Proof.
  unfold ReadUnaligned. revert Data.
  induction Offset as [|Offset IH]; intros [|b Data] Hlt; cbn [length] in Hlt; try lia.
  - cbn [drop take ReadLE nth]. rewrite take_0. cbn [ReadLE]. lia.
  - cbn [drop nth]. apply IH. lia.
Qed.

(** Reading inside a block that lies at [length Prefix] in a record. *)
Lemma drop_in_block (Prefix Block Rest : list byte) (k : nat) :
  (k <= length Block)%nat ->
  drop (length Prefix + k) (Prefix ++ Block ++ Rest) = drop k Block ++ Rest.
Proof.
  intros Hk. rewrite drop_app_ge by lia.
  replace (length Prefix + k - length Prefix)%nat with k by lia.
  by rewrite drop_app_le by lia.
Qed.

Lemma take_in_block (Prefix Block Rest : list byte) (k n : nat) :
  (k + n <= length Block)%nat ->
  take n (drop (length Prefix + k) (Prefix ++ Block ++ Rest)) = take n (drop k Block).
Proof.
  intros Hk. rewrite drop_in_block by lia.
  by rewrite take_app_le by (rewrite length_drop; lia).
Qed.

Lemma ReadUnaligned_in_block (Prefix Block Rest : list byte) (k n : nat) :
  (k + n <= length Block)%nat ->
  ReadUnaligned n (length Prefix + k) (Prefix ++ Block ++ Rest)
  = ReadUnaligned n k Block.
Proof. intros Hk. unfold ReadUnaligned. by rewrite take_in_block. Qed.

Lemma take_CopyMem_end (Destination Source : list byte) (Offset : nat) :
  (Offset <= length Destination)%nat ->
  take (Offset + length Source) (CopyMem Destination Offset Source)
  = take Offset Destination ++ Source.
Proof.
  intros Hle. unfold CopyMem. rewrite app_assoc.
  rewrite take_app_le by (rewrite length_app, length_take; lia).
  rewrite firstn_all2; [done|]. rewrite length_app, length_take. lia.
Qed.

Section MeasurementSummary.
Context `{Config : SpdmLibConfig} `{Crypt : SpdmCryptLib}.

(** The loop over the cached blocks gathers the digests of the selected
    blocks, in order, behind the digests gathered before. *)
Lemma CachedMeasurementLoop_blocks (Select : Z -> bool) (HashSize : nat)
  (Blocks : list (list byte)) :
  forall (Prefix Tail MeasurementData : list byte) (LocalIndex : nat),
    Forall (IsCachedBlock HashSize) Blocks ->
    (HashSize * (LocalIndex + length Blocks) <= length MeasurementData)%nat ->
    let Done :=
      CachedMeasurementLoop (length Blocks) Select HashSize
        (Prefix ++ concat Blocks ++ Tail) (length Prefix) MeasurementData LocalIndex in
    take (HashSize * Done.2) Done.1
    = take (HashSize * LocalIndex) MeasurementData
      ++ concat (map (drop sizeof_SPDM_MEASUREMENT_BLOCK_DMTF)
                   (List.filter (fun Block => Select (BlockValueType Block)) Blocks)).
Proof.
  induction Blocks as [|Block Blocks IH];
    intros Prefix Tail MeasurementData LocalIndex Hblocks Hroom.
  { cbn. by rewrite app_nil_r. }
  apply Forall_cons_1 in Hblocks. destruct Hblocks as [Hblock Hblocks].
  unfold IsCachedBlock, sizeof_SPDM_MEASUREMENT_BLOCK_DMTF in Hblock.
  cbn [length concat CachedMeasurementLoop List.filter].
  unfold sizeof_SPDM_MEASUREMENT_BLOCK_COMMON_HEADER,
    sizeof_SPDM_MEASUREMENT_BLOCK_DMTF in *.
  rewrite <- (app_assoc Block).
  rewrite (ReadUnaligned_in_block Prefix Block) by lia.
  rewrite (ReadUnaligned_byte 4 Block) by lia.
  change (byte_to_Z (nth 4 Block x00)) with (BlockValueType Block).
  rewrite (take_in_block Prefix Block) by lia.
  rewrite (firstn_all2 (drop (4 + 3) Block)) by (rewrite length_drop; lia).
  replace (length Prefix + (4 + 3 + HashSize))%nat with (length (Prefix ++ Block))
    by (rewrite length_app; lia).
  rewrite (app_assoc Prefix Block).
  cbn [length] in Hroom.
  destruct (Select (BlockValueType Block)).
  - rewrite IH; [|exact Hblocks|].
    2:{ etransitivity; [|apply length_CopyMem_ge]. lia. }
    cbn [map concat]. rewrite app_assoc. f_equal.
    replace (HashSize * S LocalIndex)%nat
      with (HashSize * LocalIndex + length (drop (4 + 3) Block))%nat
      by (rewrite length_drop; lia).
    apply take_CopyMem_end. lia.
  - rewrite IH; [done | exact Hblocks | lia].
Qed.

(** X23.  [CalculateMeasurementSummaryHash] of the responder library, on a
    measurement record that holds [DeviceMeasurementCount] cached blocks
    and with a local array that has the room for their digests: the
    TcbComponent summary is the digest of the digests of exactly the
    blocks whose value type is Immutable-ROM, in order; the All summary is
    the digest of all block digests.  The content of the uninitialised
    local array has no influence. *)
Theorem cached_summary_hash_of_selected_blocks (SpdmContext : SPDM_DEVICE_CONTEXT)
  (Blocks : list (list byte)) (Tail Stack : list byte) :
  let HashSize := ContextMeasurementHashSize SpdmContext in
  let Digests (Selected : list (list byte)) :=
    concat (map (drop sizeof_SPDM_MEASUREMENT_BLOCK_DMTF) Selected) in
  DeviceMeasurement (LocalContext SpdmContext) = concat Blocks ++ Tail ->
  DeviceMeasurementCount (LocalContext SpdmContext) = Z.of_nat (length Blocks) ->
  Forall (IsCachedBlock HashSize) Blocks ->
  (HashSize * length Blocks <= length Stack)%nat ->
  CalculateMeasurementSummaryHash SpdmContext
    SPDM_CHALLENGE_REQUEST_TCB_COMPONENT_MEASUREMENT_HASH Stack
  = Some (ContextMeasurementHashFunc SpdmContext
            (Digests
               (List.filter
                  (fun Block =>
                     bool_decide (BlockValueType Block
                                  = SPDM_MEASUREMENT_BLOCK_MEASUREMENT_TYPE_IMMUTABLE_ROM))
                  Blocks))) /\
  CalculateMeasurementSummaryHash SpdmContext
    SPDM_CHALLENGE_REQUEST_ALL_MEASUREMENTS_HASH Stack
  = Some (ContextMeasurementHashFunc SpdmContext (Digests Blocks)).
Proof.
  intros HashSize Digests HRecord HCount HBlocks HRoom.
  unfold CalculateMeasurementSummaryHash.
  rewrite HRecord, HCount, Nat2Z.id. fold HashSize.
  split.
  - destruct (decide (SPDM_CHALLENGE_REQUEST_TCB_COMPONENT_MEASUREMENT_HASH
                      = SPDM_CHALLENGE_REQUEST_NO_MEASUREMENT_SUMMARY_HASH));
      [discriminate|].
    destruct (decide (SPDM_CHALLENGE_REQUEST_TCB_COMPONENT_MEASUREMENT_HASH
                      = SPDM_CHALLENGE_REQUEST_TCB_COMPONENT_MEASUREMENT_HASH));
      [|done].
    pose proof (CachedMeasurementLoop_blocks
                  (fun ValueType =>
                     bool_decide (ValueType
                                  = SPDM_MEASUREMENT_BLOCK_MEASUREMENT_TYPE_IMMUTABLE_ROM))
                  HashSize Blocks [] Tail Stack 0 HBlocks) as HLoop.
    cbn [app length] in HLoop. cbv zeta in HLoop.
    destruct (CachedMeasurementLoop _ _ _ _ _ _ _) as [Data Index].
    cbn [fst snd] in HLoop. rewrite HLoop by lia.
    rewrite Nat.mul_0_r. cbn [take app]. reflexivity.
  - destruct (decide (SPDM_CHALLENGE_REQUEST_ALL_MEASUREMENTS_HASH
                      = SPDM_CHALLENGE_REQUEST_NO_MEASUREMENT_SUMMARY_HASH));
      [discriminate|].
    destruct (decide (SPDM_CHALLENGE_REQUEST_ALL_MEASUREMENTS_HASH
                      = SPDM_CHALLENGE_REQUEST_TCB_COMPONENT_MEASUREMENT_HASH));
      [discriminate|].
    destruct (decide (SPDM_CHALLENGE_REQUEST_ALL_MEASUREMENTS_HASH
                      = SPDM_CHALLENGE_REQUEST_ALL_MEASUREMENTS_HASH));
      [|done].
    pose proof (CachedMeasurementLoop_blocks (fun _ => true)
                  HashSize Blocks [] Tail Stack 0 HBlocks) as HLoop.
    cbn [app length] in HLoop. cbv zeta in HLoop.
    destruct (CachedMeasurementLoop _ _ _ _ _ _ _) as [Data Index].
    cbn [fst snd] in HLoop. rewrite HLoop by lia.
    rewrite Nat.mul_0_r. cbn [take app].
    assert (HF : List.filter (fun _ : list byte => true) Blocks = Blocks).
    { clear. induction Blocks as [|b bs IHb]; [done|]. cbn. by rewrite IHb. }
    by rewrite HF.
Qed.

(** With the type All the loop over the collected blocks gathers the
    bytes behind the common header of every block. *)
Lemma MeasurementCopyLoop_all (Blocks : list (list byte)) :
  forall (Prefix Tail MeasurementData : list byte) (MeasurmentDataSize : nat),
    Forall IsCollectedBlock Blocks ->
    (MeasurmentDataSize
     + length (concat (map (drop sizeof_SPDM_MEASUREMENT_BLOCK_COMMON_HEADER) Blocks))
     <= length MeasurementData)%nat ->
    let Done :=
      MeasurementCopyLoop (length Blocks) SPDM_CHALLENGE_REQUEST_ALL_MEASUREMENTS_HASH
        (Prefix ++ concat Blocks ++ Tail) (length Prefix)
        MeasurementData MeasurmentDataSize in
    take Done.2 Done.1
    = take MeasurmentDataSize MeasurementData
      ++ concat (map (drop sizeof_SPDM_MEASUREMENT_BLOCK_COMMON_HEADER) Blocks).
Proof.
  induction Blocks as [|Block Blocks IH];
    intros Prefix Tail MeasurementData MeasurmentDataSize Hblocks Hroom.
  { cbn. by rewrite app_nil_r. }
  apply Forall_cons_1 in Hblocks. destruct Hblocks as [[Hmin Hblock] Hblocks].
  cbn [length concat MeasurementCopyLoop map] in *.
  unfold sizeof_SPDM_MEASUREMENT_BLOCK_COMMON_HEADER in *.
  rewrite length_app, length_drop in Hroom.
  rewrite <- (app_assoc Block).
  rewrite (ReadUnaligned_in_block Prefix Block) by lia.
  rewrite bool_decide_eq_true_2 by reflexivity. cbn [orb].
  rewrite (take_in_block Prefix Block) by lia.
  rewrite (firstn_all2 (drop 4 Block)) by (rewrite length_drop; lia).
  replace (length Prefix + (4 + Z.to_nat (ReadUnaligned 2 2 Block)))%nat
    with (length (Prefix ++ Block)) by (rewrite length_app; lia).
  rewrite (app_assoc Prefix Block).
  rewrite IH; [|exact Hblocks|].
  2:{ etransitivity; [|apply length_CopyMem_ge]. lia. }
  rewrite app_assoc. f_equal.
  replace (Z.to_nat (ReadUnaligned 2 2 Block)) with (length (drop 4 Block))
    by (rewrite length_drop; lia).
  apply take_CopyMem_end. lia.
Qed.

(** X24.  [SpdmGenerateMeasurementSummaryHash] with the type All, on a record
    of well-formed collected blocks and with a local array that has the
    room: the summary is the digest of the bytes behind the common header
    of all blocks, in order, whatever the local array held before. *)
Theorem collected_summary_hash_of_all_blocks (SpdmContext : SPDM_DEVICE_CONTEXT)
  (Blocks : list (list byte)) (Tail Stack : list byte) :
  let Measurements :=
    concat (map (drop sizeof_SPDM_MEASUREMENT_BLOCK_COMMON_HEADER) Blocks) in
  SpdmMeasurementCollectionFunc
    (MeasurementSpec (Algorithm (ConnectionInfo SpdmContext)))
    (MeasurementHashAlgo (Algorithm (ConnectionInfo SpdmContext)))
    MAX_SPDM_MEASUREMENT_RECORD_SIZE
  = Some (Z.of_nat (length Blocks), concat Blocks ++ Tail) ->
  Forall IsCollectedBlock Blocks ->
  (length Measurements <= length Stack)%nat ->
  SpdmGenerateMeasurementSummaryHash SpdmContext
    SPDM_CHALLENGE_REQUEST_ALL_MEASUREMENTS_HASH Stack
  = Some (SpdmHashAll (NegotiatedHashAlgo SpdmContext) Measurements).
Proof.
  intros Measurements HCollect HBlocks HRoom.
  unfold SpdmGenerateMeasurementSummaryHash.
  destruct (decide (SPDM_CHALLENGE_REQUEST_ALL_MEASUREMENTS_HASH
                    = SPDM_CHALLENGE_REQUEST_NO_MEASUREMENT_SUMMARY_HASH));
    [discriminate|].
  destruct (decide (_ \/ _)) as [_|Hn]; [|exfalso; apply Hn; by right].
  rewrite HCollect, Nat2Z.id.
  pose proof (MeasurementCopyLoop_all Blocks [] Tail Stack 0 HBlocks) as HLoop.
  cbn [app length] in HLoop. cbv zeta in HLoop.
  destruct (MeasurementCopyLoop _ _ _ _ _ _) as [Data Size].
  cbn [fst snd] in HLoop. rewrite HLoop by (fold Measurements; lia).
  by rewrite take_0.
Qed.

End MeasurementSummary.

(** ** The measurement signature *)

Lemma CopyMem_behind (Before After Source : list byte) (Offset : nat) :
  Offset = length Before ->
  CopyMem (Before ++ After) Offset Source
  = Before ++ Source ++ drop (length Source) After.
Proof.
  intros ->. unfold CopyMem.
  rewrite take_app_length.
  rewrite drop_app_ge by lia.
  by replace (length Before + length Source - length Before)%nat
    with (length Source) by lia.
Qed.

Section MeasurementSignature.
Context `{Config : SpdmLibConfig} `{Crypt : SpdmCryptLib}
        `{CryptSession : SpdmCryptLibSession}.

(** X25.  [SpdmGenerateMeasurementSignature] on a response buffer that has the
    room for the trailer (nonce, opaque length, opaque data) and the
    signature.  The trailer is written behind the body of the response;
    body and trailer are appended to L1L2 and the signature is taken over
    the digest of the whole of L1L2; a signature of the signature size
    fills the buffer to its end.  When L1L2 has no room, there is no
    signature and the context is as before. *)
Theorem measurement_signature_layout (SpdmContext : SPDM_DEVICE_CONTEXT)
  (ResponseMessage Nonce : list byte) :
  let SignatureSize :=
    GetSpdmAsymSize (BaseAsymAlgo (Algorithm (ConnectionInfo SpdmContext))) in
  let Opaque := OpaqueMeasurementRsp (LocalContext SpdmContext) in
  let Trailer :=
    Field SPDM_NONCE_SIZE Nonce ++ WriteLE 2 (UINT16 (Z.of_nat (length Opaque)))
    ++ Opaque in
  let Body :=
    take (length ResponseMessage - (length Trailer + SignatureSize)) ResponseMessage in
  let Ledger := L1L2 (Transcript SpdmContext) in
  let Generated :=
    SpdmGenerateMeasurementSignature SpdmContext ResponseMessage Nonce in
  let Fits :=
    Z.of_nat (length (Buffer Ledger) + length (Body ++ Trailer))
    <= MaxBufferSize Ledger in
  (length Trailer + SignatureSize <= length ResponseMessage)%nat ->
  (Fits ->
   Generated.1.1
   = SpdmResponderDataSignFunc (BaseAsymAlgo (Algorithm (ConnectionInfo SpdmContext)))
       (SpdmHashAll (NegotiatedHashAlgo SpdmContext)
          (Buffer Ledger ++ Body ++ Trailer)) /\
   Buffer (L1L2 (Transcript Generated.2)) = Buffer Ledger ++ Body ++ Trailer /\
   take (length ResponseMessage - SignatureSize) Generated.1.2 = Body ++ Trailer /\
   (forall Signature,
      Generated.1.1 = Some Signature -> length Signature = SignatureSize ->
      Generated.1.2 = Body ++ Trailer ++ Signature)) /\
  (~ Fits -> Generated.1.1 = None /\ Generated.2 = SpdmContext).
Proof.
  intros SignatureSize Opaque Trailer Body Ledger Generated Fits HRoom.
  assert (HTrailer : length Trailer = (SPDM_NONCE_SIZE + 2 + length Opaque)%nat).
  { subst Trailer. rewrite !length_app, length_Field, length_WriteLE. lia. }
  set (Rest := drop (length ResponseMessage - (length Trailer + SignatureSize))
                 ResponseMessage).
  assert (HSplit : ResponseMessage = Body ++ Rest)
    by (subst Body Rest; by rewrite take_drop).
  assert (HBody : length Body
                  = (length ResponseMessage - (length Trailer + SignatureSize))%nat)
    by (subst Body; rewrite length_take; lia).
  assert (HRest : length Rest = (length Trailer + SignatureSize)%nat)
    by (subst Rest; rewrite length_drop; lia).
  clearbody Body Rest. subst ResponseMessage.
  subst Generated. unfold SpdmGenerateMeasurementSignature.
  fold SignatureSize Opaque Ledger.
  replace (length (Body ++ Rest)
           - (SPDM_NONCE_SIZE + 2 + length Opaque + SignatureSize))%nat
    with (length Body) by (rewrite length_app; lia).
  set (N := Field SPDM_NONCE_SIZE Nonce) in *.
  set (L := WriteLE 2 (UINT16 (Z.of_nat (length Opaque)))) in *.
  assert (HN : length N = SPDM_NONCE_SIZE) by apply length_Field.
  assert (HL : length L = 2%nat) by apply length_WriteLE.
  rewrite (CopyMem_behind Body) by reflexivity.
  rewrite (app_assoc Body N).
  rewrite (CopyMem_behind (Body ++ N)) by (rewrite length_app; lia).
  rewrite (app_assoc (Body ++ N) L).
  rewrite (CopyMem_behind ((Body ++ N) ++ L)) by (rewrite !length_app; lia).
  rewrite (app_assoc ((Body ++ N) ++ L) Opaque).
  assert (HSigned : ((Body ++ N) ++ L) ++ Opaque = Body ++ Trailer)
    by (subst Trailer; by rewrite <- !app_assoc).
  rewrite HSigned.
  set (Remainder := drop (length Opaque) (drop (length L) (drop (length N) Rest))).
  assert (HRemainder : length Remainder = SignatureSize)
    by (subst Remainder; rewrite !length_drop; lia).
  assert (HTake : take (length (Body ++ Rest) - SignatureSize)
                    ((Body ++ Trailer) ++ Remainder) = Body ++ Trailer).
  { rewrite take_app_le by (rewrite !length_app; lia).
    apply firstn_all2. rewrite !length_app. lia. }
  rewrite HTake.
  unfold AppendManagedBuffer, GetManagedBufferSize.
  destruct (decide _) as [Hover|Hfit]; cbn [RETURN_ERROR fst snd].
  - split; [intros HF; subst Fits; lia | done].
  - split; [intros _ | intros HF; subst Fits; exfalso; apply HF; lia].
    cbn [GetManagedBuffer Buffer].
    destruct (SpdmResponderDataSignFunc _ _) as [Signature|] eqn:HSign;
      cbn [fst snd Transcript set_Transcript L1L2 set_L1L2 Buffer].
    + repeat split; try done.
      * rewrite (CopyMem_behind (Body ++ Trailer)) by (rewrite !length_app; lia).
        rewrite (app_assoc (Body ++ Trailer)).
        rewrite take_app_le by (rewrite !length_app; lia).
        rewrite take_app_le by (rewrite !length_app; lia).
        apply firstn_all2. rewrite length_app. lia.
      * intros S [= <-] HS.
        rewrite (CopyMem_behind (Body ++ Trailer)) by (rewrite !length_app; lia).
        rewrite (drop_ge Remainder) by lia.
        by rewrite app_nil_r, <- app_assoc.
    + repeat split; try done.
Qed.

End MeasurementSignature.

(** ** The CHALLENGE_AUTH response of the responder *)

Lemma ReadLE_WriteLE_2 (z : Z) : ReadLE (WriteLE 2 z) = z mod 65536.
Proof.
  cbn [WriteLE ReadLE]. rewrite !byte_to_Z_to_byte.
  pose proof (Z.div_mod z 256 ltac:(lia)) as Hz.
  pose proof (Z.mod_pos_bound z 256 ltac:(lia)) as Hr.
  pose proof (Z.mod_pos_bound (z / 256) 256 ltac:(lia)) as Hq.
  pose proof (Z.div_mod (z / 256) 256 ltac:(lia)) as Hz2.
  apply (Z.mod_unique z 65536 (z / 256 / 256)); [left; lia | lia].
Qed.

(** Six parts written one behind the other into a zeroed buffer. *)
Lemma response_assembly (Total O1 O2 O3 O4 O5 : nat) (P0 P1 P2 P3 P4 P5 : list byte) :
  O1 = length P0 -> O2 = (O1 + length P1)%nat -> O3 = (O2 + length P2)%nat ->
  O4 = (O3 + length P3)%nat -> O5 = (O4 + length P4)%nat ->
  CopyMem
    (CopyMem
       (CopyMem
          (CopyMem (CopyMem (CopyMem (ZeroMem Total) 0 P0) O1 P1) O2 P2)
          O3 P3)
       O4 P4)
    O5 P5
  = (P0 ++ P1 ++ P2 ++ P3 ++ P4 ++ P5)
    ++ ZeroMem (Total - length (P0 ++ P1 ++ P2 ++ P3 ++ P4 ++ P5)).
Proof.
  intros -> -> -> -> ->. unfold ZeroMem.
  change (CopyMem (replicate Total x00) 0 P0)
    with (P0 ++ drop (length P0) (replicate Total x00)).
  rewrite (CopyMem_behind P0) by reflexivity.
  rewrite (app_assoc P0 P1).
  rewrite (CopyMem_behind (P0 ++ P1)) by (rewrite !length_app; lia).
  rewrite (app_assoc (P0 ++ P1) P2).
  rewrite (CopyMem_behind ((P0 ++ P1) ++ P2)) by (rewrite !length_app; lia).
  rewrite (app_assoc ((P0 ++ P1) ++ P2) P3).
  rewrite (CopyMem_behind (((P0 ++ P1) ++ P2) ++ P3)) by (rewrite !length_app; lia).
  rewrite (app_assoc (((P0 ++ P1) ++ P2) ++ P3) P4).
  rewrite (CopyMem_behind ((((P0 ++ P1) ++ P2) ++ P3) ++ P4))
    by (rewrite !length_app; lia).
  rewrite !drop_replicate. rewrite <- !app_assoc.
  do 6 f_equal. rewrite !length_app. f_equal. lia.
Qed.

(** A part of a message, read back at its offset. *)
Lemma take_drop_part (Before Part After : list byte) (Offset Size : nat) :
  Offset = length Before -> Size = length Part ->
  take Size (drop Offset (Before ++ Part ++ After)) = Part.
Proof.
  intros -> ->. rewrite drop_app_length. by rewrite take_app_length.
Qed.

Section ResponderChallengeAuth.
Context `{Config : SpdmLibConfig} `{Crypt : SpdmCryptLib}.



End ResponderChallengeAuth.

(** ** The encapsulated CHALLENGE handler *)

Section EncapChallengeAuthFacts.
Context `{Config : SpdmLibConfig} `{Crypt : SpdmCryptLib}.

(** X28.  What [SpdmGetEncapResponseChallengeAuth] records of a request.  A
    request that is not 36 bytes long, or for which MutC has no room, is
    answered InvalidRequest and leaves the context as it was.  Every other
    request is appended to MutC before it is looked at: MutC starts with
    its old bytes and the request whatever the answer is, and when the
    answer is InvalidRequest (for the slot or for the summary hash) the
    request is all that changed. *)
Theorem encap_challenge_records_request (SpdmContext : SPDM_DEVICE_CONTEXT)
  (Request Nonce Stack : list byte) :
  let Encap := SpdmGetEncapResponseChallengeAuth SpdmContext Request Nonce Stack in
  let MutC := MessageMutC (Transcript SpdmContext) in
  let Recorded :=
    {| MaxBufferSize := MaxBufferSize MutC; Buffer := Buffer MutC ++ Request |} in
  let Fits :=
    length Request = sizeof_SPDM_CHALLENGE_REQUEST /\
    Z.of_nat (length (Buffer MutC) + length Request) <= MaxBufferSize MutC in
  (~ Fits ->
   Encap = (SpdmErrorResponse SPDM_ERROR_CODE_INVALID_REQUEST 0, SpdmContext)) /\
  (Fits ->
   LedgerKept Recorded (MessageMutC (Transcript (snd Encap))) /\
   (IsInvalidRequest (fst Encap) ->
    snd Encap = set_Transcript (set_MessageMutC Recorded) SpdmContext)).
Proof.
  intros Encap MutC Recorded Fits. subst Encap Fits.
  unfold SpdmGetEncapResponseChallengeAuth.
  destruct (decide (length Request <> sizeof_SPDM_CHALLENGE_REQUEST)) as [Hsize|Hsize].
  { split; [done | intros [Hs _]; done]. }
  fold MutC. unfold AppendManagedBuffer, GetManagedBufferSize.
  destruct (decide (MaxBufferSize MutC < _)) as [Hover|Hfits]; cbn [RETURN_ERROR].
  { split; [done | intros [_ Hf]; lia]. }
  fold Recorded.
  split.
  { intros Hnot. exfalso. apply Hnot. split; [|lia].
    destruct (decide (length Request = sizeof_SPDM_CHALLENGE_REQUEST)); tauto. }
  intros _. cbv zeta.
  destruct (_ && _).
  { split; [apply LedgerKept_refl | done]. }
  destruct (SpdmGenerateMeasurementSummaryHash _ _ _).
  2:{ split; [apply LedgerKept_refl | done]. }
  match goal with
  | |- context [SpdmGenerateChallengeAuthSignature ?c ?r ?m] =>
      pose proof (SpdmGenerateChallengeAuthSignature_keeps c r m) as [K _];
      destruct (SpdmGenerateChallengeAuthSignature c r m) as [[Signature|] c']
  end.
  all: cbv zeta in K; unfold TranscriptKept in K;
       destruct K as (_ & _ & _ & _ & KMC & _).
  all: cbn [fst snd Transcript set_Transcript MessageMutC set_MessageMutC set_M1M2] in *.
  all: split; [exact KMC | unfold IsInvalidRequest; discriminate].
Qed.

End EncapChallengeAuthFacts.

(** ** The CHALLENGE_AUTH response of the encapsulated handler *)

(** The parts of a CHALLENGE_AUTH, read at the offsets the requester
    reads them at. *)
Lemma challenge_auth_parts `{Crypt : SpdmCryptLib} (Reader : SPDM_DEVICE_CONTEXT)
  (Header CertHash N Summary Opaque Rest : list byte) :
  let Signed :=
    Header ++ CertHash ++ N ++ Summary
    ++ WriteLE 2 (Z.of_nat (length Opaque)) ++ Opaque in
  let Message := Signed ++ Rest in
  length Header = sizeof_SPDM_MESSAGE_HEADER ->
  length CertHash = ContextHashSize Reader ->
  length N = SPDM_NONCE_SIZE ->
  length Summary = ContextHashSize Reader ->
  Z.of_nat (length Opaque) < 65536 ->
  AuthCertChainHash Reader Message = CertHash /\
  AuthMeasurementSummaryHash Reader Message = Summary /\
  AuthOpaqueLength Reader Message = length Opaque /\
  AuthSignedSize Reader Message = length Signed.
Proof.
  intros Signed Message HHeader HCert HN HSummary HOpaque.
  set (L := WriteLE 2 (Z.of_nat (length Opaque))) in *.
  assert (HL : length L = 2%nat) by apply length_WriteLE.
  unfold sizeof_SPDM_MESSAGE_HEADER, SPDM_NONCE_SIZE in *.
  assert (HLength : AuthOpaqueLength Reader Message = length Opaque).
  { unfold AuthOpaqueLength, ReadUnaligned, sizeof_SPDM_MESSAGE_HEADER, SPDM_NONCE_SIZE.
    subst Message Signed.
    replace ((Header ++ CertHash ++ N ++ Summary ++ L ++ Opaque) ++ Rest)
      with ((Header ++ CertHash ++ N ++ Summary) ++ L ++ Opaque ++ Rest)
      by (by rewrite <- !app_assoc).
    rewrite (take_drop_part (Header ++ CertHash ++ N ++ Summary) L)
      by (rewrite ?length_app; lia).
    subst L. rewrite ReadLE_WriteLE_2, Z.mod_small by lia. lia. }
  split.
  { unfold AuthCertChainHash, sizeof_SPDM_MESSAGE_HEADER. subst Message Signed.
    rewrite <- !app_assoc. by apply (take_drop_part Header CertHash). }
  split.
  { unfold AuthMeasurementSummaryHash, sizeof_SPDM_MESSAGE_HEADER, SPDM_NONCE_SIZE.
    subst Message Signed.
    replace ((Header ++ CertHash ++ N ++ Summary ++ L ++ Opaque) ++ Rest)
      with ((Header ++ CertHash ++ N) ++ Summary ++ L ++ Opaque ++ Rest)
      by (by rewrite <- !app_assoc).
    apply take_drop_part; [rewrite !length_app; lia | lia]. }
  split; [exact HLength|].
  unfold AuthSignedSize. rewrite HLength.
  unfold sizeof_SPDM_CHALLENGE_AUTH_RESPONSE, SPDM_NONCE_SIZE.
  subst Signed. rewrite !length_app. lia.
Qed.

Lemma AuthAttribute_of_slot (b : byte) :
  let SlotNum := byte_to_Z b in
  let Param1 := AuthAttributeByte (UINT8 (Z.land SlotNum 0xF)) 0 0 mod 256 in
  AuthAttributeSlotNum Param1 = Z.land SlotNum 0xF /\
  AuthAttributeBasicMutAuthReq Param1 = 0.
Proof. destruct b; vm_compute; split; reflexivity. Qed.

Section EncapChallengeAuthLayout.
Context `{Config : SpdmLibConfig} `{Crypt : SpdmCryptLib}.

(** X29.  The CHALLENGE_AUTH of [SpdmGetEncapResponseChallengeAuth], when the
    summary hash has the hash size and the opaque data fits its 16-bit
    length.  The response is as long as its signed part and the signature
    size together; the signed part is the header (version 1.1 if the
    connection supports it, else 1.0; the low nibble of the slot asked for
    as slot field, no mutual-authentication request; Param2 0 for slot
    0xFF, else the bit of the slot), the digest of the local chain (of the
    provisioned slot for 0xFF), the nonce, the summary hash and the opaque
    data of the local context behind its length.  A reader that
    negotiated the same hash size finds each part at the offset it reads
    at. *)
Theorem encap_challenge_auth_layout (SpdmContext Reader : SPDM_DEVICE_CONTEXT)
  (Request Nonce Stack Summary Message : list byte)
  (SpdmContext' : SPDM_DEVICE_CONTEXT) :
  let SlotNum := HeaderParam1 Request in
  let CertSlot :=
    if decide (SlotNum = 0xFF)
    then ProvisionedSlotNum (LocalContext SpdmContext) else SlotNum in
  let Param2 := if decide (SlotNum = 0xFF) then 0 else UINT8 (Z.shiftl 1 SlotNum) in
  let Opaque := OpaqueChallengeAuthRsp (LocalContext SpdmContext) in
  let SpdmVer :=
    if SpdmIsVersionSupported SpdmContext SPDM_MESSAGE_VERSION_11
    then SPDM_MESSAGE_VERSION_11 else SPDM_MESSAGE_VERSION_10 in
  let Signed :=
    MessageHeader SpdmVer SPDM_CHALLENGE_AUTH
      (AuthAttributeByte (UINT8 (Z.land SlotNum 0xF)) 0 0) Param2
    ++ SpdmGenerateCertChainHash SpdmContext CertSlot
    ++ Field SPDM_NONCE_SIZE Nonce
    ++ Summary
    ++ WriteLE 2 (Z.of_nat (length Opaque))
    ++ Opaque in
  SpdmGetEncapResponseChallengeAuth SpdmContext Request Nonce Stack
  = (SpdmResponseMessage Message, SpdmContext') ->
  SpdmGenerateMeasurementSummaryHash SpdmContext (HeaderParam2 Request) Stack
  = Some Summary ->
  length Summary = GetSpdmHashSize (NegotiatedHashAlgo SpdmContext) ->
  ContextHashSize Reader = GetSpdmHashSize (NegotiatedHashAlgo SpdmContext) ->
  Z.of_nat (length Opaque) < 65536 ->
  length Message
  = (length Signed
     + GetSpdmReqAsymSize (ReqBaseAsymAlg (Algorithm (ConnectionInfo SpdmContext))))%nat /\
  take (length Signed) Message = Signed /\
  HeaderCode Message = SPDM_CHALLENGE_AUTH /\
  AuthAttributeSlotNum (HeaderParam1 Message) = Z.land SlotNum 0xF /\
  AuthAttributeBasicMutAuthReq (HeaderParam1 Message) = 0 /\
  HeaderParam2 Message = Param2 /\
  AuthCertChainHash Reader Message = SpdmGenerateCertChainHash SpdmContext CertSlot /\
  AuthMeasurementSummaryHash Reader Message = Summary /\
  AuthOpaqueLength Reader Message = length Opaque /\
  AuthSignedSize Reader Message = length Signed.
Proof.
  intros SlotNum CertSlot Param2 Opaque SpdmVer Signed HResult HSummary HSummarySize
    HReader HOpaque.
  set (Header := MessageHeader SpdmVer SPDM_CHALLENGE_AUTH
                   (AuthAttributeByte (UINT8 (Z.land SlotNum 0xF)) 0 0) Param2) in *.
  set (CertHash := SpdmGenerateCertChainHash SpdmContext CertSlot) in *.
  set (N := Field SPDM_NONCE_SIZE Nonce) in *.
  set (L := WriteLE 2 (Z.of_nat (length Opaque))) in *.
  set (HashSize := GetSpdmHashSize (NegotiatedHashAlgo SpdmContext)) in *.
  set (SignatureSize :=
         GetSpdmReqAsymSize (ReqBaseAsymAlg (Algorithm (ConnectionInfo SpdmContext)))).
  assert (HHeader : length Header = 4%nat) by reflexivity.
  assert (HCert : length CertHash = HashSize) by apply SpdmHashAll_size.
  assert (HN : length N = SPDM_NONCE_SIZE) by apply length_Field.
  assert (HL : length L = 2%nat) by apply length_WriteLE.
  assert (HSigned : length Signed
                    = (4 + HashSize + SPDM_NONCE_SIZE + HashSize + 2 + length Opaque)%nat).
  { subst Signed. rewrite !length_app. lia. }
  (* the response as the handler assembles it *)
  assert (HMessage : exists Signature,
            Message = take (length Signed + SignatureSize)
                        (Signed ++ Signature
                         ++ drop (length Signature) (ZeroMem SignatureSize))).
  { unfold SpdmGetEncapResponseChallengeAuth in HResult.
    destruct (decide (length Request <> _)); [discriminate|].
    destruct (AppendManagedBuffer _ _) as [Status NewMutC].
    destruct (RETURN_ERROR Status); [discriminate|].
    cbv zeta in HResult. fold SlotNum in HResult.
    destruct (_ && _); [discriminate|].
    match type of HResult with
    | context [SpdmGenerateMeasurementSummaryHash ?c _ _] =>
        change (SpdmGenerateMeasurementSummaryHash c (HeaderParam2 Request) Stack)
          with (SpdmGenerateMeasurementSummaryHash SpdmContext (HeaderParam2 Request)
                  Stack) in HResult;
        change (GetSpdmHashSize (NegotiatedHashAlgo c)) with HashSize in HResult;
        change (SpdmGenerateCertChainHash c
                  (if decide (SlotNum = 255)
                   then ProvisionedSlotNum (LocalContext c) else SlotNum))
          with CertHash in HResult;
        change (OpaqueChallengeAuthRsp (LocalContext c)) with Opaque in HResult;
        change (GetSpdmReqAsymSize (ReqBaseAsymAlg (Algorithm (ConnectionInfo c))))
          with SignatureSize in HResult;
        change (if SpdmIsVersionSupported c SPDM_MESSAGE_VERSION_11
                then SPDM_MESSAGE_VERSION_11 else SPDM_MESSAGE_VERSION_10)
          with SpdmVer in HResult
    end.
    rewrite HSummary in HResult.
    fold Param2 Header N in HResult.
    unfold UINT16 in HResult. change (2 ^ 16) with 65536 in HResult.
    rewrite (Z.mod_small (Z.of_nat (length Opaque))) in HResult by lia.
    fold L in HResult.
    unfold sizeof_SPDM_CHALLENGE_AUTH_RESPONSE in HResult.
    rewrite (response_assembly _ _ _ _ _ _ Header CertHash N Summary L Opaque)
      in HResult by lia.
    fold Signed in HResult. rewrite HSigned in HResult.
    rewrite take_app_le in HResult by lia.
    rewrite (firstn_all2 Signed) in HResult by lia.
    destruct (SpdmGenerateChallengeAuthSignature _ true Signed) as [[Signature|] c'];
      [|discriminate].
    apply (f_equal fst) in HResult. cbn [fst] in HResult.
    apply SpdmResponseMessage_inj in HResult.
    exists Signature. rewrite <- HResult, HSigned.
    rewrite (CopyMem_behind Signed) by lia.
    do 3 f_equal.
    replace (4 + HashSize + SPDM_NONCE_SIZE + HashSize + 2 + length Opaque
             + SignatureSize
             - (4 + HashSize + SPDM_NONCE_SIZE + HashSize + 2 + length Opaque))%nat
      with SignatureSize by lia.
    reflexivity. }
  destruct HMessage as [Signature HMessage].
  assert (HTail : (SignatureSize
                   <= length (Signature
                              ++ drop (length Signature) (ZeroMem SignatureSize)))%nat).
  { unfold ZeroMem. rewrite length_app, length_drop, length_replicate. lia. }
  assert (HLength : length Message = (length Signed + SignatureSize)%nat).
  { rewrite HMessage, length_take, length_app. lia. }
  assert (HTake : take (length Signed) Message = Signed).
  { rewrite HMessage, take_take, Nat.min_l by lia. by rewrite take_app_length. }
  split; [exact HLength|]. split; [exact HTake|].
  assert (HSplit : Message = Signed ++ drop (length Signed) Message)
    by (by rewrite <- HTake at 1; rewrite take_drop).
  (* the header *)
  destruct (Header_of_take Message SpdmVer SPDM_CHALLENGE_AUTH
              (AuthAttributeByte (UINT8 (Z.land SlotNum 0xF)) 0 0) Param2)
    as (HCode & HP1 & HP2).
  { rewrite HSplit. subst Signed. by rewrite <- !app_assoc. }
  split; [by rewrite HCode|].
  rewrite HP1, HP2.
  destruct (AuthAttribute_of_slot (nth 2 Request x00)) as [HSlot HMut].
  split; [exact HSlot|]. split; [exact HMut|].
  split.
  { subst Param2. destruct (decide (SlotNum = 255)); [reflexivity|].
    unfold UINT8. apply Z.mod_small. apply Z.mod_pos_bound. lia. }
  rewrite HSplit.
  apply (challenge_auth_parts Reader Header CertHash N Summary Opaque); try done.
  all: by rewrite HReader.
Qed.

End EncapChallengeAuthLayout.

(** ** Signatures of the session handshake *)

Section HandshakeSignatures.
Context `{Config : SpdmLibConfig} `{Crypt : SpdmCryptLib}
        `{CryptSession : SpdmCryptLibSession}.

(** X30.  The verifier of a handshake signature hashes the TH the signer hashed.
    When both ends share the handshake view, their certificate chains
    hold their headers and the chain the responder holds for its peer is
    the one the requester uses: a signature of
    [SpdmGenerateKeyExchangeRspSignature] is the responder signature over
    the digest of a TH, and [SpdmVerifyKeyExchangeRspSignature] on the
    requester checks any signature, under the leaf key of the peer
    certificate chain, against the digest of this same TH; likewise for
    [SpdmGenerateFinishReqSignature] on the requester and
    [SpdmVerifyFinishReqSignature] on the responder, whose TH takes both
    certificates whether or not the session asks for mutual
    authentication. *)
Theorem handshake_signatures_cover_same_digest
  (Requester Responder : SPDM_DEVICE_CONTEXT)
  (RequesterSession ResponderSession : SPDM_SESSION_INFO) :
  SameHandshakeView Requester Responder RequesterSession ResponderSession ->
  ChainsHoldHeader Requester ->
  ChainsHoldHeader Responder ->
  LocalUsedCert Requester = PeerCert Responder ->
  let HashAlgo := NegotiatedHashAlgo Responder in
  (forall Signature,
     SpdmGenerateKeyExchangeRspSignature Responder ResponderSession = Some Signature ->
     exists Cert THCurr,
       LocalUsedCert Responder = Some Cert /\
       SpdmCalculateTHCurrAK Responder ResponderSession (Some Cert) = (true, THCurr) /\
       SpdmResponderDataSignFunc (BaseAsymAlgo (Algorithm (ConnectionInfo Responder)))
         (SpdmHashAll HashAlgo (GetManagedBuffer THCurr)) = Some Signature /\
       forall SignData,
         SpdmVerifyKeyExchangeRspSignature Requester RequesterSession SignData
         = VerifyWithLeaf true Requester Cert
             (SpdmHashAll HashAlgo (GetManagedBuffer THCurr)) SignData) /\
  (forall Signature,
     SpdmGenerateFinishReqSignature Requester RequesterSession = Some Signature ->
     exists Cert MutCert THCurr,
       LocalUsedCert Responder = Some Cert /\
       PeerCert Responder = Some MutCert /\
       SpdmCalculateTHCurrAKF Responder ResponderSession (Some Cert) (Some MutCert)
       = (true, THCurr) /\
       SpdmRequesterDataSignFunc (ReqBaseAsymAlg (Algorithm (ConnectionInfo Requester)))
         (SpdmHashAll HashAlgo (GetManagedBuffer THCurr)) = Some Signature /\
       forall SignData,
         SpdmVerifyFinishReqSignature Responder ResponderSession SignData
         = VerifyWithLeaf false Responder MutCert
             (SpdmHashAll HashAlgo (GetManagedBuffer THCurr)) SignData).
Proof.
  intros (Hh & HA & HK & HF & HS & HM & HPeer & _) _ _ HUsed HashAlgo. subst HashAlgo.
  split; intros Signature.
  - unfold SpdmGenerateKeyExchangeRspSignature, SpdmVerifyKeyExchangeRspSignature.
    rewrite HPeer. unfold LocalUsedCert.
    destruct (bool_decide _); [discriminate|].
    destruct (SpdmCalculateTHCurrAK Responder ResponderSession _)
      as [[|] THCurr] eqn:HTH; cbn [negb]; [|discriminate].
    intros HSign. eexists _, THCurr.
    split; [reflexivity|]. split; [exact HTH|]. split; [exact HSign|].
    intros SignData.
    rewrite (SpdmCalculateTHCurrAK_ext Requester Responder RequesterSession
               ResponderSession _ Hh HA HK).
    rewrite HTH. cbn [negb]. by rewrite Hh.
  - unfold SpdmGenerateFinishReqSignature, SpdmVerifyFinishReqSignature.
    rewrite HPeer, HUsed.
    destruct (PeerCert Responder) as [MutCert|]; [|discriminate].
    destruct (LocalUsedCert Responder) as [Cert|]; [|discriminate].
    rewrite (SpdmCalculateTHCurrAKF_ext Requester Responder RequesterSession
               ResponderSession (Some Cert) (Some MutCert) Hh HA HK HF).
    destruct (SpdmCalculateTHCurrAKF Responder ResponderSession _ _)
      as [[|] THCurr] eqn:HTH; cbn [negb]; [|discriminate].
    rewrite Hh. intros HSign. by exists Cert, MutCert, THCurr.
Qed.

End HandshakeSignatures.

(** ** The properties on the example contexts *)

(** Freeing the second session of the full registry leaves the first
    where it was. *)
Lemma other_sessions_undisturbed_witness :
  SpdmGetSessionInfoViaSessionId
    (snd (SpdmFreeSessionId FullRegistryContext 0xFFFEFFFE)) 0xFFFFFFFF
  = Some 0%nat.
Proof.
  destruct (other_sessions_undisturbed FullRegistryContext 0xFFFEFFFE 0xFFFFFFFF false)
    as (_ & _ & HFreed & _).
  - lia.
  - rewrite HFreed. reflexivity.
Defined.

(** Two ids fill a registry of two slots in order; a third is refused. *)
Lemma registry_fills_in_order_witness :
  fst (AssignAll (SpdmInitContext 2) [5; 9] false) = [Some 0%nat; Some 1%nat] /\
  fst (SpdmAssignSessionId (snd (AssignAll (SpdmInitContext 2) [5; 9] false)) 7 true)
  = None.
Proof.
  destruct (registry_fills_in_order 2 [5; 9] false) as [HOrder HFull].
  - apply (bool_decide_unpack _). vm_compute. exact I.
  - apply Forall_cons; [discriminate|].
    apply Forall_cons; [discriminate | apply Forall_nil].
  - simpl. lia.
  - split; [exact HOrder | apply HFull; reflexivity].
Defined.

(** Reading the base hash algorithm into two bytes. *)
Lemma get_data_reports_needed_size_witness :
  exists Copied,
    SpdmGetData FreshContext SpdmDataBaseHashAlgo
      {| Location := SpdmDataLocationConnection; AdditionalData := [] |} 4
    = (RETURN_SUCCESS, 4%nat, Copied) /\
    length Copied = 4%nat.
Proof.
  destruct (get_data_reports_needed_size FreshContext SpdmDataBaseHashAlgo
              {| Location := SpdmDataLocationConnection; AdditionalData := [] |}
              2 4 []) as (_ & _ & HAgain).
  - reflexivity.
  - exact HAgain.
Defined.

(** Setting the response state to 1 and reading it back. *)
Lemma response_state_round_trip_witness :
  SpdmGetData
    (snd (SpdmSetData FreshContext SpdmDataResponseState
            {| Location := SpdmDataLocationLocal; AdditionalData := [] |}
            [x01; x00; x00; x00]))
    SpdmDataResponseState
    {| Location := SpdmDataLocationConnection; AdditionalData := [] |} 8
  = (RETURN_SUCCESS, 4%nat, [x01; x00; x00; x00]).
Proof.
  destruct (response_state_round_trip FreshContext
              {| Location := SpdmDataLocationLocal; AdditionalData := [] |}
              {| Location := SpdmDataLocationConnection; AdditionalData := [] |}
              [x01; x00; x00; x00] 8) as [_ HRead].
  - reflexivity.
  - lia.
  - exact HRead.
Defined.

(** A slot count above the maximum is refused and the bounds stay. *)
Lemma provision_stays_in_bounds_witness :
  LocalProvisionInBounds
    (snd (SpdmSetData FreshContext SpdmDataSlotCount
            {| Location := SpdmDataLocationLocal; AdditionalData := [] |} [x09])).
Proof.
  destruct (provision_stays_in_bounds FreshContext 4 SpdmDataSlotCount
              {| Location := SpdmDataLocationLocal; AdditionalData := [] |} [x09])
    as [HInit HKept].
  - simpl. lia.
  - simpl. lia.
  - apply HKept. exact HInit.
Defined.

(** Provisioning slot 1 of a context with two slots. *)
Lemma provisioned_chain_is_hashed_witness :
  SpdmGenerateCertChainHash
    (snd (SpdmSetData TwoSlotContext SpdmDataPublicCertChains (SlotParameter 1)
            ExampleCertChain)) 1
  = ToyDigest ExampleCertChain.
Proof.
  destruct (provisioned_chain_is_hashed TwoSlotContext (SlotParameter 1) ExampleCertChain)
    as [HStatus HHash].
  - unfold LocalProvisionInBounds. vm_compute. repeat split; discriminate.
  - destruct HHash as [HHash _].
    + apply HStatus. reflexivity.
    + exact HHash.
Defined.

(** A requester provisioned with the root hash of the example chain
    accepts this chain, which becomes its peer chain, and refuses the
    chain of another root. *)
Lemma accepted_chain_becomes_peer_chain_witness :
  let Rooted :=
    set_LocalContext (set_PeerRootCertHashProvision [xd0; xd1; xd2; xd3])
      NegotiatedContext in
  let Accepting :=
    set_ConnectionInfo (set_PeerCertChainBuffer ExampleCertChain) Rooted in
  SpdmVerifyCertificateChain Rooted ExampleCertChain = Some (true, Accepting) /\
  SpdmVerifyCertificateChainHash Accepting (ToyDigest ExampleCertChain) = true /\
  SpdmVerifyCertificateChain Rooted ExampleRequesterCertChain = Some (false, Rooted).
Proof.
  intros Rooted Accepting.
  destruct (accepted_chain_becomes_peer_chain Rooted ExampleCertChain)
    as ([Passed Context] & HResult & HIff & _ & HPass).
  { vm_compute. discriminate. }
  { intros _. vm_compute. lia. }
  destruct (accepted_chain_becomes_peer_chain Rooted ExampleRequesterCertChain)
    as ([Refused Context'] & HResult' & HIff' & HFail & _).
  { vm_compute. discriminate. }
  { intros _. vm_compute. lia. }
  cbn [fst snd] in *.
  assert (HPassed : Passed = true).
  { apply HIff. split; [reflexivity|]. split; [|intros HNil; discriminate HNil].
    intros _. split; reflexivity. }
  assert (HRefused : Refused = false).
  { destruct Refused; [|reflexivity]. destruct HIff' as [HAccepted _].
    destruct (HAccepted eq_refl) as (_ & HRoot & _).
    destruct HRoot as [_ HTake]; [discriminate|]. discriminate HTake. }
  destruct (HPass HPassed) as (HContext & HPeer).
  destruct HPeer as [_ HHash]; [discriminate|].
  rewrite HResult, HResult', HPassed, HRefused, (HFail HRefused). subst Context.
  split; [reflexivity|]. split; [exact HHash | reflexivity].
Defined.

(** The chains of the two ends of the example handshake hold their
    headers. *)
Lemma ChainsHoldHeader_examples :
  ChainsHoldHeader HandshakeRequester /\ ChainsHoldHeader HandshakeResponder.
Proof.
  split; (split; [intros _ | intros Chain [= <-]]); vm_compute; lia.
Qed.

(** The HMAC of the example responder passes on the example requester. *)
Lemma key_exchange_hmac_agrees_witness :
  exists Hmac,
    SpdmGenerateKeyExchangeRspHmac HandshakeResponder ExampleSession = Some Hmac /\
    SpdmVerifyKeyExchangeRspHmac HandshakeRequester ExampleSession Hmac = true.
Proof.
  eexists. split; [reflexivity|].
  apply (key_exchange_hmac_agrees HandshakeRequester HandshakeResponder
           ExampleSession ExampleSession).
  - unfold SameHandshakeView. repeat split.
  - apply ChainsHoldHeader_examples.
  - apply ChainsHoldHeader_examples.
  - reflexivity.
Defined.

(** The FINISH HMACs of the example handshake, in both directions, pass
    on the other end. *)
Lemma finish_hmacs_agree_witness :
  (exists Hmac,
     SpdmGenerateFinishReqHmac HandshakeRequester ExampleSession = Some Hmac /\
     SpdmVerifyFinishReqHmac HandshakeResponder ExampleSession Hmac = true) /\
  (exists Hmac,
     SpdmGenerateFinishRspHmac HandshakeResponder ExampleSession = Some Hmac /\
     SpdmVerifyFinishRspHmac HandshakeRequester ExampleSession Hmac = true).
Proof.
  destruct (finish_hmacs_agree HandshakeRequester HandshakeResponder
              ExampleSession ExampleSession) as [HReq HRsp].
  - unfold SameHandshakeView. repeat split.
  - apply ChainsHoldHeader_examples.
  - apply ChainsHoldHeader_examples.
  - split; eexists; (split; [reflexivity|]).
    + by apply HReq.
    + by apply HRsp.
Defined.

(** A PSK session: the two contexts hold different certificate chains. *)
Lemma psk_hmacs_agree_witness :
  exists Hmac,
    SpdmGeneratePskExchangeRspHmac ResponderContext ExampleSession = Some Hmac /\
    SpdmVerifyPskExchangeRspHmac RequesterContext ExampleSession Hmac = true.
Proof.
  eexists. split; [reflexivity|].
  apply (psk_hmacs_agree RequesterContext ResponderContext ExampleSession ExampleSession);
    reflexivity.
Defined.

(** A fresh context has received nothing: the challenge is refused. *)
Lemma challenge_refused_before_any_message_witness :
  let Result := TrySpdmChallenge FreshContext 0 0 (replicate 32 x11) in
  ResultTrace Result = [] /\ ResultContext Result = FreshContext /\
  ResultMeasurementHash Result = [] /\
  (ResultStatus Result = RETURN_DEVICE_ERROR \/
   ResultStatus Result = RETURN_INVALID_PARAMETER).
Proof.
  apply (challenge_refused_before_any_message FreshContext 0 0 (replicate 32 x11)).
  intros (HFlag & _). apply HFlag. reflexivity.
Defined.

(** The request of the example requester for slot 0. *)
Lemma challenge_request_format_witness :
  exists Request Rest,
    ResultTrace (TrySpdmChallenge RequesterContext 0
                   SPDM_CHALLENGE_REQUEST_ALL_MEASUREMENTS_HASH (replicate 32 x11))
    = EventSendRequest Request :: Rest /\
    Request = [x10; x83; x00; xff] ++ replicate 32 x11.
Proof.
  destruct (challenge_request_format RequesterContext 0
              SPDM_CHALLENGE_REQUEST_ALL_MEASUREMENTS_HASH (replicate 32 x11))
    as (Request & Rest & HTrace & _).
  - unfold ChallengeAllowed. repeat split; try (vm_compute; discriminate).
    left. reflexivity.
  - exists Request, Rest. split; [exact HTrace|].
    vm_compute in HTrace. by injection HTrace as <- _.
Defined.


(** An event that does not occur in the trace of a run on the examples. *)
Ltac absent_from_trace H :=
  vm_compute in H; repeat (destruct H as [H|H]; [discriminate H|]); exact H.

(** Three runs on the example requester: the challenge of the example
    responder succeeds and authenticates the connection; a CHALLENGE_AUTH
    asking for mutual authentication is refused with the connection as it
    was; a requester that holds another chain for its peer ends with a
    security violation. *)
Lemma challenge_status_and_context_witness :
  let Succeeded :=
    TrySpdmChallenge RequesterContext 0
      SPDM_CHALLENGE_REQUEST_ALL_MEASUREMENTS_HASH (replicate 32 x11) in
  let Refused :=
    @TrySpdmChallenge TypicalConfig ToyCrypt MutAuthPeerIo RequesterContext 0
      SPDM_CHALLENGE_REQUEST_ALL_MEASUREMENTS_HASH (replicate 32 x11) in
  let OtherChain :=
    set_ConnectionInfo (set_PeerCertChainBuffer ExampleRequesterCertChain)
      RequesterContext in
  let Violated :=
    TrySpdmChallenge OtherChain 0
      SPDM_CHALLENGE_REQUEST_ALL_MEASUREMENTS_HASH (replicate 32 x11) in
  (ConnectionState (ConnectionInfo RequesterContext)
   = SpdmConnectionStateAfterCertificate /\
   ResultStatus Succeeded = RETURN_SUCCESS /\
   ConnectionState (ConnectionInfo (ResultContext Succeeded))
   = SpdmConnectionStateAuthenticated /\
   Z.land (SpdmCmdReceiveState (ResultContext Succeeded)) SPDM_CHALLENGE_RECEIVE_FLAG
   = SPDM_CHALLENGE_RECEIVE_FLAG /\
   ErrorState (ResultContext Succeeded) = SPDM_STATUS_SUCCESS) /\
  (ResultStatus Refused = RETURN_DEVICE_ERROR /\
   ConnectionInfo (ResultContext Refused) = ConnectionInfo RequesterContext /\
   SpdmCmdReceiveState (ResultContext Refused) = SpdmCmdReceiveState RequesterContext /\
   ErrorState (ResultContext Refused) = SPDM_STATUS_ERROR_DEVICE_NO_CAPABILITIES) /\
  (ResultStatus Violated = RETURN_SECURITY_VIOLATION /\
   ConnectionInfo (ResultContext Violated) = ConnectionInfo OtherChain /\
   ErrorState (ResultContext Violated) = SPDM_STATUS_ERROR_CERTIFICATE_FAILURE).
Proof.
  intros Succeeded Refused OtherChain Violated.
  assert (HQuiet : forall Result : CHALLENGE_RESULT,
            (forall Response, ~ In (EventHandleErrorResponse Response)
                                   (ResultTrace Result)) ->
            ~ In EventEncapsulatedRequest (ResultTrace Result) ->
            ~ HandlerOrEncapRan (ResultTrace Result) /\
            ~ HandlerRan (ResultTrace Result)).
  { intros Result HNo HNoEncap. split.
    - intros [HIn | [Response HIn]]; [tauto | by apply (HNo Response)].
    - intros [Response HIn]. by apply (HNo Response). }
  split; [|split].
  - destruct (challenge_status_and_context RequesterContext 0
                SPDM_CHALLENGE_REQUEST_ALL_MEASUREMENTS_HASH (replicate 32 x11))
      as (HSuccess & _).
    assert (HOk : ResultStatus Succeeded = RETURN_SUCCESS) by (vm_compute; reflexivity).
    destruct (HSuccess HOk) as (HState & HFlag & HError).
    split; [reflexivity|]. split; [exact HOk|]. split; [exact HState|].
    split; [exact HFlag|]. apply HError.
    intros HIn. absent_from_trace HIn.
  - destruct (@challenge_status_and_context TypicalConfig ToyCrypt MutAuthPeerIo
                RequesterContext 0
                SPDM_CHALLENGE_REQUEST_ALL_MEASUREMENTS_HASH (replicate 32 x11))
      as (_ & HFailure & _ & HDevice).
    assert (HStatus : ResultStatus Refused = RETURN_DEVICE_ERROR)
      by (vm_compute; reflexivity).
    destruct (HQuiet Refused) as [HQ _].
    { intros Response HIn. absent_from_trace HIn. }
    { intros HIn. absent_from_trace HIn. }
    assert (HNot : ResultStatus Refused <> RETURN_SUCCESS)
      by (rewrite HStatus; discriminate).
    destruct (HFailure HNot HQ) as (HInfo & HFlags & _ & _).
    split; [exact HStatus|]. split; [exact HInfo|]. split; [exact HFlags|].
    apply HDevice; [exact HStatus | vm_compute; discriminate | exact HQ].
  - destruct (challenge_status_and_context OtherChain 0
                SPDM_CHALLENGE_REQUEST_ALL_MEASUREMENTS_HASH (replicate 32 x11))
      as (_ & HFailure & HViolation & _).
    assert (HStatus : ResultStatus Violated = RETURN_SECURITY_VIOLATION)
      by (vm_compute; reflexivity).
    destruct (HQuiet Violated) as [HQ HR].
    { intros Response HIn. absent_from_trace HIn. }
    { intros HIn. absent_from_trace HIn. }
    assert (HNot : ResultStatus Violated <> RETURN_SUCCESS)
      by (rewrite HStatus; discriminate).
    destruct (HFailure HNot HQ) as (HInfo & _ & _ & _).
    split; [exact HStatus|]. split; [exact HInfo|].
    apply HViolation; [exact HStatus | exact HR].
Defined.

(** The challenge of the example responder: the signature verifies over
    A, B, the request and the response without its signature. *)
Lemma challenge_success_means_verified_witness :
  exists Request Response,
    ResponderSigned RequesterContext
      ([x0a; x0a] ++ [x0b] ++ Request
       ++ take (AuthSignedSize RequesterContext Response) Response)
      (AuthSignature RequesterContext Response).
Proof.
  destruct (challenge_success_means_verified RequesterContext 0
              SPDM_CHALLENGE_REQUEST_ALL_MEASUREMENTS_HASH (replicate 32 x11))
    as (Request & Response & Rest & _ & _ & _ & HSigned & _).
  - intros Chain [= <-]. vm_compute. lia.
  - reflexivity.
  - intros [Response HRan]. vm_compute in HRan. intuition discriminate.
  - vm_compute. discriminate.
  - vm_compute. discriminate.
  - exists Request, Response. exact HSigned.
Defined.

(** The two cached blocks of the example responder. *)
Lemma cached_summary_hash_of_selected_blocks_witness :
  CalculateMeasurementSummaryHash ResponderContext
    SPDM_CHALLENGE_REQUEST_TCB_COMPONENT_MEASUREMENT_HASH (replicate 16 xee)
  = Some (ToyDigest [xaa; xbb]) /\
  CalculateMeasurementSummaryHash ResponderContext
    SPDM_CHALLENGE_REQUEST_ALL_MEASUREMENTS_HASH (replicate 16 xee)
  = Some (ToyDigest [xaa; xbb; xcc; xdd]).
Proof.
  destruct (cached_summary_hash_of_selected_blocks ResponderContext
              [[x01; x01; x05; x00; x00; x02; x00; xaa; xbb];
               [x02; x01; x05; x00; x01; x02; x00; xcc; xdd]] [] (replicate 16 xee))
    as [HTcb HAll].
  - reflexivity.
  - reflexivity.
  - apply Forall_cons; [reflexivity|]. apply Forall_cons; [reflexivity | apply Forall_nil].
  - simpl. lia.
  - split; [exact HTcb | exact HAll].
Defined.

(** The two blocks the example device reports. *)
Lemma collected_summary_hash_of_all_blocks_witness :
  SpdmGenerateMeasurementSummaryHash NegotiatedContext
    SPDM_CHALLENGE_REQUEST_ALL_MEASUREMENTS_HASH (replicate 16 xee)
  = Some (ToyDigest [x01; x02; x00; xcc; xdd; x00; x02; x00; xaa; xbb]).
Proof.
  rewrite (collected_summary_hash_of_all_blocks NegotiatedContext
             [ToyFirmwareBlock; ToyRomBlock] [] (replicate 16 xee)).
  - reflexivity.
  - reflexivity.
  - apply Forall_cons; [split; [simpl; lia | reflexivity]|].
    apply Forall_cons; [split; [simpl; lia | reflexivity] | apply Forall_nil].
  - simpl. lia.
Defined.

(** A measurement response of 50 bytes: 11 bytes of body, the nonce, the
    opaque length 0, and room for a signature of 5 bytes. *)
Lemma measurement_signature_layout_witness :
  take 45
    (SpdmGenerateMeasurementSignature NegotiatedContext (replicate 50 x4d)
       (replicate 32 x33)).1.2
  = replicate 11 x4d ++ replicate 32 x33 ++ [x00; x00].
Proof.
  destruct (measurement_signature_layout NegotiatedContext (replicate 50 x4d)
              (replicate 32 x33)) as [HFits _].
  - simpl. lia.
  - destruct HFits as (_ & _ & HTake & _).
    + vm_compute. discriminate.
    + exact HTake.
Defined.



(** The encapsulated CHALLENGE_AUTH of the example context, read with the
    sizes of the example requester. *)
Lemma encap_challenge_auth_layout_witness :
  length ExampleEncapChallengeAuth = (48 + 5)%nat /\
  AuthMeasurementSummaryHash RequesterContext ExampleEncapChallengeAuth
  = ToyDigest [x01; x02; x00; xcc; xdd; x00; x02; x00; xaa; xbb] /\
  AuthOpaqueLength RequesterContext ExampleEncapChallengeAuth = 2%nat.
Proof.
  destruct (encap_challenge_auth_layout ResponderContext RequesterContext
              (ChallengeRequest 0 SPDM_CHALLENGE_REQUEST_ALL_MEASUREMENTS_HASH)
              (replicate SPDM_NONCE_SIZE x22) (replicate 16 x00)
              (ToyDigest [x01; x02; x00; xcc; xdd; x00; x02; x00; xaa; xbb])
              ExampleEncapChallengeAuth
              (snd (SpdmGetEncapResponseChallengeAuth ResponderContext
                      (ChallengeRequest 0 SPDM_CHALLENGE_REQUEST_ALL_MEASUREMENTS_HASH)
                      (replicate SPDM_NONCE_SIZE x22) (replicate 16 x00))))
    as (HLength & _ & _ & _ & _ & _ & _ & HSummary & HOpaque & _).
  - vm_compute. reflexivity.
  - vm_compute. reflexivity.
  - reflexivity.
  - reflexivity.
  - simpl. lia.
  - split; [rewrite HLength; reflexivity|].
    split; [exact HSummary | exact HOpaque].
Defined.

(** The signatures of the example handshake pass on the other end. *)
Lemma handshake_signatures_cover_same_digest_witness :
  (exists Signature,
     SpdmGenerateKeyExchangeRspSignature HandshakeResponder ExampleSession
     = Some Signature /\
     SpdmVerifyKeyExchangeRspSignature HandshakeRequester ExampleSession Signature
     = true) /\
  (exists Signature,
     SpdmGenerateFinishReqSignature HandshakeRequester ExampleSession
     = Some Signature /\
     SpdmVerifyFinishReqSignature HandshakeResponder ExampleSession Signature = true).
Proof.
  destruct (handshake_signatures_cover_same_digest HandshakeRequester HandshakeResponder
              ExampleSession ExampleSession) as [HKey HFinish].
  - unfold SameHandshakeView. repeat split.
  - apply ChainsHoldHeader_examples.
  - apply ChainsHoldHeader_examples.
  - reflexivity.
  - split.
    + eexists. split; [reflexivity|].
      destruct (HKey _ eq_refl) as (Cert & THCurr & HCert & HTH & _ & HVerify).
      rewrite HVerify. vm_compute in HCert, HTH.
      injection HCert as <-. injection HTH as <-. reflexivity.
    + eexists. split; [reflexivity|].
      destruct (HFinish _ eq_refl)
        as (Cert & MutCert & THCurr & HCert & HMutCert & HTH & _ & HVerify).
      rewrite HVerify. vm_compute in HCert, HMutCert, HTH.
      injection HCert as <-. injection HMutCert as <-. injection HTH as <-.
      reflexivity.
Defined.

(** A peer that is never ready is asked [RetryTimes + 1] times. *)
Example busy_peer_is_asked_again :
  let Result :=
    @SpdmChallenge TypicalConfig ToyCrypt BusyPeerIo RequesterContext 0
      SPDM_CHALLENGE_REQUEST_ALL_MEASUREMENTS_HASH (fun _ => replicate 32 x11) in
  ResultStatus Result = RETURN_NO_RESPONSE /\
  SentRequests (ResultTrace Result) = 4%nat.
Proof. vm_compute. split; reflexivity. Qed.
